(** * Bluesky data visualizer: a shallow embedding of [app.py]

    The program is a Flask application with one stateful endpoint,
    [generate_charts], which authenticates against the Bluesky API, parses a
    post link, resolves the missing half of the identity, fetches reposts and
    likes, buckets their timestamps by day and renders two bar charts.

    The embedding keeps the shape of the Python source:
    - Python values that come out of [response.json()] and [request.json] are
      the inductive [json];
    - the module-level global [access_token] is the process state [proc];
    - [requests], [matplotlib] and the interpreter's message texts are an
      explicit [world] that every function reads;
    - exceptions, the global and the calls made are threaded through a small
      state/error/writer monad [M]. *)

From Stdlib Require Import ZArith String Ascii List Bool Lia.
From Stdlib Require Import DecimalString Permutation Sorted.
Import ListNotations.

Open Scope string_scope.
Open Scope Z_scope.

(** ** Python values and the operations the program applies to them *)

Module Py.

(** A decoded JSON document, which is also the Python value the program
    holds: [None] is [JNull], a [dict] is [JObj] (fields in document order),
    a [list] is [JArr].  Numbers are the integers; a fractional number
    behaves like a non-zero integer under every operation used here. *)
#[warnings="-register-all"]
Inductive json : Type :=
| JNull
| JBool (b : bool)
| JNum (n : Z)
| JStr (s : string)
| JArr (items : list json)
| JObj (fields : list (string * json)).

(** Exception classes that occur; all of them derive from [Exception].
    [RequestException] stands for the whole [requests.exceptions] family
    (connection errors, [HTTPError] from [raise_for_status], and the
    [JSONDecodeError] that [response.json()] raises). *)
Inductive exn_class : Type :=
| RequestException
| ValueError
| TypeError
| AttributeError
| KeyError
| PlainException
| OtherException (name : string).

Record exn : Type := mkExn { exn_cls : exn_class; exn_str : string }.

Inductive outcome (A : Type) : Type :=
| Ok (a : A)
| Raise (e : exn).
Arguments Ok {A} a.
Arguments Raise {A} e.

(** Errors raised by the interpreter or a library rather than by a [raise]
    statement of the program.  Their message text is left to the [world]. *)
Inductive fault : Type :=
| FHttpStatus (status : Z) (url : string)
| FJsonDecode (url : string)
| FNoAttribute (v : json) (attr : string)
| FNotIterable (v : json)
| FNotContainer (v : json)
| FNotSubscriptable (v : json)
| FMissingKey (k : string)
| FIsoformat (s : string)
| FNaiveAware.

Definition fault_class (f : fault) : exn_class :=
  match f with
  | FHttpStatus _ _ | FJsonDecode _ => RequestException
  | FNoAttribute _ _ => AttributeError
  | FNotIterable _ | FNotContainer _ | FNotSubscriptable _ | FNaiveAware => TypeError
  | FMissingKey _ => KeyError
  | FIsoformat _ => ValueError
  end.

(** [bool(v)]: the truth value Python gives to [v] in [if v] and [not v]. *)
Definition truthy (v : json) : bool :=
  match v with
  | JNull => false
  | JBool b => b
  | JNum n => negb (n =? 0)
  | JStr s => negb (String.eqb s EmptyString)
  | JArr items => match items with [] => false | _ => true end
  | JObj fields => match fields with [] => false | _ => true end
  end.

(** A [dict] built from a JSON object keeps the last value of a repeated key. *)
Fixpoint dict_get (k : string) (fields : list (string * json)) : option json :=
  match fields with
  | [] => None
  | (k', v) :: rest =>
      match dict_get k rest with
      | Some v' => Some v'
      | None => if String.eqb k k' then Some v else None
      end
  end.

Definition dict_has (k : string) (fields : list (string * json)) : bool :=
  match dict_get k fields with Some _ => true | None => false end.

(** Keys in insertion order, each once. *)
Fixpoint dict_keys (fields : list (string * json)) : list string :=
  match fields with
  | [] => []
  | (k, _) :: rest => k :: filter (fun k' => negb (String.eqb k k')) (dict_keys rest)
  end.

Fixpoint chars (s : string) : list string :=
  match s with
  | EmptyString => []
  | String c rest => String c EmptyString :: chars rest
  end.

(** [needle in s] for two strings. *)
Definition is_substring (needle s : string) : bool :=
  match String.index 0 needle s with Some _ => true | None => false end.

Definition is_str (k : string) (v : json) : bool :=
  match v with JStr s => String.eqb s k | _ => false end.

(** [k in v] for a string [k]: key of a dict, element of a list, substring
    of a string; other values are not containers. *)
Definition py_contains (k : string) (v : json) : fault + bool :=
  match v with
  | JObj fields => inr (dict_has k fields)
  | JArr items => inr (existsb (is_str k) items)
  | JStr s => inr (is_substring k s)
  | _ => inl (FNotContainer v)
  end.

(** [v[k]] for a string [k]: only a dict can be indexed by a string. *)
Definition py_getitem (k : string) (v : json) : fault + json :=
  match v with
  | JObj fields =>
      match dict_get k fields with
      | Some x => inr x
      | None => inl (FMissingKey k)
      end
  | _ => inl (FNotSubscriptable v)
  end.

(** [for x in v]: the items iterated over. *)
Definition py_iter (v : json) : fault + list json :=
  match v with
  | JArr items => inr items
  | JObj fields => inr (map JStr (dict_keys fields))
  | JStr s => inr (map JStr (chars s))
  | _ => inl (FNotIterable v)
  end.

(** [v.get(k)] and [v.get(k, default)]: only a dict has the method. *)
Definition py_get (k : string) (default : json) (v : json) : fault + json :=
  match v with
  | JObj fields =>
      match dict_get k fields with
      | Some x => inr x
      | None => inr default
      end
  | _ => inl (FNoAttribute v "get")
  end.

(** Characters are code points below 256.  [str.strip()] removes the
    characters for which [str.isspace()] holds. *)
Definition is_space (c : ascii) : bool :=
  let n := Z.of_nat (nat_of_ascii c) in
  ((9 <=? n) && (n <=? 13)) || ((28 <=? n) && (n <=? 32)) || (n =? 133) || (n =? 160).

Fixpoint lstrip (s : string) : string :=
  match s with
  | EmptyString => EmptyString
  | String c rest => if is_space c then lstrip rest else s
  end.

Fixpoint rstrip (s : string) : string :=
  match s with
  | EmptyString => EmptyString
  | String c rest =>
      match rstrip rest with
      | EmptyString => if is_space c then EmptyString else String c EmptyString
      | r => String c r
      end
  end.

Definition strip (s : string) : string := rstrip (lstrip s).

(** [s.split(sep)] for a one-character separator. *)
Fixpoint py_split (sep : ascii) (s : string) : list string :=
  match s with
  | EmptyString => [EmptyString]
  | String c rest =>
      if Ascii.eqb c sep then EmptyString :: py_split sep rest
      else match py_split sep rest with
           | [] => [String c EmptyString]
           | piece :: pieces => String c piece :: pieces
           end
  end.

Definition str_of_Z (n : Z) : string := NilZero.string_of_int (Z.to_int n).

End Py.
Export Py.

(** ** [datetime]: parsing, equality and order *)

Module Datetime.

(** A [datetime.datetime] value.  [utcoffset] is [None] for a naive value and
    the offset east of UTC, in microseconds, for an aware one. *)
Record datetime : Type := mkDatetime {
  year : Z; month : Z; day : Z;
  hour : Z; minute : Z; second : Z; microsecond : Z;
  utcoffset : option Z
}.

Definition digit (c : ascii) : option Z :=
  let n := Z.of_nat (nat_of_ascii c) in
  if (48 <=? n) && (n <=? 57) then Some (n - 48) else None.

Definition is_digit (c : ascii) : bool :=
  match digit c with Some _ => true | None => false end.

(** The parser walks a C string: past the last character it reads the
    terminator, which is no digit and no punctuation. *)
Definition NUL : ascii := Ascii.zero.

Definition peek (s : string) : ascii :=
  match s with String c _ => c | EmptyString => NUL end.

Definition advance (s : string) : string :=
  match s with String _ rest => rest | EmptyString => EmptyString end.

Fixpoint drop (n : nat) (s : string) : string :=
  match n with O => s | S k => drop k (advance s) end.

Definition char_at (i : nat) (s : string) : option ascii := String.get i s.

Definition is_char (i : nat) (c : ascii) (s : string) : bool :=
  match char_at i s with Some c' => Ascii.eqb c' c | None => false end.

(** [parse_digits]: exactly [k] ASCII digits, and the text after them. *)
Fixpoint parse_digits (k : nat) (acc : Z) (s : string) : option (Z * string) :=
  match k with
  | O => Some (acc, s)
  | S k' =>
      match digit (peek s) with
      | Some d => parse_digits k' (10 * acc + d) (advance s)
      | None => None
      end
  end.

Definition is_leap (y : Z) : bool :=
  ((y mod 4 =? 0) && negb (y mod 100 =? 0)) || (y mod 400 =? 0).

Definition days_in_month (y m : Z) : Z :=
  if m =? 2 then (if is_leap y then 29 else 28)
  else if (m =? 4) || (m =? 6) || (m =? 9) || (m =? 11) then 30
  else 31.

Definition days_before_year (y : Z) : Z :=
  let p := y - 1 in p * 365 + p / 4 - p / 100 + p / 400.

Fixpoint days_before_month_aux (y : Z) (n : nat) : Z :=
  match n with
  | O => 0
  | S k => days_before_month_aux y k + days_in_month y (Z.of_nat (S k))
  end.

(** Days of year [y] that precede the first day of month [m]. *)
Definition days_before_month (y m : Z) : Z :=
  days_before_month_aux y (Z.to_nat (m - 1)).

(** [ymd_to_ord]: 0001-01-01 is day 1. *)
Definition ymd2ord (y m d : Z) : Z :=
  days_before_year y + days_before_month y m + d.

(** [ord_to_ymd], the inverse, by 400-, 100-, 4- and 1-year cycles. *)
Definition ord2ymd (ordinal : Z) : Z * Z * Z :=
  let n := ordinal - 1 in
  let n400 := n / 146097 in
  let n := n mod 146097 in
  let n100 := n / 36524 in
  let n := n mod 36524 in
  let n4 := n / 1461 in
  let n := n mod 1461 in
  let n1 := n / 365 in
  let n := n mod 365 in
  let y := n400 * 400 + 1 + n100 * 100 + n4 * 4 + n1 in
  if (n1 =? 4) || (n100 =? 4) then (y - 1, 12, 31)
  else
    let leapyear := (n1 =? 3) && (negb (n4 =? 24) || (n100 =? 3)) in
    let month := Z.shiftr (n + 50) 5 in
    let before m := days_before_month 1 m + (if (2 <? m) && leapyear then 1 else 0) in
    if n <? before month
    then (y, month - 1, n - before (month - 1) + 1)
    else (y, month, n - before month + 1).

(** Monday is 0. *)
Definition weekday (y m d : Z) : Z := (ymd2ord y m d + 6) mod 7.

(** The ordinal of the Monday that starts ISO week 1 of a year. *)
Definition iso_week1_monday (y : Z) : Z :=
  let first_day := ymd2ord y 1 1 in
  let first_weekday := (first_day + 6) mod 7 in
  let week1_monday := first_day - first_weekday in
  if 3 <? first_weekday then week1_monday + 7 else week1_monday.

(** [iso_to_ymd]: an ISO year, week and weekday as a calendar day. *)
Definition iso_to_ymd (iso_year iso_week iso_day : Z) : option (Z * Z * Z) :=
  if negb ((1 <=? iso_year) && (iso_year <=? 9999)) then None
  else if negb ((1 <=? iso_week) && (iso_week <=? 52)
                || (iso_week =? 53)
                   && ((weekday iso_year 1 1 =? 3)
                       || (weekday iso_year 1 1 =? 2) && is_leap iso_year))
  then None
  else if negb ((1 <=? iso_day) && (iso_day <=? 7)) then None
  else Some (ord2ymd (iso_week1_monday iso_year + (iso_week - 1) * 7 + iso_day - 1)).

(** Index of the first character from [idx] on that is no digit; [s] is
    the text from [idx]. *)
Fixpoint digits_end (s : string) (idx : nat) : nat :=
  match s with
  | String c rest => if is_digit c then digits_end rest (S idx) else idx
  | EmptyString => idx
  end.

(** [_find_isoformat_datetime_separator]: where the date ends, read off
    characters 4 and 5: [YYYY-MM-DD] (10), [YYYYMMDD] (8), [YYYY-Www] (8),
    [YYYY-Www-d] (10), [YYYYWww] (7), [YYYYWwwd] (8). *)
Definition find_isoformat_datetime_separator (s : string) : option nat :=
  let len := String.length s in
  if Nat.eqb len 7 then Some 7%nat
  else if Ascii.eqb (peek (drop 4 s)) "-" then
    if Ascii.eqb (peek (drop 5 s)) "W" then
      if Nat.ltb len 8 then None
      else if Nat.ltb 8 len && Ascii.eqb (peek (drop 8 s)) "-" then
        if Nat.eqb len 9 then None
        else if Nat.ltb 10 len && is_digit (peek (drop 10 s)) then Some 8%nat
        else Some 10%nat
      else Some 8%nat
    else Some 10%nat
  else if Ascii.eqb (peek (drop 4 s)) "W" then
    let idx := digits_end (drop 7 s) 7 in
    if Nat.ltb idx 9 then Some idx
    else if Nat.even idx then Some 7%nat else Some 8%nat
  else Some 8%nat.

(** [parse_isoformat_date]: the date that ends at [sep]. *)
Definition parse_isoformat_date (s : string) (sep : nat) : option (Z * Z * Z) :=
  match parse_digits 4 0 s with
  | None => None
  | Some (y, p) =>
      let uses_separator := Ascii.eqb (peek p) "-" in
      let p := if uses_separator then advance p else p in
      if Ascii.eqb (peek p) "W" then
        match parse_digits 2 0 (advance p) with
        | None => None
        | Some (iso_week, p) =>
            let consumed := if uses_separator then 8%nat else 7%nat in
            if Nat.ltb consumed sep then
              if uses_separator && negb (Ascii.eqb (peek p) "-") then None
              else
                match parse_digits 1 0 (if uses_separator then advance p else p) with
                | None => None
                | Some (iso_day, _) => iso_to_ymd y iso_week iso_day
                end
            else iso_to_ymd y iso_week 1
        end
      else
        match parse_digits 2 0 p with
        | None => None
        | Some (m, p) =>
            if uses_separator && negb (Ascii.eqb (peek p) "-") then None
            else
              match parse_digits 2 0 (if uses_separator then advance p else p) with
              | None => None
              | Some (d, _) => Some (y, m, d)
              end
        end
  end.

(** Digits of a fraction beyond the sixth are skipped. *)
Fixpoint skip_digits (s : string) : string :=
  match s with
  | String c rest => if is_digit c then skip_digits rest else s
  | EmptyString => s
  end.

(** The fraction: up to six digits of the [n] characters left, scaled to
    microseconds.  The flag tells that a character follows. *)
Definition parse_fraction (s : string) (n : Z) : option (Z * bool) :=
  let to_parse := Z.to_nat (Z.min n 6) in
  match parse_digits to_parse 0 s with
  | None => None
  | Some (us, p) =>
      Some (us * 10 ^ (6 - Z.of_nat to_parse),
            negb (Ascii.eqb (peek (skip_digits p)) NUL))
  end.

(** [parse_hh_mm_ss_ff]: [HH[:MM[:SS]]] or [HH[MM[SS]]] with an optional
    fraction after [.] or [,], in the [n] characters from [s]; [k] counts
    the components still to read and [has_separator] is fixed by the
    character after the hour.  The result is the components read, the
    microseconds and the flag that a character follows. *)
Fixpoint parse_components (k : nat) (has_separator : option bool) (s : string) (n : Z)
    (acc : list Z) : option (list Z * Z * bool) :=
  match k with
  | O =>
      match parse_fraction s n with
      | Some (us, more) => Some (acc, us, more)
      | None => None
      end
  | S k' =>
      match parse_digits 2 0 s with
      | None => None
      | Some (v, p) =>
          let c := peek p in
          let sep := match has_separator with Some b => b | None => Ascii.eqb c ":" end in
          let acc := (acc ++ [v])%list in
          if n - 3 <=? 0 then Some (acc, 0, negb (Ascii.eqb c NUL))
          else if sep && Ascii.eqb c ":" then parse_components k' (Some sep) (advance p) (n - 3) acc
          else if Ascii.eqb c "." || Ascii.eqb c "," then
            match parse_fraction (advance p) (n - 3) with
            | Some (us, more) => Some (acc, us, more)
            | None => None
            end
          else if negb sep then parse_components k' (Some sep) p (n - 2) acc
          else None
      end
  end.

Definition parse_hh_mm_ss_ff (s : string) (n : Z) : option (Z * Z * Z * Z * bool) :=
  match parse_components 3 None s n [] with
  | Some (comps, us, more) =>
      Some (nth 0 comps 0, nth 1 comps 0, nth 2 comps 0, us, more)
  | None => None
  end.

Definition is_tz_start (c : ascii) : bool :=
  Ascii.eqb c "Z" || Ascii.eqb c "+" || Ascii.eqb c "-".

(** Position of the first [Z], [+] or [-], or the length of the text. *)
Fixpoint find_tz (t : string) : nat :=
  match t with
  | EmptyString => O
  | String c rest => if is_tz_start c then O else S (find_tz rest)
  end.

Definition day_micros : Z := 86400 * 1000000.

(** [parse_isoformat_time]: the text after the separator, as
    (h, m, s, us, offset).  An offset of zero whole seconds is UTC whatever
    its fraction; any other must lie strictly between minus and plus
    twenty-four hours. *)
Definition parse_isoformat_time (t : string) : option (Z * Z * Z * Z * option Z) :=
  let tz_pos := find_tz t in
  match parse_hh_mm_ss_ff t (Z.of_nat tz_pos) with
  | None => None
  | Some (h, m, s, us, more) =>
      if Nat.eqb tz_pos (String.length t) then
        if more then None else Some (h, m, s, us, None)
      else
        let tz := drop tz_pos t in
        if Ascii.eqb (peek tz) "Z" then
          if Ascii.eqb (peek (advance tz)) NUL then Some (h, m, s, us, Some 0) else None
        else
          match parse_hh_mm_ss_ff (advance tz) (Z.of_nat (String.length t - tz_pos - 1)) with
          | None => None
          | Some (tzh, tzm, tzs, tzus, more) =>
              if more then None
              else
                let seconds := tzh * 3600 + tzm * 60 + tzs in
                if seconds =? 0 then Some (h, m, s, us, Some 0)
                else
                  let mag := seconds * 1000000 + tzus in
                  let off := if Ascii.eqb (peek tz) "-" then - mag else mag in
                  if (- day_micros <? off) && (off <? day_micros)
                  then Some (h, m, s, us, Some off) else None
          end
  end.

(** The range checks of the [datetime] constructor. *)
Definition valid_fields (y m d h mi s us : Z) : bool :=
  (1 <=? y) && (y <=? 9999) && (1 <=? m) && (m <=? 12)
  && (1 <=? d) && (d <=? days_in_month y m)
  && (0 <=? h) && (h <=? 23) && (0 <=? mi) && (mi <=? 59)
  && (0 <=? s) && (s <=? 59) && (0 <=? us) && (us <=? 999999).

(** [PyUnicode_AsUTF8]: the parser reads the text in UTF-8, where a code
    point below 128 is one byte and one from 128 to 255 is two. *)
Fixpoint utf8 (s : string) : string :=
  match s with
  | EmptyString => EmptyString
  | String c rest =>
      let n := nat_of_ascii c in
      if Nat.ltb n 128 then String c (utf8 rest)
      else String (ascii_of_nat (192 + n / 64)%nat)
             (String (ascii_of_nat (128 + n mod 64)%nat) (utf8 rest))
  end.

(** The bytes of the character that separates date and time, read off its
    first byte. *)
Definition separator_width (c : ascii) : nat :=
  let n := nat_of_ascii c in
  if Nat.ltb n 128 then 1%nat
  else if Nat.eqb (n / 16)%nat 14 then 3%nat
  else if Nat.eqb (n / 16)%nat 15 then 4%nat
  else 2%nat.

(** [datetime.fromisoformat] as CPython 3.11 implements it: a calendar date
    ([YYYY-MM-DD], [YYYYMMDD]) or an ISO week date ([YYYY-Www[-d]],
    [YYYYWww[d]]), then optionally any single character and a time
    [HH[:MM[:SS[.f+]]]] with an optional [Z] or [+HH[:MM[:SS[.f+]]]];
    [None] is the [ValueError]. *)
Definition fromisoformat (s : string) : option datetime :=
  let b := utf8 s in
  if Nat.ltb (String.length b) 7 then None
  else
    match find_isoformat_datetime_separator b with
    | None => None
    | Some sep =>
        match parse_isoformat_date b sep with
        | None => None
        | Some (y, m, d) =>
            let time :=
              if Nat.ltb sep (String.length b)
              then parse_isoformat_time (drop (sep + separator_width (peek (drop sep b))) b)
              else Some (0, 0, 0, 0, None) in
            match time with
            | Some (h, mi, sec, us, off) =>
                if valid_fields y m d h mi sec us
                then Some (mkDatetime y m d h mi sec us off) else None
            | None => None
            end
        end
    end.

(** The seven fields in the order in which two naive values are compared. *)
Definition fields (d : datetime) : list Z :=
  [year d; month d; day d; hour d; minute d; second d; microsecond d].

Fixpoint lex_compare (a b : list Z) : comparison :=
  match a, b with
  | [], [] => Eq
  | [], _ :: _ => Lt
  | _ :: _, [] => Gt
  | x :: a', y :: b' =>
      match x ?= y with
      | Eq => lex_compare a' b'
      | c => c
      end
  end.

(** Microseconds from 0001-01-01T00:00 UTC to the instant an aware value
    with offset [off] denotes. *)
Definition utc_micros (d : datetime) (off : Z) : Z :=
  (((ymd2ord (year d) (month d) (day d) * 24 + hour d) * 60 + minute d) * 60
   + second d) * 1000000 + microsecond d - off.

(** [datetime._cmp]: two naive values compare field by field, two aware
    values by the instants they denote, and a naive value cannot be ordered
    against an aware one ([None] is the [TypeError]). *)
Definition dt_cmp (a b : datetime) : option comparison :=
  match utcoffset a, utcoffset b with
  | None, None => Some (lex_compare (fields a) (fields b))
  | Some oa, Some ob => Some (utc_micros a oa ?= utc_micros b ob)
  | _, _ => None
  end.

(** [a == b]; a naive and an aware value are unequal, without error. *)
Definition dt_eqb (a b : datetime) : bool :=
  match dt_cmp a b with Some Eq => true | _ => false end.

(** [a < b] when it is defined and holds. *)
Definition dt_ltb (a b : datetime) : bool :=
  match dt_cmp a b with Some Lt => true | _ => false end.

Definition dt_lt (a b : datetime) : Prop := dt_ltb a b = true.

Definition naive (d : datetime) : bool :=
  match utcoffset d with None => true | Some _ => false end.

(** The calendar day of a value, and whether the value is just a day:
    naive, at midnight. *)
Definition date_of (d : datetime) : Z * Z * Z := (year d, month d, day d).

Definition is_date (d : datetime) : bool :=
  naive d && (hour d =? 0) && (minute d =? 0) && (second d =? 0) && (microsecond d =? 0).

Definition date_lt (a b : Z * Z * Z) : Prop :=
  let '(y1, m1, d1) := a in
  let '(y2, m2, d2) := b in
  y1 < y2 \/ (y1 = y2 /\ (m1 < m2 \/ (m1 = m2 /\ d1 < d2))).

(** [collections.Counter] keyed by [datetime]: an insertion-ordered table
    in which a key equal ([==]) to one already present is counted there. *)
Definition counter : Type := list (datetime * nat).

Fixpoint counter_incr (k : datetime) (c : counter) : counter :=
  match c with
  | [] => [(k, 1%nat)]
  | (k', n) :: rest =>
      if dt_eqb k' k then (k', S n) :: rest else (k', n) :: counter_incr k rest
  end.

Definition Counter (items : list datetime) : counter :=
  fold_left (fun c k => counter_incr k c) items [].

Definition keys (c : counter) : list datetime := map fst c.

(** [c[k]]; a missing key counts zero. *)
Fixpoint counter_get (c : counter) (k : datetime) : nat :=
  match c with
  | [] => O
  | (k', n) :: rest => if dt_eqb k' k then n else counter_get rest k
  end.

(** [sorted(...)]: a stable sort by [<].  Ordering a list that holds both
    naive and aware values compares one of each and raises [TypeError]. *)
Fixpoint insert_sorted (x : datetime) (l : list datetime) : list datetime :=
  match l with
  | [] => [x]
  | y :: rest => if dt_ltb y x then y :: insert_sorted x rest else x :: l
  end.

Definition dt_sort (l : list datetime) : list datetime := fold_right insert_sorted [] l.

Definition comparable (l : list datetime) : bool :=
  forallb naive l || forallb (fun d => negb (naive d)) l.

Definition sorted (l : list datetime) : fault + list datetime :=
  if comparable l then inr (dt_sort l) else inl FNaiveAware.

End Datetime.
Export Datetime.

(** ** Regular expressions: the fragment the two link patterns use *)

Module Re.

(** One item of a pattern: a literal character, [c?], [[^c]+], or the
    opening or closing parenthesis of a group. *)
Inductive atom : Type :=
| Lit (c : ascii)
| Opt (c : ascii)
| PlusNot (c : ascii)
| Mark.

Definition pattern : Type := list atom.

Fixpoint lit (s : string) : pattern :=
  match s with
  | EmptyString => []
  | String c rest => Lit c :: lit rest
  end.

(** Backtracking match of [p] at the start of [s], greedy as in [re]: each
    [?] and [+] first takes as much as it can and gives back on failure.
    The result lists the text that remained at each parenthesis. *)
Fixpoint match_here (p : pattern) (s : string) : option (list string) :=
  match p with
  | [] => Some []
  | Lit c :: p' =>
      match s with
      | String c' s' => if Ascii.eqb c' c then match_here p' s' else None
      | EmptyString => None
      end
  | Opt c :: p' =>
      match s with
      | String c' s' =>
          if Ascii.eqb c' c then
            match match_here p' s' with
            | Some r => Some r
            | None => match_here p' s
            end
          else match_here p' s
      | EmptyString => match_here p' s
      end
  | PlusNot c :: p' =>
      let fix more (s : string) : option (list string) :=
        match s with
        | String c' s' =>
            if Ascii.eqb c' c then match_here p' s
            else match more s' with
                 | Some r => Some r
                 | None => match_here p' s
                 end
        | EmptyString => match_here p' s
        end in
      match s with
      | String c' s' => if Ascii.eqb c' c then None else more s'
      | EmptyString => None
      end
  | Mark :: p' =>
      match match_here p' s with
      | Some r => Some (s :: r)
      | None => None
      end
  end.

(** The text between two positions given by what remained at each. *)
Definition text_between (from to : string) : string :=
  substring 0 (String.length from - String.length to) from.

(** [re.match(p, s)] followed by [.groups()], for a pattern of two groups;
    [None] when there is no match. *)
Definition re_match (p : pattern) (s : string) : option (string * string) :=
  match match_here p s with
  | Some [o1; c1; o2; c2] => Some (text_between o1 c1, text_between o2 c2)
  | _ => None
  end.

(** [r"https?://bsky\.app/profile/(did:[^/]+)/post/([^/]+)"] *)
Definition did_in_profile_pattern : pattern :=
  (lit "http" ++ [Opt "s"] ++ lit "://bsky.app/profile/"
   ++ [Mark] ++ lit "did:" ++ [PlusNot "/"; Mark]
   ++ lit "/post/" ++ [Mark; PlusNot "/"; Mark])%list.

(** [r"https?://bsky\.app/profile/([^/]+)/post/([^/]+)"] *)
Definition web_pattern : pattern :=
  (lit "http" ++ [Opt "s"] ++ lit "://bsky.app/profile/"
   ++ [Mark; PlusNot "/"; Mark]
   ++ lit "/post/" ++ [Mark; PlusNot "/"; Mark])%list.

End Re.
Export Re.

(** ** The program's surroundings and its effects *)

Module Effects.

Inductive http_method : Type := GET | POST.

(** A call [requests.get(url, headers=..., params=...)] or
    [requests.post(url, json=...)]. *)
Record http_request : Type := mkRequest {
  req_method : http_method;
  req_url : string;
  req_headers : list (string * string);
  req_params : list (string * string);
  req_json : option json
}.

(** What a call meets: [requests] raises (no connection, timeout, ...) with
    some text, or a response arrives with a status code and a body, which is
    [None] when it is not a JSON document. *)
Inductive http_reply : Type :=
| NoReply (text : string)
| Reply (status_code : Z) (body : option json).

Record response : Type := mkResponse {
  resp_url : string;
  resp_status : Z;
  resp_body : option json
}.

(** The arguments of one [generate_chart] call. *)
Record chart : Type := mkChart {
  chart_colors : list string;
  chart_title : string;
  chart_xlabel : string;
  chart_ylabel : string;
  chart_dates : list datetime;
  chart_counts : list nat;
  chart_image_path : string
}.

Inductive log_level : Type := INFO | ERROR.

(** What the program does to the outside, in order. *)
Inductive event : Type :=
| Http (r : http_request)
| Plot (c : chart)
| Log (level : log_level) (text : string).

(** Everything the program reads from outside itself: the two environment
    variables ([None] when unset), the remote API, whether matplotlib manages
    to draw and save a chart, the text [repr] gives a list or dict, and the
    message text of interpreter and library errors. *)
Record world : Type := mkWorld {
  USERNAME : json;
  PASSWORD : json;
  http : http_request -> http_reply;
  pyplot : chart -> option exn;
  repr : json -> string;
  fault_text : fault -> string
}.

(** Process-wide state: the module global [access_token]. *)
Record proc : Type := mkProc { access_token : json }.

(** A computation reads the state and yields a value or an exception, the
    state it leaves, and the events it caused. *)
Definition M (A : Type) : Type := proc -> outcome A * proc * list event.

Definition ret {A} (a : A) : M A := fun st => (Ok a, st, []).

Definition bind {A B} (m : M A) (k : A -> M B) : M B :=
  fun st =>
    match m st with
    | (Ok a, st1, ev1) =>
        match k a st1 with
        | (r, st2, ev2) => (r, st2, (ev1 ++ ev2)%list)
        end
    | (Raise e, st1, ev1) => (Raise e, st1, ev1)
    end.

Definition raise {A} (e : exn) : M A := fun st => (Raise e, st, []).

Definition emit (ev : event) : M unit := fun st => (Ok tt, st, [ev]).

Definition read_access_token : M json := fun st => (Ok (access_token st), st, []).

Definition write_access_token (v : json) : M unit := fun _ => (Ok tt, mkProc v, []).

(** [try: m  except <class> as e: handler e], where [catches] tells whether
    the class of the exception is the one named. *)
Definition try_except {A} (m : M A) (catches : exn -> bool) (handler : exn -> M A) : M A :=
  fun st =>
    match m st with
    | (Raise e, st1, ev1) =>
        if catches e then
          match handler e st1 with
          | (r, st2, ev2) => (r, st2, (ev1 ++ ev2)%list)
          end
        else (Raise e, st1, ev1)
    | r => r
    end.

Definition is_request_exception (e : exn) : bool :=
  match exn_cls e with RequestException => true | _ => false end.

End Effects.
Export Effects.

Declare Scope py_scope.
Delimit Scope py_scope with py.
Notation "x <- m ;; k" := (bind m (fun x => k))
  (at level 61, m at next level, right associativity) : py_scope.
Notation "' pat <- m ;; k" := (bind m (fun x => match x with pat => k end))
  (at level 61, pat pattern, m at next level, right associativity) : py_scope.
Notation "m ;; k" := (bind m (fun _ => k))
  (at level 61, right associativity) : py_scope.
Open Scope py_scope.

(** ** The program *)

Definition API_URL : string := "https://bsky.social/xrpc".

(** A value returned to Flask: [jsonify(payload), status]. *)
Record flask_response : Type := mkFlask { status : Z; payload : json }.

Definition newline : string := String (ascii_of_nat 10) EmptyString.

Section Program.

Variable w : world.

(** [f"{v}"]: how a value is written inside an f-string. *)
Definition fmt (v : json) : string :=
  match v with
  | JNull => "None"
  | JBool true => "True"
  | JBool false => "False"
  | JNum n => str_of_Z n
  | JStr s => s
  | _ => repr w v
  end.

Definition fault_exn (f : fault) : exn := mkExn (fault_class f) (fault_text w f).

(** Run a pure operation, raising the exception of its fault. *)
Definition lift {A} (r : fault + A) : M A :=
  match r with
  | inr a => ret a
  | inl f => raise (fault_exn f)
  end.

Definition logging_info (text : string) : M unit := emit (Log INFO text).
Definition logging_error (text : string) : M unit := emit (Log ERROR text).

Definition requests_call (r : http_request) : M response :=
  emit (Http r) ;;
  match http w r with
  | NoReply text => raise (mkExn RequestException text)
  | Reply code body => ret (mkResponse (req_url r) code body)
  end.

Definition requests_get (url : string) (headers params : list (string * string)) : M response :=
  requests_call (mkRequest GET url headers params None).

Definition requests_post (url : string) (json_body : json) : M response :=
  requests_call (mkRequest POST url [] [] (Some json_body)).

(** [response.raise_for_status()]: [HTTPError] for a 4xx or 5xx status. *)
Definition raise_for_status (r : response) : M unit :=
  if (400 <=? resp_status r) && (resp_status r <? 600)
  then raise (fault_exn (FHttpStatus (resp_status r) (resp_url r)))
  else ret tt.

(** [response.json()]; the [JSONDecodeError] of requests 2.27 and later is a
    [RequestException]. *)
Definition response_json (r : response) : M json :=
  match resp_body r with
  | Some v => ret v
  | None => raise (fault_exn (FJsonDecode (resp_url r)))
  end.

Definition bearer (token : json) : list (string * string) :=
  [("Authorization", "Bearer " ++ fmt token)].

(** [get_access_token] (lines 26-43). *)
Definition get_access_token : M unit :=
  try_except
    (logging_info "Attempting to log into Bluesky..." ;;
     response <- requests_post (API_URL ++ "/com.atproto.server.createSession")
                   (JObj [("identifier", USERNAME w); ("password", PASSWORD w)]) ;;
     raise_for_status response ;;
     data <- response_json response ;;
     token <- lift (py_get "accessJwt" JNull data) ;;
     write_access_token token ;;
     if negb (truthy token)
     then raise (mkExn ValueError "Access token not retrieved.")
     else logging_info "Login successful. Access token retrieved.")
    is_request_exception
    (fun e =>
       logging_error ("Error during Bluesky authentication: " ++ exn_str e) ;;
       raise (mkExn PlainException "Authentication failed. Check your username and password.")).

(** [resolve_did] (lines 46-68); the result [JNull] is [None]. *)
Definition resolve_did (handle : string) : M json :=
  token <- read_access_token ;;
  let headers := bearer token in
  try_except
    (logging_info ("Resolving DID for handle: " ++ handle) ;;
     response <- requests_get (API_URL ++ "/com.atproto.identity.resolveHandle")
                   headers [("handle", handle)] ;;
     raise_for_status response ;;
     data <- response_json response ;;
     did <- lift (py_get "did" JNull data) ;;
     if truthy did
     then logging_info ("Resolved DID for " ++ handle ++ ": " ++ fmt did) ;; ret did
     else logging_error ("Failed to resolve DID for handle: " ++ handle) ;; ret JNull)
    is_request_exception
    (fun e =>
       logging_error ("Error resolving DID for handle " ++ handle ++ ": " ++ exn_str e) ;;
       ret JNull).

(** [fetch_username_from_did] (lines 71-82). *)
Definition fetch_username_from_did (api_url : string) (token : json) (did : string) : M json :=
  let headers := bearer token in
  try_except
    (response <- requests_get (api_url ++ "/app.bsky.actor.getProfile")
                   headers [("actor", did)] ;;
     raise_for_status response ;;
     data <- response_json response ;;
     handle <- lift (py_get "handle" JNull data) ;;
     logging_info ("Resolved handle for DID " ++ did ++ ": " ++ fmt handle) ;;
     ret handle)
    is_request_exception
    (fun e =>
       logging_error ("Error fetching username for DID " ++ did ++ ": " ++ exn_str e) ;;
       ret JNull).

(** [generate_chart] (lines 85-98): matplotlib draws and saves, or raises. *)
Definition generate_chart (colors : list string) (title xlabel ylabel : string)
    (dates : list datetime) (counts : list nat) (path : string) : M unit :=
  let c := mkChart colors title xlabel ylabel dates counts path in
  emit (Plot c) ;;
  match pyplot w c with
  | Some e => raise e
  | None => logging_info ("Chart saved to " ++ path)
  end.

(** [datetime.fromisoformat(ts.split("T")[0])] for one timestamp. *)
Definition date_of_timestamp (ts : json) : fault + datetime :=
  match ts with
  | JStr s =>
      let piece := hd EmptyString (py_split "T" s) in
      match fromisoformat piece with
      | Some d => inr d
      | None => inl (FIsoformat piece)
      end
  | _ => inl (FNoAttribute ts "split")
  end.

(** A list comprehension [[f(x) for x in l]]: the first error ends it. *)
Fixpoint comprehension {A B} (f : A -> fault + B) (l : list A) : fault + list B :=
  match l with
  | [] => inr []
  | x :: rest =>
      match f x with
      | inl e => inl e
      | inr y =>
          match comprehension f rest with
          | inl e => inl e
          | inr ys => inr (y :: ys)
          end
      end
  end.

(** Lines 107-110 of [generate_likes_chart], which lines 133-136 of
    [generate_reposts_chart] repeat: the days in ascending order and the
    count of each. *)
Definition daily_buckets (timestamps : list json) : fault + list datetime * list nat :=
  match comprehension date_of_timestamp timestamps with
  | inl e => inl e
  | inr dates =>
      let date_counts := Counter dates in
      match sorted (keys date_counts) with
      | inl e => inl e
      | inr sorted_dates =>
          inr (sorted_dates, map (counter_get date_counts) sorted_dates)
      end
  end.

(** [[x["indexedAt"] for x in v if "indexedAt" in x]] (lines 132 and 304). *)
Fixpoint indexedAt_items (items : list json) : fault + list json :=
  match items with
  | [] => inr []
  | x :: rest =>
      match py_contains "indexedAt" x with
      | inl e => inl e
      | inr false => indexedAt_items rest
      | inr true =>
          match py_getitem "indexedAt" x with
          | inl e => inl e
          | inr ts =>
              match indexedAt_items rest with
              | inl e => inl e
              | inr tss => inr (ts :: tss)
              end
          end
      end
  end.

Definition indexedAt_of (v : json) : fault + list json :=
  match py_iter v with
  | inl e => inl e
  | inr items => indexedAt_items items
  end.

(** [generate_likes_chart] (lines 101-123). *)
Definition generate_likes_chart (handle : json) (like_timestamps : list json)
    (post_link : string) : M string :=
  logging_info "Generating likes chart..." ;;
  '(sorted_dates, counts) <- lift (daily_buckets like_timestamps) ;;
  let chart_image_path := "static/likes_chart.png" in
  let colors := map (fun _ => "#ff69b4") sorted_dates in
  generate_chart colors
    ("Likes Over Time for @" ++ fmt handle ++ newline ++ "Post: " ++ post_link)
    "Date" "Number of Likes" sorted_dates counts chart_image_path ;;
  ret chart_image_path.

(** [generate_reposts_chart] (lines 126-149). *)
Definition generate_reposts_chart (handle : json) (reposts : json) : M string :=
  logging_info "Generating reposts chart..." ;;
  repost_timestamps <- lift (indexedAt_of reposts) ;;
  '(sorted_dates, counts) <- lift (daily_buckets repost_timestamps) ;;
  let chart_image_path := "static/reposts_chart.png" in
  let colors := map (fun _ => "#ff85c0") sorted_dates in
  generate_chart colors
    ("Reposts Over Time for @" ++ fmt handle)
    "Date" "Number of Reposts" sorted_dates counts chart_image_path ;;
  ret chart_image_path.

End Program.

(** ** The endpoint [/generate] *)

Section Endpoint.

Variable w : world.

Definition lift_outcome {A} (o : outcome A) : M A :=
  match o with
  | Ok a => ret a
  | Raise e => raise e
  end.

(** [v.strip()]: a method of strings only. *)
Definition str_strip (v : json) : fault + string :=
  match v with
  | JStr s => inr (strip s)
  | _ => inl (FNoAttribute v "strip")
  end.

Definition error_response (code : Z) (text : string) : flask_response :=
  mkFlask code (JObj [("error", JStr text)]).

(** Lines 261-262: authenticate unless a token is cached. *)
Definition auth_check : M unit :=
  token <- read_access_token ;;
  if negb (truthy token) then get_access_token w else ret tt.

(** Lines 264-270.  [request_json] is what [request.json] evaluates to: the
    decoded body, or the exception Flask raises for a body it cannot decode.
    The result is the early response or the stripped link. *)
Definition read_link (request_json : outcome json) : M (flask_response + string) :=
  data <- lift_outcome request_json ;;
  missing <- (if negb (truthy data) then ret true
              else present <- lift w (py_contains "link" data) ;; ret (negb present)) ;;
  if missing : bool then
    logging_error "No link provided in the request." ;;
    ret (inl (error_response 400 "No link provided"))
  else
    v <- lift w (py_getitem "link" data) ;;
    link <- lift w (str_strip v) ;;
    logging_info ("Received link: " ++ link) ;;
    ret (inr link).

(** Lines 273-285: the two matches and the branch on them.  The result is
    the early response or [(did, handle, post_id)]. *)
Definition identify (link : string) : M (flask_response + json * json * string) :=
  let did_in_profile_match := re_match did_in_profile_pattern link in
  let web_match := re_match web_pattern link in
  match did_in_profile_match with
  | Some (did, post_id) =>
      token <- read_access_token ;;
      handle <- fetch_username_from_did w API_URL token did ;;
      ret (inr (JStr did, handle, post_id))
  | None =>
      match web_match with
      | Some (handle, post_id) =>
          did <- resolve_did w handle ;;
          ret (inr (did, JStr handle, post_id))
      | None => ret (inl (error_response 400 "Invalid link format."))
      end
  end.

Definition at_uri (did : json) (post_id : string) : string :=
  "at://" ++ fmt w did ++ "/app.bsky.feed.post/" ++ post_id.

Definition reposts_url : string := API_URL ++ "/app.bsky.feed.getRepostedBy".
Definition likes_url : string := API_URL ++ "/app.bsky.feed.getLikes".

(** Lines 287-300: the two fetches; the result is [(reposts, likes)]. *)
Definition fetch_engagement (did : json) (post_id : string) : M (json * json) :=
  let uri := at_uri did post_id in
  token <- read_access_token ;;
  let headers := bearer w token in
  reposts_response <- requests_get w reposts_url headers [("uri", uri)] ;;
  reposts <- (if resp_status reposts_response =? 200
              then data <- response_json w reposts_response ;;
                   lift w (py_get "repostedBy" (JArr []) data)
              else ret (JArr [])) ;;
  likes_response <- requests_get w likes_url headers [("uri", uri)] ;;
  likes <- (if resp_status likes_response =? 200
            then data <- response_json w likes_response ;;
                 lift w (py_get "likes" (JArr []) data)
            else ret (JArr [])) ;;
  ret (reposts, likes).

(** Lines 303-314: the charts and the response. *)
Definition render_and_respond (handle : json) (post_id : string) (reposts likes : json)
    : M flask_response :=
  let post_link := "https://bsky.app/profile/" ++ fmt w handle ++ "/post/" ++ post_id in
  likes_timestamps <- lift w (indexedAt_of likes) ;;
  likes_chart_path <- (if truthy likes
                       then path <- generate_likes_chart w handle likes_timestamps post_link ;;
                            ret (JStr path)
                       else ret JNull) ;;
  reposts_chart_path <- (if truthy reposts
                         then path <- generate_reposts_chart w handle reposts ;;
                              ret (JStr path)
                         else ret JNull) ;;
  let response :=
    ((if truthy likes_chart_path then [("likes_chart", likes_chart_path)] else [])
     ++ (if truthy reposts_chart_path then [("reposts_chart", reposts_chart_path)] else []))%list in
  ret (mkFlask 200 (JObj response)).

(** Lines 261-285, everything before the fetches: the early response, or
    [(did, handle, post_id)] with which the fetch stage is entered. *)
Definition prelude (request_json : outcome json) : M (flask_response + json * json * string) :=
  auth_check ;;
  r <- read_link request_json ;;
  match r with
  | inl early => ret (inl early)
  | inr link => identify link
  end.

(** The body of the [try] (lines 261-314). *)
Definition generate_charts_body (request_json : outcome json) : M flask_response :=
  p <- prelude request_json ;;
  match p with
  | inl early => ret early
  | inr (did, handle, post_id) =>
      '(reposts, likes) <- fetch_engagement did post_id ;;
      render_and_respond handle post_id reposts likes
  end.

(** [generate_charts] (lines 256-317). *)
Definition generate_charts (request_json : outcome json) : M flask_response :=
  try_except (generate_charts_body request_json)
    (fun _ => true)
    (fun e =>
       logging_error ("Error generating charts: " ++ exn_str e) ;;
       ret (error_response 500 ("Error generating charts: " ++ exn_str e))).

End Endpoint.

(** ** Observations on a run *)

Definition result_of {A} (r : outcome A * proc * list event) : outcome A := fst (fst r).
Definition state_of {A} (r : outcome A * proc * list event) : proc := snd (fst r).
Definition events_of {A} (r : outcome A * proc * list event) : list event := snd r.

Definition calls (url : string) (ev : event) : bool :=
  match ev with
  | Http r => String.eqb (req_url r) url
  | _ => false
  end.

Definition session_url : string := API_URL ++ "/com.atproto.server.createSession".
Definition resolve_handle_url : string := API_URL ++ "/com.atproto.identity.resolveHandle".
Definition get_profile_url : string := API_URL ++ "/app.bsky.actor.getProfile".

(** A timestamp that starts with a calendar date [YYYY-MM-DD] followed by
    the separator [T], as in [2024-01-01T10:00:00Z]. *)
Definition date_then_T (ts : json) : bool :=
  match ts with
  | JStr s =>
      is_char 10 "T" s && is_char 4 "-" s && is_char 7 "-" s
      && forallb (fun n => match char_at n s with Some c => is_digit c | None => false end)
           [0; 1; 2; 3; 5; 6; 8; 9]%nat
  | _ => false
  end.

(** An engagement fetch: a call of either of the two feed endpoints. *)
Definition is_fetch (ev : event) : bool := calls reposts_url ev || calls likes_url ev.

Definition not_session (ev : event) : Prop := calls session_url ev = false.
Definition not_fetch (ev : event) : Prop := is_fetch ev = false.
Definition is_log (ev : event) : Prop := exists level text, ev = Log level text.

(** [m] emits only events that satisfy [P], whatever the state. *)
Definition emits {A} (P : event -> Prop) (m : M A) : Prop :=
  forall st, Forall P (events_of (m st)).

(** [m] leaves [access_token] as it found it. *)
Definition keeps {A} (m : M A) : Prop := forall st, state_of (m st) = st.

(** The part of the body that follows the authentication check. *)
Definition after_auth (w : world) (request_json : outcome json) : M flask_response :=
  p <- (r <- read_link w request_json ;;
        match r with
        | inl early => ret (inl early)
        | inr link => identify w link
        end) ;;
  match p with
  | inl early => ret early
  | inr (did, handle, post_id) =>
      '(reposts, likes) <- fetch_engagement w did post_id ;;
      render_and_respond w handle post_id reposts likes
  end.

(** The requests the program sends. *)
Definition session_request (w : world) : http_request :=
  mkRequest POST session_url [] []
    (Some (JObj [("identifier", USERNAME w); ("password", PASSWORD w)])).

Definition resolve_request (w : world) (token : json) (handle : string) : http_request :=
  mkRequest GET resolve_handle_url (bearer w token) [("handle", handle)] None.

Definition profile_request (w : world) (api_url : string) (token : json) (did : string)
    : http_request :=
  mkRequest GET (api_url ++ "/app.bsky.actor.getProfile") (bearer w token) [("actor", did)] None.

Definition fetch_request (w : world) (url : string) (token did : json) (post_id : string)
    : http_request :=
  mkRequest GET url (bearer w token) [("uri", at_uri w did post_id)] None.

(** The charts the two generators hand to [generate_chart]. *)
Definition likes_chart (w : world) (handle : json) (post_link : string)
    (dates : list datetime) (counts : list nat) : chart :=
  mkChart (map (fun _ => "#ff69b4") dates)
    ("Likes Over Time for @" ++ fmt w handle ++ newline ++ "Post: " ++ post_link)
    "Date" "Number of Likes" dates counts "static/likes_chart.png".

Definition reposts_chart (w : world) (handle : json)
    (dates : list datetime) (counts : list nat) : chart :=
  mkChart (map (fun _ => "#ff85c0") dates)
    ("Reposts Over Time for @" ++ fmt w handle)
    "Date" "Number of Reposts" dates counts "static/reposts_chart.png".

Definition post_link_of (w : world) (handle : json) (post_id : string) : string :=
  "https://bsky.app/profile/" ++ fmt w handle ++ "/post/" ++ post_id.

(** An event that respects the token [token]: a call is either the login
    itself or a GET whose only header is the bearer of that token. *)
Definition authorized (w : world) (token : json) (ev : event) : Prop :=
  match ev with
  | Http r => r = session_request w \/ (req_method r = GET /\ req_headers r = bearer w token)
  | _ => True
  end.

(** Run from [st], [m] emits only authorized events and leaves the token. *)
Definition sends (w : world) (st : proc) {A} (m : M A) : Prop :=
  Forall (authorized w (access_token st)) (events_of (m st)) /\ state_of (m st) = st.

Definition is_get (ev : event) : Prop :=
  exists r, ev = Http r /\ req_method r = GET.

(** When [m] returns, what it returns satisfies [P]. *)
Definition yields {A} (P : A -> Prop) (m : M A) : Prop :=
  forall st a st1 ev, m st = (Ok a, st1, ev) -> P a.

(** What the body of the [try] can return: 200 with the fixed path of each
    chart that was drawn, or 400 with one of two texts. *)
Definition returned_response (r : flask_response) : Prop :=
  (status r = 200
   /\ exists likes reposts : bool,
        payload r =
        JObj ((if likes then [("likes_chart", JStr "static/likes_chart.png")] else [])
              ++ (if reposts then [("reposts_chart", JStr "static/reposts_chart.png")] else [])))
  \/ r = mkFlask 400 (JObj [("error", JStr "No link provided")])
  \/ r = mkFlask 400 (JObj [("error", JStr "Invalid link format.")]).

(** A timestamp on which line 107 raises: a value that is no string, or a
    string whose text before the first [T] [fromisoformat] rejects. *)
Definition bad_timestamp (t : json) : Prop :=
  match t with
  | JStr s => fromisoformat (hd EmptyString (py_split "T" s)) = None
  | _ => True
  end.

(** The responses of [/generate]: 200 with the fixed path of each chart that
    was drawn, 400 with one of two texts, or 500 with the prefixed text of
    an exception. *)
Definition expected_response (r : flask_response) : Prop :=
  (status r = 200
   /\ exists likes reposts : bool,
        payload r =
        JObj ((if likes then [("likes_chart", JStr "static/likes_chart.png")] else [])
              ++ (if reposts then [("reposts_chart", JStr "static/reposts_chart.png")] else [])))
  \/ r = error_response 400 "No link provided"
  \/ r = error_response 400 "Invalid link format."
  \/ exists text, r = error_response 500 ("Error generating charts: " ++ text).

(** Requests handled one after the other by one process, each against the
    surroundings of its moment: a run starts from the state the run before
    it left. *)
Fixpoint serve (requests : list (world * outcome json)) (st : proc)
    : list (outcome flask_response) * proc * list event :=
  match requests with
  | [] => ([], st, [])
  | (w, request_json) :: rest =>
      match generate_charts w request_json st with
      | (r, st1, ev1) =>
          match serve rest st1 with
          | (rs, st2, ev2) => (r :: rs, st2, (ev1 ++ ev2)%list)
          end
      end
  end.

(** Lines 320-322: [get_access_token()], then [app.run(...)] serving the
    requests that arrive; an exception of the login ends the process before
    any is served. *)
Definition main (w : world) (requests : list (world * outcome json)) (st : proc)
    : outcome (list (outcome flask_response)) * proc * list event :=
  match get_access_token w st with
  | (Ok _, st1, ev1) =>
      match serve requests st1 with
      | (rs, st2, ev2) => (Ok rs, st2, (ev1 ++ ev2)%list)
      end
  | (Raise e, st1, ev1) => (Raise e, st1, ev1)
  end.

Definition session_calls (evs : list event) : nat :=
  length (filter (calls session_url) evs).

Definition http_calls (evs : list event) : list http_request :=
  flat_map (fun ev => match ev with Http r => [r] | _ => [] end) evs.

(** [raise_for_status] raises for these status codes. *)
Definition error_status (code : Z) : bool := (400 <=? code) && (code <? 600).


(** What [r.json().get(key, []) if r.status_code == 200 else []] evaluates
    to for the reply [r], when it evaluates without raising. *)
Definition collection (key : string) (r : http_reply) : option json :=
  match r with
  | NoReply _ => None
  | Reply code body =>
      if code =? 200 then
        match body with
        | Some (JObj fields) =>
            Some (match dict_get key fields with Some v => v | None => JArr [] end)
        | _ => None
        end
      else Some (JArr [])
  end.

(** A lookup that failed: no reply, an error status, a body that is not
    JSON, or a JSON object without the field. *)
Definition lookup_failed (key : string) (r : http_reply) : Prop :=
  match r with
  | NoReply _ => True
  | Reply code body =>
      error_status code = true
      \/ body = None
      \/ exists fields, body = Some (JObj fields) /\ dict_get key fields = None
  end.

(** A call that [requests] itself gives up on: no reply, an error status, or
    a body that is not JSON. *)
Definition request_failed (r : http_reply) : Prop :=
  match r with
  | NoReply _ => True
  | Reply code body => error_status code = true \/ body = None
  end.


(** Keys of a counter or of a sorted list, seen as a whole. *)
Definition distinct_from (x : datetime) (l : list datetime) : Prop :=
  Forall (fun y => naive x = naive y /\ dt_eqb x y = false) l.

Definition one_class (l : list datetime) : Prop :=
  ForallOrdPairs (fun a b => naive a = naive b) l.

Definition pairwise_distinct (l : list datetime) : Prop :=
  ForallOrdPairs (fun a b => dt_eqb a b = false) l.

(** How many of [items] are equal ([==]) to [k]. *)
Definition occurrences (k : datetime) (items : list datetime) : nat :=
  length (filter (fun x => dt_eqb x k) items).

(** ** The two link shapes, read directly *)

Fixpoint strip_prefix (pre s : string) : option string :=
  match pre with
  | EmptyString => Some s
  | String c pre' =>
      match s with
      | String c' s' => if Ascii.eqb c' c then strip_prefix pre' s' else None
      | EmptyString => None
      end
  end.

(** The longest run of characters other than [/] at the start of [s], and
    what follows it. *)
Fixpoint take_segment (s : string) : string :=
  match s with
  | String c s' => if Ascii.eqb c "/" then EmptyString else String c (take_segment s')
  | EmptyString => EmptyString
  end.

Fixpoint skip_segment (s : string) : string :=
  match s with
  | String c s' => if Ascii.eqb c "/" then s else skip_segment s'
  | EmptyString => EmptyString
  end.

Definition starts_segment (s : string) : bool :=
  match s with
  | String c _ => negb (Ascii.eqb c "/")
  | EmptyString => false
  end.

Definition drop_optional (c : ascii) (s : string) : string :=
  match s with
  | String c' s' => if Ascii.eqb c' c then s' else s
  | EmptyString => s
  end.

(** What follows [https?://bsky.app/profile/]. *)
Definition after_profile (link : string) : option string :=
  match strip_prefix "http" link with
  | Some s => strip_prefix "://bsky.app/profile/" (drop_optional "s" s)
  | None => None
  end.

(** [/post/([^/]+)] at the start of [rest]: the post id. *)
Definition post_id_of (rest : string) : option string :=
  match strip_prefix "/post/" rest with
  | Some s => if starts_segment s then Some (take_segment s) else None
  | None => None
  end.

Definition parse_web (link : string) : option (string * string) :=
  match after_profile link with
  | Some s =>
      if starts_segment s then
        match post_id_of (skip_segment s) with
        | Some post_id => Some (take_segment s, post_id)
        | None => None
        end
      else None
  | None => None
  end.

Definition parse_did (link : string) : option (string * string) :=
  match after_profile link with
  | Some s =>
      match strip_prefix "did:" s with
      | Some s' =>
          if starts_segment s' then
            match post_id_of (skip_segment s') with
            | Some post_id => Some ("did:" ++ take_segment s', post_id)
            | None => None
            end
          else None
      | None => None
      end
  | None => None
  end.

(** A path segment: not empty, and without [/]. *)
Fixpoint no_slash (s : string) : bool :=
  match s with
  | EmptyString => true
  | String c s' => negb (Ascii.eqb c "/") && no_slash s'
  end.

Definition is_segment (s : string) : Prop := s <> EmptyString /\ no_slash s = true.

(** A profile segment of the DID shape [did:[^/]+] (a segment holds no [/]). *)
Definition did_shaped (segment : string) : Prop :=
  exists rest, rest <> EmptyString /\ segment = "did:" ++ rest.

(** ** Sample surroundings, to run the program on concrete inputs *)

Module Sample.

(** A remote API given by a table from URL to reply; a URL that is not
    listed cannot be reached. *)
Fixpoint lookup_reply (url : string) (table : list (string * http_reply)) : http_reply :=
  match table with
  | [] => NoReply "connection refused"
  | (u, r) :: rest => if String.eqb u url then r else lookup_reply url rest
  end.

Definition fault_name (f : fault) : string :=
  match f with
  | FHttpStatus _ _ => "http error status"
  | FJsonDecode _ => "body is not JSON"
  | FNoAttribute _ attr => "object has no attribute " ++ attr
  | FNotIterable _ => "object is not iterable"
  | FNotContainer _ => "argument is not iterable"
  | FNotSubscriptable _ => "object is not subscriptable"
  | FMissingKey k => k
  | FIsoformat _ => "Invalid isoformat string"
  | FNaiveAware => "can't compare offset-naive and offset-aware datetimes"
  end.

Definition world_of (table : list (string * http_reply)) : world :=
  mkWorld (JStr "viewer.example") (JStr "app-password")
          (fun r => lookup_reply (req_url r) table)
          (fun _ => None)
          (fun _ => "[...]")
          fault_name.

Definition session_ok : string * http_reply :=
  (session_url, Reply 200 (Some (JObj [("accessJwt", JStr "jwt")]))).

Definition post (link : string) : outcome json := Ok (JObj [("link", JStr link)]).

Definition logged_out : proc := mkProc JNull.
Definition logged_in : proc := mkProc (JStr "jwt").

Definition like (ts : string) : json := JObj [("indexedAt", JStr ts)].

Definition three_timestamps : list json :=
  [JStr "2024-01-01T10:00:00Z"; JStr "2024-01-01T23:00:00Z"; JStr "2024-01-02T00:00:01Z"].

Definition jan_1 : datetime := mkDatetime 2024 1 1 0 0 0 0 None.
Definition jan_2 : datetime := mkDatetime 2024 1 2 0 0 0 0 None.

Definition resolve_ok : string * http_reply :=
  (resolve_handle_url, Reply 200 (Some (JObj [("did", JStr "did:plc:abc")]))).
Definition profile_ok : string * http_reply :=
  (get_profile_url, Reply 200 (Some (JObj [("handle", JStr "alice.example")]))).
Definition three_likes : string * http_reply :=
  (likes_url,
   Reply 200 (Some (JObj [("likes", JArr [like "2024-01-01T10:00:00Z";
                                          like "2024-01-01T23:00:00Z";
                                          like "2024-01-02T00:00:01Z"])]))).
Definition no_likes : string * http_reply :=
  (likes_url, Reply 200 (Some (JObj [("likes", JArr [])]))).
Definition no_reposts : string * http_reply :=
  (reposts_url, Reply 200 (Some (JObj []))).
Definition reposts_down : string * http_reply := (reposts_url, Reply 503 None).

Definition handle_link : string := "https://bsky.app/profile/alice.example/post/3kabc".
Definition did_link : string := "https://bsky.app/profile/did:plc:abc/post/3kabc".
Definition bare_did_link : string := "https://bsky.app/profile/did:/post/3kabc".
Definition profile_only_link : string := "https://bsky.app/profile/alice.example".
Definition ftp_link : string := "ftp://bsky.app/profile/alice.example/post/3kabc".

(** A post nobody has liked or reposted. *)
Definition quiet : world := world_of [session_ok; resolve_ok; profile_ok; no_reposts; no_likes].

(** The reposts endpoint answers 503; the likes endpoint lists three likes. *)
Definition reposts_failing : world := world_of [session_ok; resolve_ok; reposts_down; three_likes].

(** The reposts endpoint cannot be reached at all. *)
Definition reposts_unreachable : world := world_of [session_ok; resolve_ok; three_likes].

(** The handle is unknown to the API: the lookup answers 400. *)
Definition unknown_handle : world :=
  world_of [session_ok;
            (resolve_handle_url,
             Reply 400 (Some (JObj [("error", JStr "InvalidRequest");
                                    ("message", JStr "Unable to resolve handle")])));
            no_reposts; no_likes].


(** Nothing can be reached. *)
Definition offline : world := world_of [].

(** The likes endpoint answers 500; one repost is listed. *)
Definition likes_failing : world :=
  world_of [session_ok; resolve_ok;
            (reposts_url, Reply 200 (Some (JObj [("repostedBy", JArr [like "2024-03-05T08:00:00Z"])])));
            (likes_url, Reply 500 None)].

(** Three likes and one repost. *)
Definition busy : world :=
  world_of [session_ok; resolve_ok; profile_ok; three_likes;
            (reposts_url, Reply 200 (Some (JObj [("repostedBy", JArr [like "2024-03-05T08:00:00Z"])])))].

(** The login is refused. *)
Definition login_refused : world :=
  world_of [(session_url, Reply 401 (Some (JObj [("error", JStr "AuthenticationRequired")])))].

(** The login answers without a token. *)
Definition login_without_token : world :=
  world_of [(session_url, Reply 200 (Some (JObj [("handle", JStr "viewer.example")])))].

(** Three likes and one repost; the file of the reposts chart cannot be
    written. *)
Definition reposts_unwritable : world :=
  mkWorld (JStr "viewer.example") (JStr "app-password")
          (http busy)
          (fun c => if String.eqb (chart_image_path c) "static/reposts_chart.png"
                    then Some (mkExn (OtherException "PermissionError")
                                 "[Errno 13] Permission denied: 'static/reposts_chart.png'")
                    else None)
          (fun _ => "[...]")
          fault_name.

(** Two likes on one day, written with a space where [T] is expected. *)
Definition same_day_timestamps : list json :=
  [JStr "2024-01-01 10:00:00"; JStr "2024-01-01 11:00:00"].

Definition jan_1_at_10 : datetime := mkDatetime 2024 1 1 10 0 0 0 None.
Definition jan_1_at_11 : datetime := mkDatetime 2024 1 1 11 0 0 0 None.

Definition mar_5 : datetime := mkDatetime 2024 3 5 0 0 0 0 None.

End Sample.

(** * Theorems *)

(** ** Order of [datetime] values, sorting and counting *)

Lemma lex_compare_refl (a : list Z) : lex_compare a a = Eq.
Proof. induction a as [|x a IH]; simpl; [reflexivity|]. now rewrite Z.compare_refl. Qed.

Lemma lex_compare_antisym (a b : list Z) : lex_compare b a = CompOpp (lex_compare a b).
Proof.
  revert b; induction a as [|x a IH]; intros [|y b]; simpl; try reflexivity.
  rewrite (Z.compare_antisym x y). destruct (x ?= y); simpl; auto.
Qed.

Lemma lex_compare_trans (a b c : list Z) :
  lex_compare a b = Lt -> lex_compare b c = Lt -> lex_compare a c = Lt.
Proof.
  revert b c; induction a as [|x a IH]; intros [|y b] [|z c]; simpl; try discriminate; auto.
  destruct (x ?= y) eqn:E1; try discriminate;
  destruct (y ?= z) eqn:E2; try discriminate; intros H1 H2.
  - apply Z.compare_eq in E1, E2. subst. rewrite Z.compare_refl. eauto.
  - apply Z.compare_eq in E1. subst. now rewrite E2.
  - apply Z.compare_eq in E2. subst. now rewrite E1.
  - rewrite Z.compare_lt_iff in *. assert (x < z) by lia.
    apply Z.compare_lt_iff in H. now rewrite H.
Qed.

(** *** The order *)

Lemma dt_cmp_same_class (a b : datetime) :
  naive a = naive b -> exists c, dt_cmp a b = Some c.
Proof.
  unfold naive, dt_cmp. destruct (utcoffset a), (utcoffset b); intros H; try discriminate; eauto.
Qed.

Lemma dt_cmp_antisym (a b : datetime) (c : comparison) :
  dt_cmp a b = Some c -> dt_cmp b a = Some (CompOpp c).
Proof.
  unfold dt_cmp. destruct (utcoffset a), (utcoffset b); intros H; inversion H; subst; clear H.
  - now rewrite Z.compare_antisym.
  - now rewrite lex_compare_antisym.
Qed.

Lemma dt_ltb_irrefl (a : datetime) : dt_ltb a a = false.
Proof.
  unfold dt_ltb, dt_cmp. destruct (utcoffset a).
  - now rewrite Z.compare_refl.
  - now rewrite lex_compare_refl.
Qed.

Lemma dt_lt_trans (a b c : datetime) : dt_lt a b -> dt_lt b c -> dt_lt a c.
Proof.
  unfold dt_lt, dt_ltb, dt_cmp.
  destruct (utcoffset a), (utcoffset b), (utcoffset c); try discriminate.
  - destruct (_ ?= _) eqn:E1; try discriminate. intros _.
    destruct (utc_micros b z0 ?= _) eqn:E2; try discriminate. intros _.
    rewrite Z.compare_lt_iff in E1, E2.
    assert (H : utc_micros a z < utc_micros c z1) by lia.
    apply Z.compare_lt_iff in H. now rewrite H.
  - destruct (lex_compare (fields a) _) eqn:E1; try discriminate. intros _.
    destruct (lex_compare (fields b) _) eqn:E2; try discriminate. intros _.
    now rewrite (lex_compare_trans _ _ _ E1 E2).
Qed.

Lemma dt_trichotomy (a b : datetime) :
  naive a = naive b -> dt_ltb a b = false -> dt_eqb a b = false -> dt_ltb b a = true.
Proof.
  intros Hc. destruct (dt_cmp_same_class a b Hc) as [c Hab].
  unfold dt_ltb, dt_eqb. rewrite (dt_cmp_antisym _ _ _ Hab), Hab.
  destruct c; simpl; congruence.
Qed.

Lemma dt_eqb_sym (a b : datetime) : dt_eqb a b = dt_eqb b a.
Proof.
  unfold dt_eqb. destruct (dt_cmp a b) eqn:E.
  - rewrite (dt_cmp_antisym _ _ _ E). now destruct c.
  - destruct (dt_cmp b a) eqn:E'; [|reflexivity].
    apply dt_cmp_antisym in E'. congruence.
Qed.

(** *** [sorted] *)

Lemma insert_sorted_perm (x : datetime) (l : list datetime) :
  Permutation (insert_sorted x l) (x :: l).
Proof.
  induction l as [|y l IH]; simpl; [reflexivity|].
  destruct (dt_ltb y x); [|reflexivity].
  rewrite IH. apply perm_swap.
Qed.

Lemma dt_sort_perm (l : list datetime) : Permutation (dt_sort l) l.
Proof.
  induction l as [|x l IH]; simpl; [reflexivity|].
  rewrite insert_sorted_perm. now constructor.
Qed.

Lemma insert_sorted_sorted (x : datetime) (l : list datetime) :
  StronglySorted dt_lt l -> distinct_from x l -> StronglySorted dt_lt (insert_sorted x l).
Proof.
  induction l as [|y l IH]; simpl; intros Hs Hd.
  - repeat constructor.
  - inversion Hs as [|? ? Hs' Hy]; subst. inversion Hd as [|? ? [Hc He] Hd']; subst.
    destruct (dt_ltb y x) eqn:Hyx.
    + constructor; [now apply IH|].
      rewrite insert_sorted_perm. constructor; assumption.
    + assert (Hxy : dt_lt x y) by (apply dt_trichotomy; auto; now rewrite dt_eqb_sym).
      constructor; [assumption|]. constructor; [assumption|].
      eapply Forall_impl; [|exact Hy]. intros z Hz. eapply dt_lt_trans; eassumption.
Qed.

Lemma dt_sort_sorted (l : list datetime) :
  one_class l -> pairwise_distinct l -> StronglySorted dt_lt (dt_sort l).
Proof.
  induction l as [|x l IH]; simpl; intros Hc Hd; [constructor|].
  inversion Hc; inversion Hd; subst.
  apply insert_sorted_sorted; [now apply IH|].
  unfold distinct_from. rewrite dt_sort_perm.
  rewrite Forall_forall in *. intros y Hy. split; auto.
Qed.

Lemma comparable_one_class (l : list datetime) : comparable l = true -> one_class l.
Proof.
  unfold comparable. intros H. apply orb_true_iff in H.
  assert (exists b, Forall (fun d => naive d = b) l) as [b Hb].
  { destruct H as [H|H]; rewrite forallb_forall in H.
    - exists true. apply Forall_forall. auto.
    - exists false. apply Forall_forall. intros d Hd. apply H in Hd. now destruct (naive d). }
  clear H. induction Hb as [|x l Hx Hl IH]; [constructor|].
  constructor; [|exact IH].
  eapply Forall_impl; [|exact Hl]. simpl. congruence.
Qed.

Lemma StronglySorted_NoDup (l : list datetime) : StronglySorted dt_lt l -> NoDup l.
Proof.
  induction 1 as [|x l Hs IH Hx]; constructor; auto.
  intros Hin. rewrite Forall_forall in Hx. apply Hx in Hin.
  unfold dt_lt in Hin. now rewrite dt_ltb_irrefl in Hin.
Qed.

(** *** [Counter] *)

Lemma pairwise_distinct_snoc (l : list datetime) (k : datetime) :
  pairwise_distinct l -> Forall (fun k' => dt_eqb k' k = false) l ->
  pairwise_distinct (l ++ [k]).
Proof.
  induction 1 as [|x l Hx Hl IH]; simpl; intros Hk.
  - repeat constructor.
  - inversion Hk; subst. constructor; [|now apply IH].
    apply Forall_app. split; [assumption|]. now constructor.
Qed.

Lemma counter_incr_keys (k : datetime) (c : counter) :
  keys (counter_incr k c) = keys c /\ Exists (fun k' => dt_eqb k' k = true) (keys c)
  \/ keys (counter_incr k c) = (keys c ++ [k])%list
     /\ Forall (fun k' => dt_eqb k' k = false) (keys c).
Proof.
  induction c as [|[k' n] c IH]; simpl.
  - right. split; [reflexivity|constructor].
  - destruct (dt_eqb k' k) eqn:E; simpl.
    + left. split; [reflexivity|]. now constructor.
    + destruct IH as [[Hk He]|[Hk Hf]].
      * left. split; [now rewrite Hk|]. now constructor.
      * right. split; [now rewrite Hk|]. now constructor.
Qed.

Lemma fold_counter_keys (items : list datetime) (c : counter) :
  pairwise_distinct (keys c) ->
  pairwise_distinct (keys (fold_left (fun c k => counter_incr k c) items c))
  /\ incl (keys (fold_left (fun c k => counter_incr k c) items c)) (keys c ++ items).
Proof.
  revert c; induction items as [|k items IH]; simpl; intros c Hc.
  - split; [assumption|]. rewrite app_nil_r. apply incl_refl.
  - destruct (counter_incr_keys k c) as [[Hk _]|[Hk Hf]].
    + destruct (IH (counter_incr k c)) as [Hd Hi]; [now rewrite Hk|].
      split; [assumption|]. rewrite Hk in Hi.
      intros x Hx. apply Hi in Hx. rewrite in_app_iff in *. simpl. tauto.
    + destruct (IH (counter_incr k c)) as [Hd Hi].
      { rewrite Hk. now apply pairwise_distinct_snoc. }
      split; [assumption|]. rewrite Hk in Hi.
      intros x Hx. apply Hi in Hx. rewrite !in_app_iff in *. simpl in *. tauto.
Qed.

Lemma Counter_keys (items : list datetime) :
  pairwise_distinct (keys (Counter items)) /\ incl (keys (Counter items)) items.
Proof.
  unfold Counter. destruct (fold_counter_keys items []) as [Hd Hi]; [constructor|].
  split; assumption.
Qed.

(** *** The buckets *)

Lemma sorted_inr (l r : list datetime) :
  sorted l = inr r -> comparable l = true /\ r = dt_sort l.
Proof. unfold sorted. destruct (comparable l); intros H; inversion H; auto. Qed.

Lemma daily_buckets_inr (ts : list json) (dates : list datetime) (counts : list nat) :
  daily_buckets ts = inr (dates, counts) ->
  exists parsed,
    comprehension date_of_timestamp ts = inr parsed
    /\ comparable (keys (Counter parsed)) = true
    /\ dates = dt_sort (keys (Counter parsed))
    /\ counts = map (counter_get (Counter parsed)) dates.
Proof.
  unfold daily_buckets. destruct (comprehension date_of_timestamp ts) as [e|parsed]; [discriminate|].
  destruct (sorted _) as [e|sd] eqn:Hs; [discriminate|]. intros H; inversion H; subst.
  apply sorted_inr in Hs. destruct Hs as [Hc ->]. exists parsed. auto.
Qed.

Lemma daily_buckets_sorted (ts : list json) (dates : list datetime) (counts : list nat) :
  daily_buckets ts = inr (dates, counts) ->
  StronglySorted dt_lt dates /\ NoDup dates /\ length counts = length dates.
Proof.
  intros H. apply daily_buckets_inr in H. destruct H as (parsed & _ & Hc & -> & ->).
  assert (Hs : StronglySorted dt_lt (dt_sort (keys (Counter parsed)))).
  { apply dt_sort_sorted; [now apply comparable_one_class|apply Counter_keys]. }
  split; [assumption|]. split; [now apply StronglySorted_NoDup|]. apply length_map.
Qed.

Lemma split_piece (c : ascii) (pre rest : string) :
  Forall (fun x => Ascii.eqb x c = false) (list_ascii_of_string pre) ->
  hd EmptyString (py_split c (pre ++ String c rest)) = pre.
Proof.
  induction pre as [|x pre IH]; simpl; intros H.
  - now rewrite Ascii.eqb_refl.
  - inversion H as [|? ? Hx Hpre]; subst. rewrite Hx.
    specialize (IH Hpre). destruct (py_split c (pre ++ String c rest)); simpl in *; now subst.
Qed.

Lemma digit_is_no_letter (c : ascii) :
  is_digit c = true -> Ascii.eqb c "T" = false /\ Ascii.eqb c "W" = false.
Proof.
  destruct c as [[] [] [] [] [] [] [] []]; intros H; try discriminate H; split; reflexivity.
Qed.

Lemma digit_is_one_byte (c : ascii) : is_digit c = true -> Nat.ltb (nat_of_ascii c) 128 = true.
Proof. destruct c as [[] [] [] [] [] [] [] []]; intros H; try discriminate H; reflexivity. Qed.

Lemma utf8_plain (s : string) :
  Forall (fun c => Nat.ltb (nat_of_ascii c) 128 = true) (list_ascii_of_string s) -> utf8 s = s.
Proof.
  induction s as [|c s IH]; [reflexivity|]. cbn [list_ascii_of_string utf8].
  intros H. inversion H as [|? ? Hc Hs]; subst. cbv zeta. rewrite Hc. now rewrite IH.
Qed.

(** A text whose date reaches its end has no time of day and no offset. *)
Lemma fromisoformat_date_only (s : string) (sep : nat) (d : datetime) :
  find_isoformat_datetime_separator (utf8 s) = Some sep ->
  (String.length (utf8 s) <= sep)%nat ->
  fromisoformat s = Some d -> is_date d = true.
Proof.
  intros Hsep Hl. unfold fromisoformat. cbv zeta.
  destruct (Nat.ltb (String.length (utf8 s)) 7); [discriminate|]. rewrite Hsep.
  destruct (parse_isoformat_date (utf8 s) sep) as [[[y m] dd]|]; [|discriminate].
  apply Nat.ltb_ge in Hl. rewrite Hl.
  destruct (valid_fields _ _ _ _ _ _ _); [|discriminate].
  intros H; inversion H; reflexivity.
Qed.

Lemma date_of_timestamp_is_date (ts : json) (d : datetime) :
  date_then_T ts = true -> date_of_timestamp ts = inr d -> is_date d = true.
Proof.
  destruct ts as [| | |s| |]; try discriminate. unfold date_then_T, date_of_timestamp.
  do 11 (destruct s as [|? s]; [discriminate|]).
  unfold is_char, char_at. cbn [String.get forallb].
  rewrite !andb_true_iff, !Ascii.eqb_eq.
  intros [[[-> ->] ->] (H0 & H1 & H2 & H3 & H5 & H6 & H8 & H9 & _)].
  match goal with
  | |- context [py_split _ (String ?c0 (String ?c1 (String ?c2 (String ?c3 (String ?c4
         (String ?c5 (String ?c6 (String ?c7 (String ?c8 (String ?c9 (String ?t ?rest)))))))))))] =>
      change (String c0 (String c1 (String c2 (String c3 (String c4
               (String c5 (String c6 (String c7 (String c8 (String c9 (String t rest)))))))))))
        with (String c0 (String c1 (String c2 (String c3 (String c4
               (String c5 (String c6 (String c7 (String c8 (String c9 EmptyString)))))))))
              ++ String t rest);
      assert (Hplain : utf8 (String c0 (String c1 (String c2 (String c3 (String c4
               (String c5 (String c6 (String c7 (String c8 (String c9 EmptyString))))))))))
              = String c0 (String c1 (String c2 (String c3 (String c4
               (String c5 (String c6 (String c7 (String c8 (String c9 EmptyString))))))))))
  end.
  { apply utf8_plain. cbn [list_ascii_of_string].
    repeat constructor; try (apply digit_is_one_byte; assumption); reflexivity. }
  rewrite split_piece.
  - destruct (fromisoformat _) eqn:E; [|discriminate]. intros H; inversion H; subst.
    refine (fromisoformat_date_only _ 10 _ _ _ E); rewrite Hplain; [|simpl; lia].
    unfold find_isoformat_datetime_separator. cbn [String.length Nat.eqb drop advance peek].
    rewrite (proj2 (digit_is_no_letter _ H5)). reflexivity.
  - cbn [list_ascii_of_string].
    repeat constructor; try (apply digit_is_no_letter; assumption); reflexivity.
Qed.

Lemma comprehension_Forall2 {A B} (f : A -> fault + B) (l : list A) (r : list B) :
  comprehension f l = inr r -> Forall2 (fun x y => f x = inr y) l r.
Proof.
  revert r; induction l as [|x l IH]; simpl; intros r.
  - intros H; inversion H; constructor.
  - destruct (f x) eqn:E; [discriminate|].
    destruct (comprehension f l); [discriminate|].
    intros H; inversion H; subst. constructor; auto.
Qed.

Lemma is_date_fields (a : datetime) :
  is_date a = true ->
  utcoffset a = None /\ hour a = 0 /\ minute a = 0 /\ second a = 0 /\ microsecond a = 0.
Proof.
  unfold is_date, naive. destruct (utcoffset a); simpl; [discriminate|].
  rewrite !andb_true_iff, !Z.eqb_eq. tauto.
Qed.

Lemma is_date_lt (a b : datetime) :
  is_date a = true -> is_date b = true -> dt_lt a b -> date_lt (date_of a) (date_of b).
Proof.
  intros Ha Hb. apply is_date_fields in Ha, Hb.
  destruct Ha as (Ha0 & Ha1 & Ha2 & Ha3 & Ha4), Hb as (Hb0 & Hb1 & Hb2 & Hb3 & Hb4).
  unfold dt_lt, dt_ltb, dt_cmp, date_of, date_lt, fields.
  rewrite Ha0, Hb0, Ha1, Ha2, Ha3, Ha4, Hb1, Hb2, Hb3, Hb4. simpl.
  destruct (year a ?= year b) eqn:Ey; try discriminate.
  - apply Z.compare_eq in Ey.
    destruct (month a ?= month b) eqn:Em; try discriminate.
    + apply Z.compare_eq in Em.
      destruct (day a ?= day b) eqn:Ed; try discriminate.
      apply Z.compare_lt_iff in Ed. intros _. right; split; auto.
    + apply Z.compare_lt_iff in Em. intros _. right; split; auto.
  - apply Z.compare_lt_iff in Ey. intros _. now left.
Qed.

Lemma StronglySorted_map_dates (l : list datetime) :
  Forall (fun d => is_date d = true) l -> StronglySorted dt_lt l ->
  StronglySorted date_lt (map date_of l).
Proof.
  intros Hd Hs. induction Hs as [|x l Hs IH Hx]; simpl; [constructor|].
  inversion Hd; subst. constructor; [now apply IH|].
  apply Forall_map. rewrite Forall_forall in *. intros y Hy.
  apply is_date_lt; auto.
Qed.

Lemma comprehension_dates (ts : list json) (parsed : list datetime) :
  comprehension date_of_timestamp ts = inr parsed ->
  Forall (fun t => date_then_T t = true) ts ->
  Forall (fun d => is_date d = true) parsed.
Proof.
  intros H. apply comprehension_Forall2 in H.
  induction H as [|t d ts parsed Htd _ IH]; intros HT; constructor; inversion HT; subst.
  - eapply date_of_timestamp_is_date; eassumption.
  - now apply IH.
Qed.

Lemma daily_buckets_dates (ts : list json) (dates : list datetime) (counts : list nat) :
  daily_buckets ts = inr (dates, counts) ->
  Forall (fun t => date_then_T t = true) ts ->
  Forall (fun d => is_date d = true) dates
  /\ StronglySorted date_lt (map date_of dates).
Proof.
  intros H HT. pose proof (daily_buckets_sorted _ _ _ H) as (Hs & _ & _).
  apply daily_buckets_inr in H. destruct H as (parsed & Hp & _ & Hd & _).
  assert (Hall : Forall (fun d => is_date d = true) dates).
  { pose proof (comprehension_dates _ _ Hp HT) as Hparsed.
    rewrite Forall_forall in *. intros d Hin. apply Hparsed.
    apply (proj2 (Counter_keys parsed)). subst dates.
    eapply Permutation_in; [apply dt_sort_perm|exact Hin]. }
  split; [assumption|]. now apply StronglySorted_map_dates.
Qed.

(** Well-formed timestamps always yield buckets. *)
Lemma comprehension_total {A B} (f : A -> fault + B) (P : B -> Prop) (l : list A) :
  Forall (fun x => exists y, f x = inr y /\ P y) l ->
  exists r, comprehension f l = inr r /\ Forall P r.
Proof.
  induction 1 as [|x l (y & Hy & Py) _ (r & Hr & Pr)]; simpl.
  - exists []. split; [reflexivity|constructor].
  - rewrite Hy, Hr. exists (y :: r). split; [reflexivity|now constructor].
Qed.

Lemma daily_buckets_total (ts : list json) :
  Forall (fun t => exists d, date_of_timestamp t = inr d /\ is_date d = true) ts ->
  exists dates counts, daily_buckets ts = inr (dates, counts).
Proof.
  intros H. apply comprehension_total in H. destruct H as (parsed & Hp & Hd).
  unfold daily_buckets. rewrite Hp.
  assert (Hc : comparable (keys (Counter parsed)) = true).
  { unfold comparable. apply orb_true_iff. left. apply forallb_forall.
    intros d Hin. apply (proj2 (Counter_keys parsed)) in Hin.
    rewrite Forall_forall in Hd. apply Hd in Hin.
    unfold is_date in Hin. rewrite !andb_true_iff in Hin. tauto. }
  unfold sorted. rewrite Hc. eauto.
Qed.

(** ** The two patterns *)

Lemma match_plus_unfold (c c' : ascii) (p : pattern) (s : string) :
  match_here (PlusNot c :: p) (String c' s) =
  if Ascii.eqb c' c then None
  else match match_here (PlusNot c :: p) s with
       | Some r => Some r
       | None => match_here p s
       end.
Proof.
  simpl. destruct (Ascii.eqb c' c); [reflexivity|].
  destruct s as [|c'' s]; [reflexivity|].
  destruct (Ascii.eqb c'' c); reflexivity.
Qed.

Lemma match_lit (l : string) (q : pattern) (s : string) :
  match_here (lit l ++ q)%list s =
  match strip_prefix l s with
  | Some s' => match_here q s'
  | None => None
  end.
Proof.
  revert s; induction l as [|c l IH]; intros s; simpl; [reflexivity|].
  destruct s as [|c' s]; [reflexivity|]. destruct (Ascii.eqb c' c); [apply IH|reflexivity].
Qed.

Lemma match_opt (c d : ascii) (l : string) (q : pattern) (s : string) :
  Ascii.eqb c d = false ->
  match_here (Opt c :: lit (String d l) ++ q)%list s =
  match_here (lit (String d l) ++ q)%list
    (match s with
     | String c' s' => if Ascii.eqb c' c then s' else s
     | EmptyString => s
     end).
Proof.
  intros Hcd. destruct s as [|c' s]; [reflexivity|].
  cbn [match_here app]. destruct (Ascii.eqb c' c) eqn:E; [|reflexivity].
  destruct (match_here (lit (String d l) ++ q)%list s) eqn:M; [reflexivity|].
  apply Ascii.eqb_eq in E. subst c'. simpl. now rewrite Hcd.
Qed.

(** [[^/]+] in front of a literal [/]: it takes the whole segment. *)
Lemma match_segment_then_slash (q : pattern) (s : string) :
  match_here (PlusNot "/" :: Mark :: Lit "/" :: q) s =
  if starts_segment s then match_here (Mark :: Lit "/" :: q) (skip_segment s) else None.
Proof.
  induction s as [|c s IH]; [reflexivity|].
  rewrite match_plus_unfold. unfold starts_segment. cbn [skip_segment].
  destruct (Ascii.eqb c "/") eqn:E; [reflexivity|]. cbn [negb].
  rewrite IH. destruct s as [|c' s]; [reflexivity|].
  unfold starts_segment. cbn [skip_segment].
  destruct (Ascii.eqb c' "/") eqn:E'; cbn [negb].
  - reflexivity.
  - destruct (match_here (Mark :: Lit "/" :: q) (skip_segment s)); [reflexivity|].
    simpl. now rewrite E'.
Qed.

(** [[^/]+] at the end of the pattern. *)
Lemma match_segment_last (s : string) :
  match_here [PlusNot "/"; Mark] s =
  if starts_segment s then Some [skip_segment s] else None.
Proof.
  induction s as [|c s IH]; [reflexivity|].
  rewrite match_plus_unfold. unfold starts_segment. cbn [skip_segment].
  destruct (Ascii.eqb c "/") eqn:E; [reflexivity|]. cbn [negb].
  rewrite IH. destruct s as [|c' s]; [reflexivity|].
  unfold starts_segment. cbn [skip_segment].
  destruct (Ascii.eqb c' "/") eqn:E'; cbn [negb]; reflexivity.
Qed.

Lemma skip_segment_length (s : string) : (String.length (skip_segment s) <= String.length s)%nat.
Proof.
  induction s as [|c s IH]; simpl; [lia|]. destruct (Ascii.eqb c "/"); simpl; lia.
Qed.

Lemma text_between_segment (s : string) : text_between s (skip_segment s) = take_segment s.
Proof.
  unfold text_between. induction s as [|c s IH]; [reflexivity|].
  cbn [skip_segment take_segment]. destruct (Ascii.eqb c "/").
  - rewrite Nat.sub_diag. reflexivity.
  - pose proof (skip_segment_length s) as Hl.
    replace (String.length (String c s) - String.length (skip_segment s))%nat
      with (S (String.length s - String.length (skip_segment s)))
      by (cbn [String.length]; lia).
    simpl. now rewrite IH.
Qed.

Lemma strip_prefix_app (pre s s' : string) :
  strip_prefix pre s = Some s' -> s = pre ++ s'.
Proof.
  revert s; induction pre as [|c pre IH]; intros s; simpl.
  - intros H; now inversion H.
  - destruct s as [|c' s]; [discriminate|].
    destruct (Ascii.eqb c' c) eqn:E; [|discriminate].
    apply Ascii.eqb_eq in E. subst. intros H. now rewrite (IH _ H).
Qed.

Lemma strip_prefix_length (pre s s' : string) :
  strip_prefix pre s = Some s' -> String.length s = (String.length pre + String.length s')%nat.
Proof.
  intros H. apply strip_prefix_app in H. subst.
  induction pre; simpl; auto.
Qed.

Lemma text_between_prefix (pre s s' r : string) :
  strip_prefix pre s = Some s' -> (String.length r <= String.length s')%nat ->
  text_between s r = pre ++ text_between s' r.
Proof.
  intros H Hr. unfold text_between. pose proof (strip_prefix_length _ _ _ H) as Hl.
  apply strip_prefix_app in H. subst s. clear Hl.
  induction pre as [|c pre IH]; [reflexivity|].
  cbn [append String.length].
  assert (Hlen : String.length (pre ++ s') = (String.length pre + String.length s')%nat)
    by (clear; induction pre; simpl; auto).
  replace (S (String.length (pre ++ s')) - String.length r)%nat
    with (S (String.length (pre ++ s') - String.length r)) by lia.
  simpl. now rewrite IH.
Qed.

Lemma match_mark (p : pattern) (s : string) :
  match_here (Mark :: p) s =
  match match_here p s with
  | Some r => Some (s :: r)
  | None => None
  end.
Proof. reflexivity. Qed.

Lemma post_part_match (rest : string) :
  match_here (Mark :: lit "/post/" ++ [Mark; PlusNot "/"; Mark])%list rest =
  match strip_prefix "/post/" rest with
  | Some s => if starts_segment s then Some [rest; s; skip_segment s] else None
  | None => None
  end.
Proof.
  rewrite match_mark, (match_lit "/post/" [Mark; PlusNot "/"; Mark] rest).
  destruct (strip_prefix "/post/" rest) as [s|]; [|reflexivity].
  rewrite match_mark, match_segment_last. now destruct (starts_segment s).
Qed.

Lemma prefix_match (q : pattern) (link : string) :
  match_here (lit "http" ++ [Opt "s"] ++ lit "://bsky.app/profile/" ++ q)%list link =
  match after_profile link with
  | Some s => match_here q s
  | None => None
  end.
Proof.
  rewrite match_lit. unfold after_profile.
  destruct (strip_prefix "http" link) as [s|]; [|reflexivity].
  change ([Opt "s"] ++ lit "://bsky.app/profile/" ++ q)%list
    with (Opt "s" :: lit "://bsky.app/profile/" ++ q)%list.
  rewrite match_opt by reflexivity. fold (drop_optional "s" s). apply match_lit.
Qed.

Theorem re_match_web (link : string) : re_match web_pattern link = parse_web link.
Proof.
  unfold re_match, web_pattern, parse_web. rewrite prefix_match.
  destruct (after_profile link) as [s|]; [|reflexivity].
  change ([Mark; PlusNot "/"; Mark] ++ lit "/post/" ++ [Mark; PlusNot "/"; Mark])%list
    with (Mark :: PlusNot "/" :: Mark :: Lit "/" :: lit "post/" ++ [Mark; PlusNot "/"; Mark])%list.
  rewrite match_mark, match_segment_then_slash.
  destruct (starts_segment s); [|reflexivity].
  change (Mark :: Lit "/" :: lit "post/" ++ [Mark; PlusNot "/"; Mark])%list
    with (Mark :: lit "/post/" ++ [Mark; PlusNot "/"; Mark])%list.
  rewrite post_part_match. unfold post_id_of.
  destruct (strip_prefix "/post/" (skip_segment s)) as [s'|]; [|reflexivity].
  destruct (starts_segment s'); [|reflexivity].
  now rewrite !text_between_segment.
Qed.

Theorem re_match_did (link : string) : re_match did_in_profile_pattern link = parse_did link.
Proof.
  unfold re_match, did_in_profile_pattern, parse_did. rewrite prefix_match.
  destruct (after_profile link) as [s|]; [|reflexivity].
  change ([Mark] ++ lit "did:" ++ [PlusNot "/"; Mark] ++ lit "/post/" ++ [Mark; PlusNot "/"; Mark])%list
    with (Mark :: lit "did:" ++ (PlusNot "/" :: Mark :: Lit "/" :: lit "post/" ++ [Mark; PlusNot "/"; Mark]))%list.
  rewrite match_mark, match_lit.
  destruct (strip_prefix "did:" s) as [s'|] eqn:Hs; [|reflexivity].
  rewrite match_segment_then_slash.
  destruct (starts_segment s'); [|reflexivity].
  change (Mark :: Lit "/" :: lit "post/" ++ [Mark; PlusNot "/"; Mark])%list
    with (Mark :: lit "/post/" ++ [Mark; PlusNot "/"; Mark])%list.
  rewrite post_part_match. unfold post_id_of.
  destruct (strip_prefix "/post/" (skip_segment s')) as [s''|]; [|reflexivity].
  destruct (starts_segment s''); [|reflexivity].
  rewrite (text_between_prefix _ _ _ _ Hs (skip_segment_length s')).
  now rewrite !text_between_segment.
Qed.

(** ** Running computations *)

Lemma bind_unfold {A B} (m : M A) (k : A -> M B) (st : proc) :
  bind m k st =
  match m st with
  | (Ok a, st1, ev1) => match k a st1 with (r, st2, ev2) => (r, st2, (ev1 ++ ev2)%list) end
  | (Raise e, st1, ev1) => (Raise e, st1, ev1)
  end.
Proof. reflexivity. Qed.

(** ** What a computation may emit, whatever the state *)

Lemma emits_ret {A} P (a : A) : emits P (ret a).
Proof. intros st. constructor. Qed.

Lemma emits_raise {A} P (e : exn) : emits P (@raise A e).
Proof. intros st. constructor. Qed.

Lemma emits_emit P (ev : event) : P ev -> emits P (emit ev).
Proof. intros H st. repeat constructor. exact H. Qed.

Lemma emits_read P : emits P read_access_token.
Proof. intros st. constructor. Qed.

Lemma emits_write P v : emits P (write_access_token v).
Proof. intros st. constructor. Qed.

Lemma emits_bind {A B} P (m : M A) (k : A -> M B) :
  emits P m -> (forall a, emits P (k a)) -> emits P (bind m k).
Proof.
  intros Hm Hk st. unfold bind. specialize (Hm st).
  destruct (m st) as [[[a|e] st1] ev1]; simpl in *; [|assumption].
  specialize (Hk a st1). destruct (k a st1) as [[r st2] ev2]; simpl in *.
  apply Forall_app. split; assumption.
Qed.

Lemma emits_try_except {A} P (m : M A) catches handler :
  emits P m -> (forall e, emits P (handler e)) -> emits P (try_except m catches handler).
Proof.
  intros Hm Hh st. unfold try_except. specialize (Hm st).
  destruct (m st) as [[[a|e] st1] ev1]; simpl in *; [assumption|].
  destruct (catches e); [|assumption].
  specialize (Hh e st1). destruct (handler e st1) as [[r st2] ev2]; simpl in *.
  apply Forall_app. split; assumption.
Qed.

Lemma emits_lift {A} P w (r : fault + A) : emits P (lift w r).
Proof. destruct r; [apply emits_raise|apply emits_ret]. Qed.

Lemma emits_lift_outcome {A} P (o : outcome A) : emits P (lift_outcome o).
Proof. destruct o; [apply emits_ret|apply emits_raise]. Qed.

Ltac emits_step :=
  match goal with
  | |- emits _ (bind _ _) => apply emits_bind; [|intros]
  | |- emits _ (ret _) => apply emits_ret
  | |- emits _ (raise _) => apply emits_raise
  | |- emits _ (lift _ _) => apply emits_lift
  | |- emits _ (lift_outcome _) => apply emits_lift_outcome
  | |- emits _ read_access_token => apply emits_read
  | |- emits _ (write_access_token _) => apply emits_write
  | |- emits _ (try_except _ _ _) => apply emits_try_except; [|intros]
  | |- emits _ (emit _) => apply emits_emit
  | |- emits _ (logging_info _) => apply emits_emit
  | |- emits _ (logging_error _) => apply emits_emit
  | |- emits _ (if ?b then _ else _) => destruct b
  | |- emits _ (match ?x with _ => _ end) => destruct x
  end.

Lemma keeps_ret {A} (a : A) : keeps (ret a).
Proof. intros st. reflexivity. Qed.
Lemma keeps_raise {A} (e : exn) : keeps (@raise A e).
Proof. intros st. reflexivity. Qed.
Lemma keeps_emit (ev : event) : keeps (emit ev).
Proof. intros st. reflexivity. Qed.
Lemma keeps_read : keeps read_access_token.
Proof. intros st. reflexivity. Qed.
Lemma keeps_bind {A B} (m : M A) (k : A -> M B) :
  keeps m -> (forall a, keeps (k a)) -> keeps (bind m k).
Proof.
  intros Hm Hk st. unfold bind. specialize (Hm st). unfold state_of in *.
  destruct (m st) as [[[a|e] st1] ev1]; simpl in *; [|assumption]. subst st1.
  specialize (Hk a st). destruct (k a st) as [[r st2] ev2]; simpl in *. assumption.
Qed.
Lemma keeps_try_except {A} (m : M A) catches handler :
  keeps m -> (forall e, keeps (handler e)) -> keeps (try_except m catches handler).
Proof.
  intros Hm Hh st. unfold try_except. specialize (Hm st). unfold state_of in *.
  destruct (m st) as [[[a|e] st1] ev1]; simpl in *; [assumption|]. subst st1.
  destruct (catches e); [|reflexivity].
  specialize (Hh e st). destruct (handler e st) as [[r st2] ev2]; simpl in *. assumption.
Qed.
Lemma keeps_lift {A} w (r : fault + A) : keeps (lift w r).
Proof. destruct r; [apply keeps_raise|apply keeps_ret]. Qed.
Lemma keeps_lift_outcome {A} (o : outcome A) : keeps (lift_outcome o).
Proof. destruct o; [apply keeps_ret|apply keeps_raise]. Qed.

Ltac keeps_step :=
  match goal with
  | |- keeps (bind _ _) => apply keeps_bind; [|intros]
  | |- keeps (ret _) => apply keeps_ret
  | |- keeps (raise _) => apply keeps_raise
  | |- keeps (lift _ _) => apply keeps_lift
  | |- keeps (lift_outcome _) => apply keeps_lift_outcome
  | |- keeps read_access_token => apply keeps_read
  | |- keeps (try_except _ _ _) => apply keeps_try_except; [|intros]
  | |- keeps (emit _) => apply keeps_emit
  | |- keeps (logging_info _) => apply keeps_emit
  | |- keeps (logging_error _) => apply keeps_emit
  | |- keeps (if ?b then _ else _) => destruct b
  | |- keeps (match ?x with _ => _ end) => destruct x
  end.

Lemma requests_get_emits w P url headers params :
  P (Http (mkRequest GET url headers params None)) -> emits P (requests_get w url headers params).
Proof.
  intros H. unfold requests_get, requests_call. repeat emits_step. exact H.
Qed.

Lemma resolve_did_not_session w handle : emits not_session (resolve_did w handle).
Proof.
  unfold resolve_did, raise_for_status, response_json.
  repeat first [emits_step | apply requests_get_emits | reflexivity].
Qed.

Ltac emits_auto :=
  repeat first [ emits_step | apply requests_get_emits | reflexivity ].
Ltac keeps_auto := repeat keeps_step.

Lemma requests_get_keeps w url headers params : keeps (requests_get w url headers params).
Proof. unfold requests_get, requests_call. keeps_auto. Qed.

Lemma fetch_username_not_session w token did :
  emits not_session (fetch_username_from_did w API_URL token did).
Proof. unfold fetch_username_from_did, raise_for_status, response_json. emits_auto. Qed.

Lemma generate_chart_emits w P colors title xl yl dates counts path :
  (forall ev, (forall r, ev <> Http r) -> P ev) ->
  emits P (generate_chart w colors title xl yl dates counts path).
Proof.
  intros HP. unfold generate_chart.
  repeat first [emits_step | apply HP; intros; discriminate].
Qed.

Lemma not_session_other ev : (forall r, ev <> Http r) -> not_session ev.
Proof. destruct ev; intros H; try reflexivity. now destruct (H r). Qed.

Lemma generate_likes_chart_not_session w handle tss link :
  emits not_session (generate_likes_chart w handle tss link).
Proof.
  unfold generate_likes_chart.
  repeat first [emits_step | apply generate_chart_emits, not_session_other | reflexivity].
Qed.

Lemma generate_reposts_chart_not_session w handle reposts :
  emits not_session (generate_reposts_chart w handle reposts).
Proof.
  unfold generate_reposts_chart.
  repeat first [emits_step | apply generate_chart_emits, not_session_other | reflexivity].
Qed.

Lemma read_link_not_session w req : emits not_session (read_link w req).
Proof. unfold read_link. emits_auto. Qed.

Lemma identify_not_session w link : emits not_session (identify w link).
Proof.
  unfold identify.
  repeat first [emits_step | apply fetch_username_not_session | apply resolve_did_not_session].
Qed.

Lemma fetch_engagement_not_session w did post_id :
  emits not_session (fetch_engagement w did post_id).
Proof. unfold fetch_engagement, response_json. emits_auto. Qed.

Lemma render_not_session w handle post_id reposts likes :
  emits not_session (render_and_respond w handle post_id reposts likes).
Proof.
  unfold render_and_respond.
  repeat first [emits_step | apply generate_likes_chart_not_session
               | apply generate_reposts_chart_not_session].
Qed.

Lemma resolve_did_keeps w handle : keeps (resolve_did w handle).
Proof. unfold resolve_did, raise_for_status, response_json. repeat first [keeps_step | apply requests_get_keeps]. Qed.

Lemma fetch_username_keeps w url token did : keeps (fetch_username_from_did w url token did).
Proof. unfold fetch_username_from_did, raise_for_status, response_json. repeat first [keeps_step | apply requests_get_keeps]. Qed.

Lemma generate_chart_keeps w colors title xl yl dates counts path :
  keeps (generate_chart w colors title xl yl dates counts path).
Proof. unfold generate_chart. keeps_auto. Qed.

Lemma read_link_keeps w req : keeps (read_link w req).
Proof. unfold read_link. keeps_auto. Qed.

Lemma identify_keeps w link : keeps (identify w link).
Proof.
  unfold identify. repeat first [keeps_step | apply fetch_username_keeps | apply resolve_did_keeps].
Qed.

Lemma fetch_engagement_keeps w did post_id : keeps (fetch_engagement w did post_id).
Proof.
  unfold fetch_engagement, response_json. repeat first [keeps_step | apply requests_get_keeps].
Qed.

Lemma render_keeps w handle post_id reposts likes :
  keeps (render_and_respond w handle post_id reposts likes).
Proof.
  unfold render_and_respond, generate_likes_chart, generate_reposts_chart.
  repeat first [keeps_step | apply generate_chart_keeps].
Qed.

Lemma after_auth_not_session w req : emits not_session (after_auth w req).
Proof.
  unfold after_auth.
  repeat first [emits_step | apply read_link_not_session | apply identify_not_session
               | apply fetch_engagement_not_session | apply render_not_session].
Qed.

Lemma after_auth_keeps w req : keeps (after_auth w req).
Proof.
  unfold after_auth.
  repeat first [keeps_step | apply read_link_keeps | apply identify_keeps
               | apply fetch_engagement_keeps | apply render_keeps].
Qed.

Lemma bind_assoc {A B C} (m : M A) (k : A -> M B) (h : B -> M C) (st : proc) :
  bind (bind m k) h st = bind m (fun a => bind (k a) h) st.
Proof.
  unfold bind. destruct (m st) as [[[a|e] st1] ev1]; [|reflexivity].
  destruct (k a st1) as [[[b|e] st2] ev2]; [|reflexivity].
  destruct (h b st2) as [[r st3] ev3]. now rewrite app_assoc.
Qed.

Lemma body_split w req st :
  generate_charts_body w req st = bind (auth_check w) (fun _ => after_auth w req) st.
Proof. unfold generate_charts_body, prelude, after_auth. now rewrite !bind_assoc. Qed.

Lemma auth_check_cached w st :
  truthy (access_token st) = true -> auth_check w st = (Ok tt, st, []).
Proof. intros H. unfold auth_check, bind, read_access_token. simpl. now rewrite H. Qed.

Lemma body_cached w req st :
  truthy (access_token st) = true -> generate_charts_body w req st = after_auth w req st.
Proof.
  intros H. rewrite body_split. unfold bind. rewrite (auth_check_cached _ _ H).
  now destruct (after_auth w req st) as [[r st2] ev2].
Qed.

Lemma handler_emits P (m : M flask_response) st :
  P (Log ERROR "x") -> (forall t, P (Log ERROR t)) ->
  Forall P (events_of (m st)) ->
  Forall P (events_of (try_except m (fun _ => true)
    (fun e => logging_error ("Error generating charts: " ++ exn_str e) ;;
              ret (error_response 500 ("Error generating charts: " ++ exn_str e))) st)).
Proof.
  intros _ HP Hm. unfold try_except. destruct (m st) as [[[a|e] st1] ev1]; simpl in *; [assumption|].
  apply Forall_app. split; [assumption|]. repeat constructor. apply HP.
Qed.

Lemma cached_credential_run (w : world) (request_json : outcome json) (st : proc) :
  truthy (access_token st) = true ->
  Forall (fun ev => calls session_url ev = false) (events_of (generate_charts w request_json st))
  /\ state_of (generate_charts w request_json st) = st.
Proof.
  intros H. unfold generate_charts. split.
  - apply handler_emits; [reflexivity|reflexivity|].
    rewrite (body_cached _ _ _ H). apply after_auth_not_session.
  - unfold try_except. rewrite (body_cached _ _ _ H).
    pose proof (after_auth_keeps w request_json st) as Hk. unfold state_of in *.
    destruct (after_auth w request_json st) as [[[a|e] st1] ev1]; simpl in *; assumption.
Qed.

Lemma try_except_ok {A} (m : M A) catches handler st st1 a ev :
  m st = (Ok a, st1, ev) -> try_except m catches handler st = (Ok a, st1, ev).
Proof. intros H. unfold try_except. now rewrite H. Qed.

Lemma bind_ok_eq {A B} (m : M A) (k : A -> M B) st st1 a ev1 r st2 ev2 :
  m st = (Ok a, st1, ev1) -> k a st1 = (r, st2, ev2) ->
  bind m k st = (r, st2, (ev1 ++ ev2)%list).
Proof. intros H1 H2. unfold bind. now rewrite H1, H2. Qed.

Lemma bind_ok_ev {A B} (m : M A) (k : A -> M B) st st1 a ev1 r st2 ev2 ev :
  m st = (Ok a, st1, ev1) -> k a st1 = (r, st2, ev2) -> ev = (ev1 ++ ev2)%list ->
  bind m k st = (r, st2, ev).
Proof. intros H1 H2 ->. eapply bind_ok_eq; eassumption. Qed.

Lemma render_nothing w handle post_id st :
  render_and_respond w handle post_id (JArr []) (JArr []) st = (Ok (mkFlask 200 (JObj [])), st, []).
Proof. reflexivity. Qed.

Lemma requests_get_reply w url headers params code body st :
  http w (mkRequest GET url headers params None) = Reply code body ->
  requests_get w url headers params st =
  (Ok (mkResponse url code body), st, [Http (mkRequest GET url headers params None)]).
Proof. intros H. unfold requests_get, requests_call, bind, emit. now rewrite H. Qed.

Lemma requests_get_noreply w url headers params text st :
  http w (mkRequest GET url headers params None) = NoReply text ->
  requests_get w url headers params st =
  (Raise (mkExn RequestException text), st, [Http (mkRequest GET url headers params None)]).
Proof. intros H. unfold requests_get, requests_call, bind, emit. now rewrite H. Qed.

Lemma ret_run {A} (a : A) st : ret a st = (Ok a, st, []).
Proof. reflexivity. Qed.

Lemma lift_inr {A} w (r : fault + A) (a : A) st : r = inr a -> lift w r st = (Ok a, st, []).
Proof. intros ->. reflexivity. Qed.

Lemma read_token_run st : read_access_token st = (Ok (access_token st), st, []).
Proof. reflexivity. Qed.

Lemma logging_info_run t st : logging_info t st = (Ok tt, st, [Log INFO t]).
Proof. reflexivity. Qed.

Lemma generate_likes_chart_ok w handle tss post_link dates counts st :
  daily_buckets tss = inr (dates, counts) ->
  pyplot w (likes_chart w handle post_link dates counts) = None ->
  generate_likes_chart w handle tss post_link st =
  (Ok "static/likes_chart.png", st,
   [Log INFO "Generating likes chart..."; Plot (likes_chart w handle post_link dates counts);
    Log INFO "Chart saved to static/likes_chart.png"]).
Proof.
  intros Hb Hp. unfold generate_likes_chart, generate_chart, likes_chart in *.
  unfold bind, logging_info, emit, lift. rewrite Hb. cbn [ret]. now rewrite Hp.
Qed.

Lemma generate_reposts_chart_ok w handle reposts tss dates counts st :
  indexedAt_of reposts = inr tss ->
  daily_buckets tss = inr (dates, counts) ->
  pyplot w (reposts_chart w handle dates counts) = None ->
  generate_reposts_chart w handle reposts st =
  (Ok "static/reposts_chart.png", st,
   [Log INFO "Generating reposts chart..."; Plot (reposts_chart w handle dates counts);
    Log INFO "Chart saved to static/reposts_chart.png"]).
Proof.
  intros Hi Hb Hp. unfold generate_reposts_chart, generate_chart, reposts_chart in *.
  unfold bind, logging_info, emit, lift. rewrite Hi. cbn [ret]. rewrite Hb. cbn [ret]. now rewrite Hp.
Qed.

Lemma render_likes_only w handle post_id x likes tss dates counts st :
  indexedAt_of (JArr (x :: likes)) = inr tss ->
  daily_buckets tss = inr (dates, counts) ->
  pyplot w (likes_chart w handle (post_link_of w handle post_id) dates counts) = None ->
  render_and_respond w handle post_id (JArr []) (JArr (x :: likes)) st =
  (Ok (mkFlask 200 (JObj [("likes_chart", JStr "static/likes_chart.png")])), st,
   [Log INFO "Generating likes chart...";
    Plot (likes_chart w handle (post_link_of w handle post_id) dates counts);
    Log INFO "Chart saved to static/likes_chart.png"]).
Proof.
  intros Hi Hb Hp. unfold render_and_respond.
  unfold bind at 1. rewrite (lift_inr _ _ _ _ Hi). cbn [truthy].
  unfold bind at 1. unfold bind at 1.
  fold (post_link_of w handle post_id).
  rewrite (generate_likes_chart_ok _ _ _ _ _ _ _ Hb Hp). reflexivity.
Qed.

Lemma render_reposts_only w handle post_id x reposts tss dates counts st :
  indexedAt_of (JArr (x :: reposts)) = inr tss ->
  daily_buckets tss = inr (dates, counts) ->
  pyplot w (reposts_chart w handle dates counts) = None ->
  render_and_respond w handle post_id (JArr (x :: reposts)) (JArr []) st =
  (Ok (mkFlask 200 (JObj [("reposts_chart", JStr "static/reposts_chart.png")])), st,
   [Log INFO "Generating reposts chart...";
    Plot (reposts_chart w handle dates counts);
    Log INFO "Chart saved to static/reposts_chart.png"]).
Proof.
  intros Hi Hb Hp. unfold render_and_respond.
  unfold bind at 1. cbn [indexedAt_of py_iter indexedAt_items lift]. rewrite ret_run. cbn [truthy].
  unfold bind at 1. rewrite ret_run.
  unfold bind at 1. unfold bind at 1.
  rewrite (generate_reposts_chart_ok _ _ _ _ _ _ _ Hi Hb Hp). reflexivity.
Qed.

Lemma collection_run w key url code body v st :
  collection key (Reply code body) = Some v ->
  (if resp_status (mkResponse url code body) =? 200
   then bind (response_json w (mkResponse url code body))
          (fun data => lift w (py_get key (JArr []) data))
   else ret (JArr [])) st = (Ok v, st, []).
Proof.
  unfold collection. cbn [resp_status]. destruct (code =? 200).
  - destruct body as [[| | | | |fields]|]; try discriminate.
    intros H; inversion H; subst. unfold bind, response_json, py_get. cbn [resp_body ret lift].
    now destruct (dict_get key fields).
  - intros H; inversion H. reflexivity.
Qed.

Lemma fetch_engagement_run w did post_id st reposts likes :
  collection "repostedBy" (http w (fetch_request w reposts_url (access_token st) did post_id)) = Some reposts ->
  collection "likes" (http w (fetch_request w likes_url (access_token st) did post_id)) = Some likes ->
  fetch_engagement w did post_id st =
  (Ok (reposts, likes), st,
   [Http (fetch_request w reposts_url (access_token st) did post_id);
    Http (fetch_request w likes_url (access_token st) did post_id)]).
Proof.
  unfold fetch_request. intros Hr Hl. unfold fetch_engagement.
  eapply (bind_ok_eq _ _ _ _ _ [] _ _ _ (read_token_run st)).
  destruct (http w (mkRequest GET reposts_url _ _ _)) as [t|c1 b1] eqn:E1; [discriminate|].
  destruct (http w (mkRequest GET likes_url _ _ _)) as [t|c2 b2] eqn:E2; [discriminate|].
  eapply (bind_ok_eq _ _ _ _ _ [_] _ _ _ (requests_get_reply _ _ _ _ _ _ _ E1)).
  eapply (bind_ok_eq _ _ _ _ _ [] _ _ _ (collection_run _ _ _ _ _ _ _ Hr)).
  eapply (bind_ok_eq _ _ _ _ _ [_] _ _ _ (requests_get_reply _ _ _ _ _ _ _ E2)).
  eapply (bind_ok_eq _ _ _ _ _ [] _ _ _ (collection_run _ _ _ _ _ _ _ Hl)).
  reflexivity.
Qed.

Lemma requests_post_emits w P url body :
  P (Http (mkRequest POST url [] [] (Some body))) -> emits P (requests_post w url body).
Proof. intros H. unfold requests_post, requests_call. repeat emits_step. exact H. Qed.

Lemma auth_check_not_fetch w : emits not_fetch (auth_check w).
Proof.
  unfold auth_check, get_access_token, raise_for_status, response_json.
  repeat first [emits_step | apply requests_post_emits | reflexivity].
Qed.

Lemma dict_get_nonempty k fields v : dict_get k fields = Some v -> truthy (JObj fields) = true.
Proof. destruct fields; [discriminate|reflexivity]. Qed.

Lemma read_link_run w fields url st :
  dict_get "link" fields = Some (JStr url) ->
  read_link w (Ok (JObj fields)) st =
  (Ok (inr (strip url)), st, [Log INFO ("Received link: " ++ strip url)]).
Proof.
  intros H. unfold read_link, bind, lift_outcome, ret.
  rewrite (dict_get_nonempty _ _ _ H). cbn [negb].
  unfold py_contains, py_getitem, dict_has, lift. rewrite H. reflexivity.
Qed.

Lemma identify_no_match w link st :
  re_match did_in_profile_pattern link = None ->
  re_match web_pattern link = None ->
  identify w link st = (Ok (inl (error_response 400 "Invalid link format.")), st, []).
Proof. intros H1 H2. unfold identify. now rewrite H1, H2. Qed.

Lemma after_auth_invalid w fields url st :
  dict_get "link" fields = Some (JStr url) ->
  re_match did_in_profile_pattern (strip url) = None ->
  re_match web_pattern (strip url) = None ->
  after_auth w (Ok (JObj fields)) st =
  (Ok (error_response 400 "Invalid link format."), st,
   [Log INFO ("Received link: " ++ strip url)]).
Proof.
  intros Hl H1 H2. unfold after_auth.
  eapply bind_ok_ev;
    [ eapply bind_ok_ev;
        [ apply read_link_run, Hl | now apply identify_no_match | symmetry; apply app_nil_r ]
    | reflexivity | symmetry; apply app_nil_r ].
Qed.

(** ** The boundary *)

Lemma http_json_run {A} w url headers params (k : json -> M A) st :
  (response <- requests_get w url headers params ;;
   raise_for_status w response ;;
   data <- response_json w response ;;
   k data) st =
  match http w (mkRequest GET url headers params None) with
  | NoReply t =>
      (Raise (mkExn RequestException t), st, [Http (mkRequest GET url headers params None)])
  | Reply code body =>
      if error_status code
      then (Raise (fault_exn w (FHttpStatus code url)), st,
            [Http (mkRequest GET url headers params None)])
      else match body with
           | None => (Raise (fault_exn w (FJsonDecode url)), st,
                      [Http (mkRequest GET url headers params None)])
           | Some v => (result_of (k v st), state_of (k v st),
                        Http (mkRequest GET url headers params None) :: events_of (k v st))
           end
  end.
Proof.
  rewrite bind_unfold.
  destruct (http w _) as [t|code body] eqn:E.
  - now rewrite (requests_get_noreply _ _ _ _ _ _ E).
  - rewrite (requests_get_reply _ _ _ _ _ _ _ E).
    rewrite bind_unfold. unfold raise_for_status, error_status. cbn [resp_status resp_url].
    destruct ((400 <=? code) && (code <? 600)); [reflexivity|].
    rewrite ret_run. rewrite bind_unfold. unfold response_json. cbn [resp_body resp_url].
    destruct body as [v|]; [|reflexivity].
    rewrite ret_run. destruct (k v st) as [[r st'] ev]. reflexivity.
Qed.

Lemma resolve_did_run w handle st :
  resolve_did w handle st =
  let req := resolve_request w (access_token st) handle in
  let failed text :=
    (Ok JNull, st,
     [Log INFO ("Resolving DID for handle: " ++ handle); Http req;
      Log ERROR ("Error resolving DID for handle " ++ handle ++ ": " ++ text)]) in
  match http w req with
  | NoReply t => failed t
  | Reply code body =>
      if error_status code then failed (fault_text w (FHttpStatus code resolve_handle_url))
      else match body with
           | None => failed (fault_text w (FJsonDecode resolve_handle_url))
           | Some (JObj fields) =>
               let did := match dict_get "did" fields with Some v => v | None => JNull end in
               if truthy did
               then (Ok did, st,
                     [Log INFO ("Resolving DID for handle: " ++ handle); Http req;
                      Log INFO ("Resolved DID for " ++ handle ++ ": " ++ fmt w did)])
               else (Ok JNull, st,
                     [Log INFO ("Resolving DID for handle: " ++ handle); Http req;
                      Log ERROR ("Failed to resolve DID for handle: " ++ handle)])
           | Some v =>
               (Raise (fault_exn w (FNoAttribute v "get")), st,
                [Log INFO ("Resolving DID for handle: " ++ handle); Http req])
           end
  end.
Proof.
  unfold resolve_did, resolve_request, resolve_handle_url.
  rewrite bind_unfold, read_token_run. cbv beta iota zeta.
  unfold try_except. rewrite bind_unfold, logging_info_run, http_json_run.
  destruct (http w _) as [t|code body]; [reflexivity|].
  destruct (error_status code); [reflexivity|].
  destruct body as [v|]; [|reflexivity].
  destruct v as [| | | | |fields]; try reflexivity.
  unfold py_get, lift. destruct (dict_get "did" fields) as [did|].
  - rewrite bind_unfold, ret_run. destruct (truthy did); reflexivity.
  - rewrite bind_unfold, ret_run. reflexivity.
Qed.

Lemma fetch_username_run w api_url token did st :
  fetch_username_from_did w api_url token did st =
  let req := profile_request w api_url token did in
  let failed text :=
    (Ok JNull, st,
     [Http req; Log ERROR ("Error fetching username for DID " ++ did ++ ": " ++ text)]) in
  match http w req with
  | NoReply t => failed t
  | Reply code body =>
      if error_status code
      then failed (fault_text w (FHttpStatus code (api_url ++ "/app.bsky.actor.getProfile")))
      else match body with
           | None => failed (fault_text w (FJsonDecode (api_url ++ "/app.bsky.actor.getProfile")))
           | Some (JObj fields) =>
               let handle := match dict_get "handle" fields with Some v => v | None => JNull end in
               (Ok handle, st,
                [Http req; Log INFO ("Resolved handle for DID " ++ did ++ ": " ++ fmt w handle)])
           | Some v => (Raise (fault_exn w (FNoAttribute v "get")), st, [Http req])
           end
  end.
Proof.
  unfold fetch_username_from_did, profile_request.
  cbv beta iota zeta. unfold try_except. rewrite http_json_run.
  destruct (http w _) as [t|code body]; [reflexivity|].
  destruct (error_status code); [reflexivity|].
  destruct body as [v|]; [|reflexivity].
  destruct v as [| | | | |fields]; try reflexivity.
  unfold py_get, lift. destruct (dict_get "handle" fields) as [h|]; reflexivity.
Qed.

Lemma requests_post_run w url body st :
  requests_post w url body st =
  match http w (mkRequest POST url [] [] (Some body)) with
  | NoReply t => (Raise (mkExn RequestException t), st, [Http (mkRequest POST url [] [] (Some body))])
  | Reply code b => (Ok (mkResponse url code b), st, [Http (mkRequest POST url [] [] (Some body))])
  end.
Proof.
  unfold requests_post, requests_call, bind, emit.
  cbn [req_url]. destruct (http w _); reflexivity.
Qed.

Lemma get_access_token_run w st :
  get_access_token w st =
  let req := session_request w in
  let failed text :=
    (Raise (mkExn PlainException "Authentication failed. Check your username and password."), st,
     [Log INFO "Attempting to log into Bluesky..."; Http req;
      Log ERROR ("Error during Bluesky authentication: " ++ text)]) in
  match http w req with
  | NoReply t => failed t
  | Reply code body =>
      if error_status code then failed (fault_text w (FHttpStatus code session_url))
      else match body with
           | None => failed (fault_text w (FJsonDecode session_url))
           | Some (JObj fields) =>
               let token := match dict_get "accessJwt" fields with Some v => v | None => JNull end in
               if truthy token
               then (Ok tt, mkProc token,
                     [Log INFO "Attempting to log into Bluesky..."; Http req;
                      Log INFO "Login successful. Access token retrieved."])
               else (Raise (mkExn ValueError "Access token not retrieved."), mkProc token,
                     [Log INFO "Attempting to log into Bluesky..."; Http req])
           | Some v =>
               (Raise (fault_exn w (FNoAttribute v "get")), st,
                [Log INFO "Attempting to log into Bluesky..."; Http req])
           end
  end.
Proof.
  unfold get_access_token, session_request, session_url.
  cbv beta iota zeta. unfold try_except.
  rewrite bind_unfold, logging_info_run, bind_unfold, requests_post_run.
  destruct (http w _) as [t|code body]; [reflexivity|].
  rewrite bind_unfold. unfold raise_for_status, error_status. cbn [resp_status resp_url].
  destruct ((400 <=? code) && (code <? 600)); [reflexivity|].
  rewrite ret_run, bind_unfold. unfold response_json. cbn [resp_body resp_url].
  destruct body as [v|]; [|reflexivity].
  rewrite ret_run, bind_unfold.
  destruct v as [| | | | |fields]; try reflexivity.
  unfold py_get, lift.
  destruct (dict_get "accessJwt" fields) as [token|];
    rewrite ret_run, bind_unfold; unfold write_access_token.
  - destruct (truthy token); reflexivity.
  - reflexivity.
Qed.

Lemma auth_check_run w st :
  auth_check w st =
  if truthy (access_token st) then (Ok tt, st, []) else get_access_token w st.
Proof.
  unfold auth_check. rewrite bind_unfold, read_token_run.
  destruct (truthy (access_token st)); cbn [negb]; [reflexivity|].
  destruct (get_access_token w st) as [[r st'] ev]. reflexivity.
Qed.

(** A run of [auth_check] that returns leaves a token that is true. *)
Lemma auth_check_ok w st st1 ev1 :
  auth_check w st = (Ok tt, st1, ev1) -> truthy (access_token st1) = true.
Proof.
  rewrite auth_check_run. destruct (truthy (access_token st)) eqn:Ht.
  - intros H; inversion H; subst. exact Ht.
  - rewrite get_access_token_run. cbv beta zeta.
    destruct (http w _) as [t|code body]; [intros H; inversion H|].
    destruct (error_status code); [intros H; inversion H|].
    destruct body as [[| | | | |fields]|]; try (intros H; inversion H; fail).
    remember (match dict_get "accessJwt" fields with Some v => v | None => JNull end) as token.
    destruct (truthy token) eqn:Hv; [|intros H; inversion H].
    intros H; inversion H; subst. exact Hv.
Qed.

Lemma get_access_token_calls w st :
  Exists (fun ev => calls session_url ev = true) (events_of (get_access_token w st)).
Proof.
  rewrite get_access_token_run. cbv beta zeta.
  assert (Hc : calls session_url (Http (session_request w)) = true) by reflexivity.
  destruct (http w _) as [t|code body]; [right; left; exact Hc|].
  destruct (error_status code); [right; left; exact Hc|].
  destruct body as [[| | | | |fields]|]; try (right; left; exact Hc).
  destruct (truthy _); right; left; exact Hc.
Qed.

Lemma events_bind_prefix {A B} (m : M A) (k : A -> M B) st :
  exists rest, events_of (bind m k st) = (events_of (m st) ++ rest)%list.
Proof.
  unfold bind. destruct (m st) as [[[a|e] st1] ev1].
  - destruct (k a st1) as [[r st2] ev2]. now exists ev2.
  - exists []. cbn. now rewrite app_nil_r.
Qed.

Lemma events_try_prefix {A} (m : M A) catches handler st :
  exists rest, events_of (try_except m catches handler st) = (events_of (m st) ++ rest)%list.
Proof.
  unfold try_except. destruct (m st) as [[[a|e] st1] ev1].
  - exists []. cbn. now rewrite app_nil_r.
  - destruct (catches e).
    + destruct (handler e st1) as [[r st2] ev2]. now exists ev2.
    + exists []. cbn. now rewrite app_nil_r.
Qed.

Lemma session_called_when_absent w req st :
  truthy (access_token st) = false ->
  Exists (fun ev => calls session_url ev = true) (events_of (generate_charts w req st)).
Proof.
  intros Ht. unfold generate_charts.
  destruct (events_try_prefix (generate_charts_body w req) (fun _ => true)
              (fun e => logging_error ("Error generating charts: " ++ exn_str e) ;;
                        ret (error_response 500 ("Error generating charts: " ++ exn_str e))) st)
    as [rest ->].
  apply Exists_app. left.
  assert (Hb : exists rest', events_of (generate_charts_body w req st)
                 = (events_of (auth_check w st) ++ rest')%list).
  { rewrite body_split. apply events_bind_prefix. }
  destruct Hb as [rest' ->]. apply Exists_app. left.
  rewrite auth_check_run, Ht. apply get_access_token_calls.
Qed.

(** ** The DID shape *)

Lemma take_segment_nonempty (s : string) :
  starts_segment s = true -> take_segment s <> EmptyString.
Proof.
  destruct s as [|c s]; [discriminate|]. simpl.
  destruct (Ascii.eqb c "/"); [discriminate|]. intros _ H. discriminate.
Qed.

Lemma take_segment_cons (s t : string) (c : ascii) :
  take_segment s = String c t ->
  exists s', s = String c s' /\ take_segment s' = t /\ Ascii.eqb c "/" = false.
Proof.
  destruct s as [|c' s]; [discriminate|]. simpl.
  destruct (Ascii.eqb c' "/") eqn:E; [discriminate|].
  intros H; inversion H; subst. eauto.
Qed.

Lemma did_prefix_segment (s s' : string) :
  strip_prefix "did:" s = Some s' ->
  starts_segment s = true
  /\ skip_segment s = skip_segment s'
  /\ take_segment s = "did:" ++ take_segment s'.
Proof.
  intros H. apply strip_prefix_app in H. subst s. repeat split.
Qed.

Lemma did_match_is_web_match (link d p : string) :
  parse_did link = Some (d, p) -> parse_web link = Some (d, p).
Proof.
  unfold parse_did, parse_web. destruct (after_profile link) as [s|]; [|discriminate].
  destruct (strip_prefix "did:" s) as [s'|] eqn:Hs; [|discriminate].
  destruct (did_prefix_segment _ _ Hs) as (H1 & H2 & H3). rewrite H1, H2, H3.
  destruct (starts_segment s'); [|discriminate].
  destruct (post_id_of (skip_segment s')); [|discriminate]. auto.
Qed.

Lemma did_match_shape (link d p : string) :
  parse_did link = Some (d, p) -> did_shaped d.
Proof.
  unfold parse_did. destruct (after_profile link) as [s|]; [|discriminate].
  destruct (strip_prefix "did:" s) as [s'|]; [|discriminate].
  destruct (starts_segment s') eqn:Hs; [|discriminate].
  destruct (post_id_of (skip_segment s')); [|discriminate].
  intros H; inversion H; subst. exists (take_segment s'). split; [|reflexivity].
  now apply take_segment_nonempty.
Qed.

Lemma shaped_web_match_is_did_match (link h p : string) :
  parse_web link = Some (h, p) -> did_shaped h -> parse_did link = Some (h, p).
Proof.
  unfold parse_web, parse_did. destruct (after_profile link) as [s|]; [|discriminate].
  destruct (starts_segment s); [|discriminate].
  destruct (post_id_of (skip_segment s)) as [post_id|] eqn:Hp; [|discriminate].
  intros H (rest & Hne & Hh). inversion H; subst p. clear H. rewrite Hh in H1. clear Hh h.
  cbn [append] in H1.
  apply take_segment_cons in H1. destruct H1 as (s1 & -> & H1 & _).
  apply take_segment_cons in H1. destruct H1 as (s2 & -> & H1 & _).
  apply take_segment_cons in H1. destruct H1 as (s3 & -> & H1 & _).
  apply take_segment_cons in H1. destruct H1 as (s4 & -> & H1 & _).
  cbn [strip_prefix Ascii.eqb Bool.eqb]. cbn [skip_segment Ascii.eqb Bool.eqb] in Hp.
  assert (Hs : starts_segment s4 = true).
  { destruct s4 as [|c s4]; [now destruct Hne; rewrite <- H1|]. simpl in *.
    destruct (Ascii.eqb c "/"); [now destruct Hne; rewrite <- H1|reflexivity]. }
  rewrite Hs, Hp. reflexivity.
Qed.

Lemma web_match_branch (link h p : string) :
  re_match web_pattern link = Some (h, p) ->
  (did_shaped h -> re_match did_in_profile_pattern link = Some (h, p))
  /\ (~ did_shaped h -> re_match did_in_profile_pattern link = None).
Proof.
  rewrite re_match_web, re_match_did. intros Hw. split.
  - now apply shaped_web_match_is_did_match.
  - intros Hn. destruct (parse_did link) as [[d q]|] eqn:Hd; [|reflexivity].
    pose proof (did_match_shape _ _ _ Hd) as Hs.
    apply did_match_is_web_match in Hd. rewrite Hd in Hw. inversion Hw; subst. now destruct Hn.
Qed.

(** ** The branch of [identify] *)

Lemma bind_ret_events {A B} (m : M A) (f : A -> B) (st : proc) :
  events_of (bind m (fun a => ret (f a)) st) = events_of (m st).
Proof.
  unfold bind. destruct (m st) as [[[a|e] st1] ev1]; cbn; [apply app_nil_r|reflexivity].
Qed.

Lemma identify_did_branch w link st d p :
  re_match did_in_profile_pattern link = Some (d, p) ->
  identify w link st =
  (handle <- fetch_username_from_did w API_URL (access_token st) d ;;
   ret (inr (JStr d, handle, p))) st.
Proof.
  intros H. unfold identify. rewrite H. rewrite bind_unfold, read_token_run.
  destruct (bind _ _ st) as [[r st2] ev2]. reflexivity.
Qed.

Lemma identify_handle_branch w link st h p :
  re_match did_in_profile_pattern link = None ->
  re_match web_pattern link = Some (h, p) ->
  identify w link st = (did <- resolve_did w h ;; ret (inr (did, JStr h, p))) st.
Proof. intros H1 H2. unfold identify. now rewrite H1, H2. Qed.

Lemma fetch_username_events w api_url token did st :
  exists logs,
    events_of (fetch_username_from_did w api_url token did st)
    = Http (profile_request w api_url token did) :: logs
    /\ Forall is_log logs.
Proof.
  rewrite fetch_username_run. cbv beta zeta.
  destruct (http w _) as [t|code body].
  - eexists. split; [reflexivity|]. repeat constructor. unfold is_log. eauto.
  - destruct (error_status code).
    + eexists. split; [reflexivity|]. repeat constructor. unfold is_log. eauto.
    + destruct body as [[| | | | |fields]|];
        (eexists; split; [reflexivity|]; repeat constructor; unfold is_log; eauto).
Qed.

Lemma resolve_did_events w handle st :
  exists logs,
    events_of (resolve_did w handle st)
    = Log INFO ("Resolving DID for handle: " ++ handle)
      :: Http (resolve_request w (access_token st) handle) :: logs
    /\ Forall is_log logs.
Proof.
  rewrite resolve_did_run. cbv beta zeta.
  destruct (http w _) as [t|code body].
  - eexists. split; [reflexivity|]. repeat constructor. unfold is_log. eauto.
  - destruct (error_status code).
    + eexists. split; [reflexivity|]. repeat constructor. unfold is_log. eauto.
    + destruct body as [[| | | | |fields]|];
        try (eexists; split; [reflexivity|]; repeat constructor; unfold is_log; eauto; fail).
      destruct (truthy _);
        (eexists; split; [reflexivity|]; repeat constructor; unfold is_log; eauto).
Qed.

Lemma log_calls_nothing url ev : is_log ev -> calls url ev = false.
Proof. intros (l & t & ->). reflexivity. Qed.

Lemma logs_call_nothing url logs : Forall is_log logs -> Forall (fun ev => calls url ev = false) logs.
Proof. intros H. eapply Forall_impl; [|exact H]. intros ev. apply log_calls_nothing. Qed.

(** ** Only observed days are emitted *)

Lemma dt_eqb_refl (k : datetime) : dt_eqb k k = true.
Proof.
  unfold dt_eqb, dt_cmp. destruct (utcoffset k).
  - now rewrite Z.compare_refl.
  - now rewrite lex_compare_refl.
Qed.

Lemma counter_incr_positive (k : datetime) (c : counter) :
  Forall (fun kn => (1 <= snd kn)%nat) c ->
  Forall (fun kn => (1 <= snd kn)%nat) (counter_incr k c).
Proof.
  induction 1 as [|[k' n] c Hn Hc IH]; simpl.
  - repeat constructor.
  - destruct (dt_eqb k' k); constructor; simpl in *; auto; lia.
Qed.

Lemma Counter_positive (items : list datetime) :
  Forall (fun kn => (1 <= snd kn)%nat) (Counter items).
Proof.
  unfold Counter.
  assert (H : forall c, Forall (fun kn => (1 <= snd kn)%nat) c ->
                        Forall (fun kn => (1 <= snd kn)%nat)
                          (fold_left (fun c k => counter_incr k c) items c)).
  { induction items as [|k items IH]; simpl; intros c Hc; [exact Hc|].
    apply IH. now apply counter_incr_positive. }
  apply H. constructor.
Qed.

Lemma counter_get_positive (c : counter) (k : datetime) :
  Forall (fun kn => (1 <= snd kn)%nat) c -> In k (keys c) -> (1 <= counter_get c k)%nat.
Proof.
  induction 1 as [|[k' n] c Hn Hc IH]; simpl; [tauto|].
  destruct (dt_eqb k' k) eqn:E; [intros _; exact Hn|].
  intros [->|Hin]; [now rewrite dt_eqb_refl in E|now apply IH].
Qed.

Lemma Forall2_In_right {A B} (R : A -> B -> Prop) (l : list A) (r : list B) (y : B) :
  Forall2 R l r -> In y r -> exists x, In x l /\ R x y.
Proof.
  induction 1 as [|a b l r Hab _ IH]; simpl; [tauto|].
  intros [->|Hin]; [eauto|]. destruct (IH Hin) as (x & Hx & Hr). eauto.
Qed.

(** Every day that is emitted is the day of one of the timestamps, and its
    count is at least one: no day is made up to fill a gap. *)
Lemma buckets_are_observed (ts : list json) (dates : list datetime) (counts : list nat) :
  daily_buckets ts = inr (dates, counts) ->
  Forall (fun d => exists t, In t ts /\ date_of_timestamp t = inr d) dates
  /\ Forall (fun n => (1 <= n)%nat) counts.
Proof.
  intros H. apply daily_buckets_inr in H. destruct H as (parsed & Hp & _ & Hd & Hc).
  apply comprehension_Forall2 in Hp.
  assert (Hk : forall d, In d dates -> In d (keys (Counter parsed))).
  { intros d Hin. subst dates. eapply Permutation_in; [apply dt_sort_perm|exact Hin]. }
  split.
  - apply Forall_forall. intros d Hin.
    apply Hk, (proj2 (Counter_keys parsed)) in Hin.
    now apply (Forall2_In_right _ _ _ _ Hp).
  - subst counts. apply Forall_map, Forall_forall. intros d Hin.
    apply counter_get_positive; [apply Counter_positive|now apply Hk].
Qed.

(** ** The other direction of the fail-soft status check *)

(** X19: a likes endpoint that answers with any status other than 200 is
    read as no likes, whatever its body: when the reposts endpoint lists
    reposts that can be bucketed and drawn, the response is status 200 with
    the reposts chart alone. *)
Lemma likes_status_failure_keeps_reposts (w : world) (request_json : outcome json)
    (st st1 : proc) (did handle : json) (post_id : string) (ev1 : list event)
    (code : Z) (body : option json) (fields : list (string * json))
    (x : json) (reposts tss : list json) (dates : list datetime) (counts : list nat) :
  prelude w request_json st = (Ok (inr (did, handle, post_id)), st1, ev1) ->
  http w (fetch_request w likes_url (access_token st1) did post_id) = Reply code body ->
  code <> 200 ->
  http w (fetch_request w reposts_url (access_token st1) did post_id)
    = Reply 200 (Some (JObj fields)) ->
  dict_get "repostedBy" fields = Some (JArr (x :: reposts)) ->
  indexedAt_of (JArr (x :: reposts)) = inr tss ->
  daily_buckets tss = inr (dates, counts) ->
  (forall c, pyplot w c = None) ->
  exists ev,
    generate_charts w request_json st =
    (Ok (mkFlask 200 (JObj [("reposts_chart", JStr "static/reposts_chart.png")])), st1, ev).
Proof.
  intros Hp Hl Hc Hr Hd Hi Hb Hplot. eexists.
  unfold generate_charts. apply try_except_ok.
  unfold generate_charts_body. eapply bind_ok_eq; [exact Hp|]. cbv beta iota.
  eapply bind_ok_eq.
  - apply fetch_engagement_run.
    + rewrite Hr. unfold collection. cbn [Z.eqb Pos.eqb]. now rewrite Hd.
    + rewrite Hl. unfold collection. apply Z.eqb_neq in Hc. now rewrite Hc.
  - cbv beta iota. eapply render_reposts_only; eauto.
Qed.

(** ** An unresolved handle is not stopped *)

Lemma unresolved_did_enters_fetch (w : world) (link handle post_id : string) (st : proc) :
  re_match did_in_profile_pattern link = None ->
  re_match web_pattern link = Some (handle, post_id) ->
  lookup_failed "did" (http w (resolve_request w (access_token st) handle)) ->
  result_of (identify w link st) = Ok (inr (JNull, JStr handle, post_id))
  /\ at_uri w JNull post_id = "at://None/app.bsky.feed.post/" ++ post_id.
Proof.
  intros Hd Hw Hf. split; [|reflexivity].
  rewrite (identify_handle_branch w _ st _ _ Hd Hw).
  unfold bind.
  assert (H : exists ev, resolve_did w handle st = (Ok JNull, st, ev)).
  { rewrite resolve_did_run. cbv beta zeta. unfold lookup_failed in Hf.
    destruct (http w _) as [t|code body]; [eauto|].
    destruct (error_status code); [eauto|].
    destruct Hf as [Hf|[->|(fields & -> & ->)]]; [discriminate|eauto|].
    cbn [truthy]. eauto. }
  destruct H as [ev ->]. reflexivity.
Qed.

(** ** What the two generators hand to the renderer *)

Lemma generate_chart_plots w colors title xl yl dates counts path st c :
  In (Plot c) (events_of (generate_chart w colors title xl yl dates counts path st)) ->
  c = mkChart colors title xl yl dates counts path.
Proof.
  unfold generate_chart. rewrite bind_unfold. unfold emit.
  destruct (pyplot w _); cbn; intros [H|H]; try (now inversion H);
    destruct H as [H|H]; try discriminate; destruct H.
Qed.

Lemma likes_chart_plots w handle ts post_link st c :
  In (Plot c) (events_of (generate_likes_chart w handle ts post_link st)) ->
  exists dates counts,
    daily_buckets ts = inr (dates, counts)
    /\ c = likes_chart w handle post_link dates counts.
Proof.
  unfold generate_likes_chart. rewrite bind_unfold, logging_info_run, bind_unfold.
  destruct (daily_buckets ts) as [e|[dates counts]]; cbn [lift].
  - cbn. intros [H|[]]. discriminate.
  - rewrite ret_run. rewrite bind_unfold.
    destruct (generate_chart _ _ _ _ _ _ _ _ _) as [[[[]|e] st1] ev1] eqn:E;
      cbn; intros [H|H]; try discriminate.
    + apply in_app_or in H. destruct H as [H|[]].
      exists dates, counts. split; [reflexivity|].
      eapply generate_chart_plots. rewrite E. exact H.
    + exists dates, counts. split; [reflexivity|].
      eapply generate_chart_plots. rewrite E. exact H.
Qed.

Lemma reposts_chart_plots w handle reposts st c :
  In (Plot c) (events_of (generate_reposts_chart w handle reposts st)) ->
  exists tss dates counts,
    indexedAt_of reposts = inr tss
    /\ daily_buckets tss = inr (dates, counts)
    /\ c = reposts_chart w handle dates counts.
Proof.
  unfold generate_reposts_chart. rewrite bind_unfold, logging_info_run, bind_unfold.
  destruct (indexedAt_of reposts) as [e|tss]; cbn [lift].
  - cbn. intros [H|[]]. discriminate.
  - rewrite ret_run, bind_unfold.
    destruct (daily_buckets tss) as [e|[dates counts]] eqn:Hb; cbn [lift].
    + cbn. intros [H|[]]. discriminate.
    + rewrite ret_run. rewrite bind_unfold.
      destruct (generate_chart _ _ _ _ _ _ _ _ _) as [[[[]|e] st1] ev1] eqn:E;
        cbn; intros [H|H]; try discriminate.
      * apply in_app_or in H. destruct H as [H|[]].
        exists tss, dates, counts. split; [reflexivity|]. split; [exact Hb|].
        eapply generate_chart_plots. rewrite E. exact H.
      * exists tss, dates, counts. split; [reflexivity|]. split; [exact Hb|].
        eapply generate_chart_plots. rewrite E. exact H.
Qed.

(** ** What a run returns *)

Lemma yields_ret {A} (P : A -> Prop) (a : A) : P a -> yields P (ret a).
Proof. intros H st a' st1 ev E. inversion E; subst. exact H. Qed.

Lemma yields_raise {A} (P : A -> Prop) (e : exn) : yields P (@raise A e).
Proof. intros st a' st1 ev E. inversion E. Qed.

Lemma yields_bind {A B} (Q : A -> Prop) (P : B -> Prop) (m : M A) (k : A -> M B) :
  yields Q m -> (forall a, Q a -> yields P (k a)) -> yields P (bind m k).
Proof.
  intros Hm Hk st b st2 ev. unfold bind.
  destruct (m st) as [[[a|e] st1] ev1] eqn:Em; [|intros E; inversion E].
  destruct (k a st1) as [[r st3] ev3] eqn:Ek. intros E; inversion E; subst.
  eapply Hk; [eapply Hm; exact Em|exact Ek].
Qed.

Lemma yields_any {A} (m : M A) : yields (fun _ => True) m.
Proof. intros st a st1 ev _. exact I. Qed.

Lemma yields_weaken {A} (P Q : A -> Prop) (m : M A) :
  (forall a, P a -> Q a) -> yields P m -> yields Q m.
Proof. intros H Hm st a st1 ev E. exact (H _ (Hm _ _ _ _ E)). Qed.

Lemma yields_likes_path w handle ts link :
  yields (fun p => p = "static/likes_chart.png") (generate_likes_chart w handle ts link).
Proof.
  unfold generate_likes_chart.
  apply (yields_bind (fun _ => True)); [apply yields_any|intros _ _].
  apply (yields_bind (fun _ => True)); [apply yields_any|intros [dates counts] _].
  apply (yields_bind (fun _ => True)); [apply yields_any|intros _ _].
  now apply yields_ret.
Qed.

Lemma yields_reposts_path w handle reposts :
  yields (fun p => p = "static/reposts_chart.png") (generate_reposts_chart w handle reposts).
Proof.
  unfold generate_reposts_chart.
  apply (yields_bind (fun _ => True)); [apply yields_any|intros _ _].
  apply (yields_bind (fun _ => True)); [apply yields_any|intros tss _].
  apply (yields_bind (fun _ => True)); [apply yields_any|intros [dates counts] _].
  apply (yields_bind (fun _ => True)); [apply yields_any|intros _ _].
  now apply yields_ret.
Qed.

Lemma render_returns w handle post_id reposts likes :
  yields returned_response (render_and_respond w handle post_id reposts likes).
Proof.
  unfold render_and_respond.
  apply (yields_bind (fun _ => True)); [apply yields_any|intros tss _].
  apply (yields_bind (fun p => p = JNull \/ p = JStr "static/likes_chart.png")).
  { destruct (truthy likes); [|apply yields_ret; now left].
    eapply yields_bind; [apply yields_likes_path|]. intros p ->. apply yields_ret. now right. }
  intros lp Hlp.
  apply (yields_bind (fun p => p = JNull \/ p = JStr "static/reposts_chart.png")).
  { destruct (truthy reposts); [|apply yields_ret; now left].
    eapply yields_bind; [apply yields_reposts_path|]. intros p ->. apply yields_ret. now right. }
  intros rp Hrp. apply yields_ret. left. split; [reflexivity|].
  destruct Hlp as [-> | ->], Hrp as [-> | ->]; cbn [truthy payload].
  - now exists false, false.
  - now exists false, true.
  - now exists true, false.
  - now exists true, true.
Qed.

Lemma after_auth_returns w req : yields returned_response (after_auth w req).
Proof.
  unfold after_auth.
  apply (yields_bind (fun p => match p with
                               | inl early => returned_response early
                               | inr _ => True
                               end)).
  - apply (yields_bind (fun r => match r with
                                 | inl early => returned_response early
                                 | inr _ => True
                                 end)).
    + unfold read_link.
      apply (yields_bind (fun _ => True)); [apply yields_any|intros data _].
      apply (yields_bind (fun _ => True)); [apply yields_any|intros [|] _].
      * apply (yields_bind (fun _ => True)); [apply yields_any|intros _ _].
        apply yields_ret. right. now left.
      * apply (yields_bind (fun _ => True)); [apply yields_any|intros v _].
        apply (yields_bind (fun _ => True)); [apply yields_any|intros link _].
        apply (yields_bind (fun _ => True)); [apply yields_any|intros _ _].
        now apply yields_ret.
    + intros [early|link] Hr; [now apply yields_ret|].
      unfold identify.
      destruct (re_match did_in_profile_pattern link) as [[d p]|].
      * apply (yields_bind (fun _ => True)); [apply yields_any|intros token _].
        apply (yields_bind (fun _ => True)); [apply yields_any|intros handle _].
        now apply yields_ret.
      * destruct (re_match web_pattern link) as [[h p]|].
        -- apply (yields_bind (fun _ => True)); [apply yields_any|intros did _].
           now apply yields_ret.
        -- apply yields_ret. right. now right.
  - intros [early|[[did handle] post_id]] Hp; [now apply yields_ret|].
    apply (yields_bind (fun _ => True)); [apply yields_any|intros [reposts likes] _].
    apply render_returns.
Qed.

Lemma body_returns w req : yields returned_response (generate_charts_body w req).
Proof.
  assert (Hy : yields returned_response (bind (auth_check w) (fun _ => after_auth w req))).
  { apply (yields_bind (fun _ => True)); [apply yields_any|intros _ _].
    apply after_auth_returns. }
  intros st a st1 ev E. rewrite body_split in E. exact (Hy _ _ _ _ E).
Qed.

Lemma returned_is_expected (r : flask_response) : returned_response r -> expected_response r.
Proof.
  intros [H|[ -> | -> ]]; [now left|right; now left|right; right; now left].
Qed.

Lemma yields_render w handle post_id reposts likes :
  yields expected_response (render_and_respond w handle post_id reposts likes).
Proof. exact (yields_weaken _ _ _ returned_is_expected (render_returns _ _ _ _ _)). Qed.

Lemma yields_after_auth w req : yields expected_response (after_auth w req).
Proof. exact (yields_weaken _ _ _ returned_is_expected (after_auth_returns _ _)). Qed.

(** * The claims *)

Import Sample.

Lemma three_timestamps_buckets :
  daily_buckets three_timestamps = inr ([jan_1; jan_2], [2%nat; 1%nat]).
Proof. reflexivity. Qed.

(** C1: the timestamps 2024-01-01T10:00:00Z, 2024-01-01T23:00:00Z and
    2024-01-02T00:00:01Z give exactly the buckets (2024-01-01, 2) and
    (2024-01-02, 1), in ascending order, and these are the days and counts
    that [generate_likes_chart] hands to the renderer. *)
Theorem C1_three_timestamps_two_buckets :
  daily_buckets three_timestamps = inr ([jan_1; jan_2], [2%nat; 1%nat])
  /\ forall (w : world) (handle : json) (post_link : string) (st : proc),
       In (Plot (likes_chart w handle post_link [jan_1; jan_2] [2%nat; 1%nat]))
          (events_of (generate_likes_chart w handle three_timestamps post_link st)).
Proof.
  split; [reflexivity|]. intros w handle post_link st.
  unfold generate_likes_chart.
  rewrite bind_unfold, logging_info_run, bind_unfold.
  rewrite (lift_inr w _ _ st three_timestamps_buckets).
  cbv beta iota. unfold generate_chart. fold (likes_chart w handle post_link [jan_1; jan_2] [2%nat; 1%nat]).
  rewrite bind_unfold, bind_unfold. unfold emit.
  destruct (pyplot w _); cbn; auto.
Qed.

(** C8, as amended: the empty list gives no buckets; whatever the
    timestamps, the keys that are emitted are strictly increasing as
    [datetime] values and none occurs twice, and so are the keys of every
    chart that either generator hands to the renderer; when every timestamp
    is a calendar date [YYYY-MM-DD] followed by the separator T, the keys
    are calendar days (midnight, no offset) and strictly increasing as
    dates; and timestamps that parse to calendar days always give
    buckets. *)
Theorem C8_buckets_strictly_increasing :
  daily_buckets [] = inr ([], [])
  /\ (forall ts dates counts,
        daily_buckets ts = inr (dates, counts) ->
        StronglySorted dt_lt dates /\ NoDup dates /\ length counts = length dates)
  /\ (forall ts dates counts,
        daily_buckets ts = inr (dates, counts) ->
        Forall (fun t => date_then_T t = true) ts ->
        Forall (fun d => is_date d = true) dates
        /\ StronglySorted date_lt (map date_of dates))
  /\ (forall ts,
        Forall (fun t => exists d, date_of_timestamp t = inr d /\ is_date d = true) ts ->
        exists dates counts, daily_buckets ts = inr (dates, counts))
  /\ (forall w handle ts post_link st c,
        In (Plot c) (events_of (generate_likes_chart w handle ts post_link st)) ->
        StronglySorted dt_lt (chart_dates c) /\ NoDup (chart_dates c)
        /\ length (chart_counts c) = length (chart_dates c))
  /\ (forall w handle reposts st c,
        In (Plot c) (events_of (generate_reposts_chart w handle reposts st)) ->
        StronglySorted dt_lt (chart_dates c) /\ NoDup (chart_dates c)
        /\ length (chart_counts c) = length (chart_dates c)).
Proof.
  split; [reflexivity|]. split; [apply daily_buckets_sorted|].
  split; [apply daily_buckets_dates|]. split; [apply daily_buckets_total|]. split.
  - intros w handle ts post_link st c H.
    apply likes_chart_plots in H. destruct H as (dates & counts & Hb & ->).
    exact (daily_buckets_sorted _ _ _ Hb).
  - intros w handle reposts st c H.
    apply reposts_chart_plots in H. destruct H as (tss & dates & counts & _ & Hb & ->).
    exact (daily_buckets_sorted _ _ _ Hb).
Qed.

Lemma C8_witness :
  (StronglySorted dt_lt [jan_1; jan_2] /\ NoDup [jan_1; jan_2]
   /\ length [2%nat; 1%nat] = length [jan_1; jan_2])
  /\ (Forall (fun d => is_date d = true) [jan_1; jan_2]
      /\ StronglySorted date_lt (map date_of [jan_1; jan_2])).
Proof.
  split.
  - apply (proj1 (proj2 C8_buckets_strictly_increasing) three_timestamps).
    reflexivity.
  - apply (proj1 (proj2 (proj2 C8_buckets_strictly_increasing)) three_timestamps _ [2%nat; 1%nat]).
    + reflexivity.
    + repeat constructor.
Defined.

(** C8 as first stated fails: the text before the first T is handed to
    [fromisoformat] whole, so two timestamps of one day that are written
    with a space for the separator keep their time of day and give two
    buckets with the same calendar date. *)
Lemma C8_counterexample :
  daily_buckets same_day_timestamps = inr ([jan_1_at_10; jan_1_at_11], [1%nat; 1%nat])
  /\ date_of jan_1_at_10 = date_of jan_1_at_11
  /\ ~ NoDup (map date_of [jan_1_at_10; jan_1_at_11])
  /\ ~ StronglySorted date_lt (map date_of [jan_1_at_10; jan_1_at_11]).
Proof.
  split; [reflexivity|]. split; [reflexivity|]. split.
  - intros H. inversion H as [|? ? Hn _]; subst. apply Hn. now left.
  - intros H. inversion H as [|? ? _ Hall]; subst. inversion Hall as [|? ? Hlt _]; subst.
    unfold date_lt, date_of in Hlt. cbn in Hlt. lia.
Qed.

(** C3: a request whose fetch stage comes back with an empty list of reposts
    and an empty list of likes is answered with status 200 and the empty
    JSON object: no chart key and no error key. *)
Theorem C3_empty_engagement_is_success (w : world) (request_json : outcome json)
    (st st1 st2 : proc) (did handle : json) (post_id : string) (ev1 ev2 : list event) :
  prelude w request_json st = (Ok (inr (did, handle, post_id)), st1, ev1) ->
  fetch_engagement w did post_id st1 = (Ok (JArr [], JArr []), st2, ev2) ->
  generate_charts w request_json st = (Ok (mkFlask 200 (JObj [])), st2, (ev1 ++ ev2)%list).
Proof.
  intros Hp Hf. unfold generate_charts. apply try_except_ok.
  unfold generate_charts_body. eapply bind_ok_eq; [exact Hp|].
  cbv beta iota. rewrite <- (app_nil_r ev2).
  eapply bind_ok_eq; [exact Hf|]. apply render_nothing.
Qed.

Lemma C3_witness :
  exists ev, generate_charts quiet (post handle_link) logged_out
             = (Ok (mkFlask 200 (JObj [])), logged_in, ev).
Proof.
  eexists. eapply C3_empty_engagement_is_success; reflexivity.
Defined.

(** C4, as amended: when the reposts endpoint answers with a status other
    than 200 while the likes endpoint answers 200 with a non-empty list of
    likes whose timestamps can be bucketed, and matplotlib draws, the reposts
    count as empty and the answer is status 200 with [likes_chart] and
    without [reposts_chart]. *)
Theorem C4_reposts_status_failure_keeps_likes (w : world) (request_json : outcome json)
    (st st1 : proc) (did handle : json) (post_id : string) (ev1 : list event)
    (code : Z) (body : option json) (fields : list (string * json))
    (x : json) (likes tss : list json) (dates : list datetime) (counts : list nat) :
  prelude w request_json st = (Ok (inr (did, handle, post_id)), st1, ev1) ->
  http w (fetch_request w reposts_url (access_token st1) did post_id) = Reply code body ->
  code <> 200 ->
  http w (fetch_request w likes_url (access_token st1) did post_id)
    = Reply 200 (Some (JObj fields)) ->
  dict_get "likes" fields = Some (JArr (x :: likes)) ->
  indexedAt_of (JArr (x :: likes)) = inr tss ->
  daily_buckets tss = inr (dates, counts) ->
  (forall c, pyplot w c = None) ->
  fetch_engagement w did post_id st1
    = (Ok (JArr [], JArr (x :: likes)), st1,
       [Http (fetch_request w reposts_url (access_token st1) did post_id);
        Http (fetch_request w likes_url (access_token st1) did post_id)])
  /\ exists ev,
       generate_charts w request_json st =
       (Ok (mkFlask 200 (JObj [("likes_chart", JStr "static/likes_chart.png")])), st1, ev).
Proof.
  intros Hp Hr Hc Hl Hd Hi Hb Hplot.
  assert (Hf : fetch_engagement w did post_id st1
    = (Ok (JArr [], JArr (x :: likes)), st1,
       [Http (fetch_request w reposts_url (access_token st1) did post_id);
        Http (fetch_request w likes_url (access_token st1) did post_id)])).
  { apply fetch_engagement_run.
    - rewrite Hr. unfold collection. apply Z.eqb_neq in Hc. now rewrite Hc.
    - rewrite Hl. unfold collection. cbn [Z.eqb Pos.eqb]. now rewrite Hd. }
  split; [exact Hf|]. eexists.
  unfold generate_charts. apply try_except_ok.
  unfold generate_charts_body. eapply bind_ok_eq; [exact Hp|]. cbv beta iota.
  eapply bind_ok_eq; [exact Hf|].
  cbv beta iota. eapply render_likes_only; eauto.
Qed.

Lemma C4_witness :
  exists ev, generate_charts reposts_failing (post handle_link) logged_out
             = (Ok (mkFlask 200 (JObj [("likes_chart", JStr "static/likes_chart.png")])),
                logged_in, ev).
Proof.
  eapply (C4_reposts_status_failure_keeps_likes reposts_failing (post handle_link)
            logged_out logged_in (JStr "did:plc:abc") (JStr "alice.example") "3kabc"
            _ 503 None _ _ _ three_timestamps [jan_1; jan_2] [2%nat; 1%nat]);
    try reflexivity.
  discriminate.
Defined.

(** C4 as stated fails: when the reposts call cannot be completed at all
    (no reply) while the likes endpoint lists three likes, the answer is a
    500 error and carries no [likes_chart]. *)
Lemma C4_counterexample :
  http reposts_unreachable
       (fetch_request reposts_unreachable reposts_url (JStr "jwt") (JStr "did:plc:abc") "3kabc")
    = NoReply "connection refused"
  /\ collection "likes"
       (http reposts_unreachable
          (fetch_request reposts_unreachable likes_url (JStr "jwt") (JStr "did:plc:abc") "3kabc"))
     = Some (JArr [like "2024-01-01T10:00:00Z"; like "2024-01-01T23:00:00Z";
                   like "2024-01-02T00:00:01Z"])
  /\ result_of (generate_charts reposts_unreachable (post handle_link) logged_in)
     = Ok (error_response 500 "Error generating charts: connection refused")
  /\ Forall (fun ev => calls likes_url ev = false)
       (events_of (generate_charts reposts_unreachable (post handle_link) logged_in)).
Proof.
  split; [reflexivity|]. split; [reflexivity|]. split; [reflexivity|].
  repeat constructor.
Qed.

(** C5, as amended: a submitted URL that, once stripped, matches neither
    pattern makes the link step return status 400 with the error text
    "Invalid link format."; no run on such a URL ever calls an engagement
    endpoint; every run that gets past the authentication check of lines
    261-262 (in particular every run that finds a token cached) answers with
    exactly that 400; and a run whose login raises answers with the 500 of
    the catch-all instead. *)
Theorem C5_invalid_link_is_rejected (w : world) (fields : list (string * json))
    (url : string) (st : proc) :
  dict_get "link" fields = Some (JStr url) ->
  re_match did_in_profile_pattern (strip url) = None ->
  re_match web_pattern (strip url) = None ->
  identify w (strip url) st
    = (Ok (inl (mkFlask 400 (JObj [("error", JStr "Invalid link format.")]))), st, [])
  /\ Forall (fun ev => is_fetch ev = false) (events_of (generate_charts w (Ok (JObj fields)) st))
  /\ (forall st1 ev1, auth_check w st = (Ok tt, st1, ev1) ->
        generate_charts w (Ok (JObj fields)) st =
        (Ok (mkFlask 400 (JObj [("error", JStr "Invalid link format.")])), st1,
         (ev1 ++ [Log INFO ("Received link: " ++ strip url)])%list))
  /\ (truthy (access_token st) = true ->
        generate_charts w (Ok (JObj fields)) st =
        (Ok (mkFlask 400 (JObj [("error", JStr "Invalid link format.")])), st,
         [Log INFO ("Received link: " ++ strip url)]))
  /\ (forall e st1 ev1, auth_check w st = (Raise e, st1, ev1) ->
        generate_charts w (Ok (JObj fields)) st =
        (Ok (mkFlask 500 (JObj [("error", JStr ("Error generating charts: " ++ exn_str e))])),
         st1,
         (ev1 ++ [Log ERROR ("Error generating charts: " ++ exn_str e)])%list)).
Proof.
  intros Hl H1 H2.
  assert (Hpass : forall st1 ev1, auth_check w st = (Ok tt, st1, ev1) ->
            generate_charts w (Ok (JObj fields)) st =
            (Ok (mkFlask 400 (JObj [("error", JStr "Invalid link format.")])), st1,
             (ev1 ++ [Log INFO ("Received link: " ++ strip url)])%list)).
  { intros st1 ev1 Ha. unfold generate_charts. apply try_except_ok.
    rewrite body_split. eapply bind_ok_eq; [exact Ha|].
    now apply after_auth_invalid. }
  split; [now apply identify_no_match|]. split; [|split; [exact Hpass|split]].
  - unfold generate_charts. apply handler_emits; [reflexivity|reflexivity|].
    rewrite body_split. pose proof (auth_check_not_fetch w st) as Ha.
    unfold bind. destruct (auth_check w st) as [[[[]|e] st1] ev1]; [|exact Ha].
    rewrite (after_auth_invalid _ _ _ _ Hl H1 H2). cbn [events_of snd] in *.
    apply Forall_app. split; [exact Ha|]. repeat constructor.
  - intros Ht. exact (Hpass st [] (auth_check_cached w st Ht)).
  - intros e st1 ev1 Ha. unfold generate_charts, try_except.
    rewrite body_split. unfold bind at 1. rewrite Ha. reflexivity.
Qed.

Lemma C5_witness :
  generate_charts quiet (post profile_only_link) logged_in
    = (Ok (mkFlask 400 (JObj [("error", JStr "Invalid link format.")])), logged_in,
       [Log INFO ("Received link: " ++ profile_only_link)])
  /\ generate_charts quiet (post ftp_link) logged_out
    = (Ok (mkFlask 400 (JObj [("error", JStr "Invalid link format.")])), logged_in,
       [Log INFO "Attempting to log into Bluesky..."; Http (session_request quiet);
        Log INFO "Login successful. Access token retrieved.";
        Log INFO ("Received link: " ++ ftp_link)]).
Proof.
  split.
  - apply (proj1 (proj2 (proj2 (C5_invalid_link_is_rejected quiet
                                  [("link", JStr profile_only_link)]
                                  profile_only_link logged_in eq_refl eq_refl eq_refl)))
             logged_in []).
    reflexivity.
  - apply (proj1 (proj2 (proj2 (C5_invalid_link_is_rejected quiet [("link", JStr ftp_link)]
                                  ftp_link logged_out eq_refl eq_refl eq_refl)))
             logged_in
             [Log INFO "Attempting to log into Bluesky..."; Http (session_request quiet);
              Log INFO "Login successful. Access token retrieved."]).
    reflexivity.
Defined.

(** C5 as first stated fails: with no token cached and a login that is
    refused, a link with the scheme [ftp], which matches neither pattern, is
    answered with status 500 and the text of the failed login, not with the
    400 of an invalid link. *)
Lemma C5_counterexample :
  re_match did_in_profile_pattern (strip ftp_link) = None
  /\ re_match web_pattern (strip ftp_link) = None
  /\ result_of (generate_charts login_refused (post ftp_link) logged_out)
     = Ok (mkFlask 500
             (JObj [("error",
                     JStr "Error generating charts: Authentication failed. Check your username and password.")]))
  /\ result_of (generate_charts login_refused (post ftp_link) logged_out)
     <> Ok (mkFlask 400 (JObj [("error", JStr "Invalid link format.")])).
Proof.
  split; [reflexivity|]. split; [reflexivity|]. split; [reflexivity|].
  intros H. vm_compute in H. discriminate H.
Qed.

(** C6: a run that starts from the state left by an earlier run, with a
    token cached there, makes no call to the session-creation endpoint and
    leaves the token as it is; and a run calls that endpoint exactly when
    the token it finds is absent. *)
Theorem C6_session_created_only_when_absent (w1 w2 : world)
    (request1 request2 : outcome json) (st0 : proc) :
  (truthy (access_token (state_of (generate_charts w1 request1 st0))) = true ->
     Forall (fun ev => calls session_url ev = false)
       (events_of (generate_charts w2 request2 (state_of (generate_charts w1 request1 st0))))
     /\ state_of (generate_charts w2 request2 (state_of (generate_charts w1 request1 st0)))
        = state_of (generate_charts w1 request1 st0))
  /\ (Exists (fun ev => calls session_url ev = true) (events_of (generate_charts w1 request1 st0))
      <-> truthy (access_token st0) = false).
Proof.
  split.
  - apply cached_credential_run.
  - split.
    + intros He. destruct (truthy (access_token st0)) eqn:Ht; [|reflexivity].
      destruct (cached_credential_run w1 request1 st0 Ht) as [Hf _].
      apply Exists_exists in He. destruct He as (ev & Hin & Hc).
      rewrite Forall_forall in Hf. rewrite (Hf ev Hin) in Hc. discriminate.
    + apply session_called_when_absent.
Qed.

Lemma C6_witness :
  Forall (fun ev => calls session_url ev = false)
    (events_of (generate_charts quiet (post did_link)
                  (state_of (generate_charts quiet (post handle_link) logged_out))))
  /\ state_of (generate_charts quiet (post did_link)
                 (state_of (generate_charts quiet (post handle_link) logged_out)))
     = state_of (generate_charts quiet (post handle_link) logged_out).
Proof.
  apply (proj1 (C6_session_created_only_when_absent quiet quiet (post handle_link)
                  (post did_link) logged_out)).
  reflexivity.
Defined.

(** C9: the endpoint always returns a response; an exception raised
    anywhere in the body of the [try] becomes the response with status 500
    whose body is the object with the one key [error], holding "Error
    generating charts: " followed by the exception's message, and is logged;
    a body that returns is passed on, and what it returns has status 200 or
    400, so that a 500 is always the trace of an exception. *)
Theorem C9_exceptions_become_500 (w : world) (request_json : outcome json) (st : proc) :
  (exists r, result_of (generate_charts w request_json st) = Ok r)
  /\ (forall e st1 ev1,
        generate_charts_body w request_json st = (Raise e, st1, ev1) ->
        exists r,
          generate_charts w request_json st =
          (Ok r, st1, (ev1 ++ [Log ERROR ("Error generating charts: " ++ exn_str e)])%list)
          /\ status r = 500
          /\ payload r = JObj [("error", JStr ("Error generating charts: " ++ exn_str e))])
  /\ (forall r st1 ev1,
        generate_charts_body w request_json st = (Ok r, st1, ev1) ->
        generate_charts w request_json st = (Ok r, st1, ev1)
        /\ (status r = 200 \/ status r = 400)).
Proof.
  split; [|split].
  - unfold generate_charts, try_except.
    destruct (generate_charts_body w request_json st) as [[[r|e] st1] ev1]; eexists; reflexivity.
  - intros e st1 ev1 E. eexists. split; [|split].
    + unfold generate_charts, try_except. rewrite E. reflexivity.
    + reflexivity.
    + reflexivity.
  - intros r st1 ev1 E. split.
    + unfold generate_charts, try_except. now rewrite E.
    + destruct (body_returns w request_json st r st1 ev1 E) as [[Hs _]|[ -> | -> ]];
        [now left|now right|now right].
Qed.

Lemma C9_witness :
  exists r ev,
    generate_charts reposts_unreachable (post handle_link) logged_in = (Ok r, logged_in, ev)
    /\ status r = 500
    /\ payload r = JObj [("error", JStr "Error generating charts: connection refused")].
Proof.
  destruct (proj1 (proj2 (C9_exceptions_become_500 reposts_unreachable (post handle_link)
                            logged_in))
              (mkExn RequestException "connection refused") logged_in _ eq_refl)
    as (r & Hrun & Hs & Hp).
  exists r. eexists. split; [exact Hrun|]. split; assumption.
Defined.




(** C10, as amended: on a link that matches the handle pattern, the DID
    branch is taken exactly when the profile segment is [did:] followed by
    at least one character: then the DID pattern matches with the same
    groups, the actor identifier is the segment itself and the profile
    lookup is called, never the handle resolution.  On every other segment,
    the bare [did:] included, the DID pattern fails and the handle is
    resolved, with no profile lookup. *)
Theorem C10_branch_follows_did_shape (w : world) (link : string) (st : proc)
    (segment post_id : string) :
  re_match web_pattern link = Some (segment, post_id) ->
  (did_shaped segment ->
     re_match did_in_profile_pattern link = Some (segment, post_id)
     /\ identify w link st =
        (handle <- fetch_username_from_did w API_URL (access_token st) segment ;;
         ret (inr (JStr segment, handle, post_id))) st
     /\ In (Http (profile_request w API_URL (access_token st) segment))
           (events_of (identify w link st))
     /\ Forall (fun ev => calls resolve_handle_url ev = false) (events_of (identify w link st)))
  /\ (~ did_shaped segment ->
        re_match did_in_profile_pattern link = None
        /\ identify w link st =
           (did <- resolve_did w segment ;; ret (inr (did, JStr segment, post_id))) st
        /\ In (Http (resolve_request w (access_token st) segment))
              (events_of (identify w link st))
        /\ Forall (fun ev => calls get_profile_url ev = false) (events_of (identify w link st))).
Proof.
  intros Hw. destruct (web_match_branch _ _ _ Hw) as [Hyes Hno]. split.
  - intros Hs. specialize (Hyes Hs). split; [exact Hyes|].
    rewrite (identify_did_branch w _ st _ _ Hyes). split; [reflexivity|].
    rewrite bind_ret_events.
    destruct (fetch_username_events w API_URL (access_token st) segment st) as (logs & -> & Hl).
    split; [now left|]. constructor; [reflexivity|]. now apply logs_call_nothing.
  - intros Hs. specialize (Hno Hs). split; [exact Hno|].
    rewrite (identify_handle_branch w _ st _ _ Hno Hw). split; [reflexivity|].
    rewrite bind_ret_events.
    destruct (resolve_did_events w segment st) as (logs & -> & Hl).
    split; [right; now left|]. constructor; [reflexivity|].
    constructor; [reflexivity|]. now apply logs_call_nothing.
Qed.

Lemma did_plc_abc_shaped : did_shaped "did:plc:abc".
Proof. exists "plc:abc". split; [discriminate|reflexivity]. Defined.

Lemma C10_witness :
  re_match did_in_profile_pattern did_link = Some ("did:plc:abc", "3kabc")
  /\ identify quiet did_link logged_in =
     (handle <- fetch_username_from_did quiet API_URL (access_token logged_in) "did:plc:abc" ;;
      ret (inr (JStr "did:plc:abc", handle, "3kabc"))) logged_in
  /\ In (Http (profile_request quiet API_URL (access_token logged_in) "did:plc:abc"))
        (events_of (identify quiet did_link logged_in))
  /\ Forall (fun ev => calls resolve_handle_url ev = false)
        (events_of (identify quiet did_link logged_in)).
Proof.
  apply (proj1 (C10_branch_follows_did_shape quiet did_link logged_in "did:plc:abc" "3kabc"
                  eq_refl)).
  exact did_plc_abc_shaped.
Defined.

(** C10 as stated fails: the profile segment of
    [https://bsky.app/profile/did:/post/3kabc] begins with [did:], yet the
    DID pattern does not match it and the handle branch runs, resolving the
    handle [did:]. *)
Lemma C10_counterexample :
  re_match web_pattern bare_did_link = Some ("did:", "3kabc")
  /\ re_match did_in_profile_pattern bare_did_link = None
  /\ events_of (identify quiet bare_did_link logged_in)
     = [Log INFO "Resolving DID for handle: did:";
        Http (resolve_request quiet (JStr "jwt") "did:");
        Log INFO "Resolved DID for did:: did:plc:abc"].
Proof. repeat split. Qed.

(** C2: the code at the failing input.  The handle lookup answers 400, so
    [resolve_did] returns [None]; the resource string is built all the same,
    with the text "None" where the actor identifier belongs, and both
    engagement endpoints are called with it. *)
Theorem C2_unresolved_actor_reaches_fetch :
  result_of (resolve_did unknown_handle "alice.example" logged_in) = Ok JNull
  /\ at_uri unknown_handle JNull "3kabc" = "at://None/app.bsky.feed.post/3kabc"
  /\ generate_charts unknown_handle (post handle_link) logged_in
     = (Ok (mkFlask 200 (JObj [])), logged_in,
        [Log INFO ("Received link: " ++ handle_link);
         Log INFO "Resolving DID for handle: alice.example";
         Http (resolve_request unknown_handle (JStr "jwt") "alice.example");
         Log ERROR "Error resolving DID for handle alice.example: http error status";
         Http (mkRequest GET reposts_url [("Authorization", "Bearer jwt")]
                 [("uri", "at://None/app.bsky.feed.post/3kabc")] None);
         Http (mkRequest GET likes_url [("Authorization", "Bearer jwt")]
                 [("uri", "at://None/app.bsky.feed.post/3kabc")] None)]).
Proof. repeat split. Qed.

(** * Further properties *)

(** ** The counts of the buckets *)

Lemma lex_compare_eq (a b : list Z) : lex_compare a b = Eq -> a = b.
Proof.
  revert b; induction a as [|x a IH]; intros [|y b]; simpl; try discriminate; auto.
  destruct (x ?= y) eqn:E; try discriminate.
  apply Z.compare_eq in E. intros H. f_equal; auto.
Qed.

Lemma dt_eqb_trans (a b c : datetime) :
  dt_eqb a b = true -> dt_eqb b c = true -> dt_eqb a c = true.
Proof.
  unfold dt_eqb, dt_cmp.
  destruct (utcoffset a), (utcoffset b), (utcoffset c); try discriminate.
  - destruct (_ ?= _) eqn:E1; try discriminate. intros _.
    destruct (utc_micros b z0 ?= _) eqn:E2; try discriminate. intros _.
    apply Z.compare_eq in E1, E2. rewrite E1, E2. now rewrite Z.compare_refl.
  - destruct (lex_compare (fields a) _) eqn:E1; try discriminate. intros _.
    destruct (lex_compare (fields b) _) eqn:E2; try discriminate. intros _.
    apply lex_compare_eq in E1, E2. rewrite E1, E2. now rewrite lex_compare_refl.
Qed.

Lemma counter_incr_get (x k : datetime) (c : counter) :
  counter_get (counter_incr x c) k
  = (counter_get c k + (if dt_eqb x k then 1 else 0))%nat.
Proof.
  induction c as [|[k' n] c IH]; simpl.
  - destruct (dt_eqb x k); reflexivity.
  - destruct (dt_eqb k' x) eqn:Ex; simpl.
    + destruct (dt_eqb k' k) eqn:Ek.
      * rewrite dt_eqb_sym in Ex. rewrite (dt_eqb_trans _ _ _ Ex Ek). lia.
      * destruct (dt_eqb x k) eqn:Exk; [|lia].
        now rewrite (dt_eqb_trans _ _ _ Ex Exk) in Ek.
    + destruct (dt_eqb k' k) eqn:Ek; [|exact IH].
      destruct (dt_eqb x k) eqn:Exk; [|lia].
      rewrite (dt_eqb_sym x k) in Exk. now rewrite (dt_eqb_trans _ _ _ Ek Exk) in Ex.
Qed.

Lemma fold_counter_get (items : list datetime) (c : counter) (k : datetime) :
  counter_get (fold_left (fun c x => counter_incr x c) items c) k
  = (counter_get c k + occurrences k items)%nat.
Proof.
  unfold occurrences.
  revert c; induction items as [|x items IH]; intros c; simpl; [lia|].
  rewrite IH, counter_incr_get.
  destruct (dt_eqb x k); simpl; lia.
Qed.

Lemma Counter_get (items : list datetime) (k : datetime) :
  counter_get (Counter items) k = occurrences k items.
Proof. unfold Counter. now rewrite fold_counter_get. Qed.

Lemma counter_get_found (c : counter) (k : datetime) :
  (1 <= counter_get c k)%nat -> exists k', In k' (keys c) /\ dt_eqb k' k = true.
Proof.
  induction c as [|[k' n] c IH]; simpl; [lia|].
  destruct (dt_eqb k' k) eqn:E; [eauto|].
  intros H. destruct (IH H) as (k2 & Hin & He). eauto.
Qed.

Lemma counter_incr_total (x : datetime) (c : counter) :
  list_sum (map snd (counter_incr x c)) = S (list_sum (map snd c)).
Proof.
  induction c as [|[k' n] c IH]; simpl; [reflexivity|].
  destruct (dt_eqb k' x); simpl; [reflexivity|]. rewrite IH. lia.
Qed.

Lemma Counter_total (items : list datetime) :
  list_sum (map snd (Counter items)) = length items.
Proof.
  unfold Counter.
  assert (H : forall c, list_sum (map snd (fold_left (fun c x => counter_incr x c) items c))
                        = (list_sum (map snd c) + length items)%nat).
  { induction items as [|x items IH]; intros c; simpl; [lia|].
    rewrite IH, counter_incr_total. lia. }
  now rewrite H.
Qed.

Lemma counter_get_own (c : counter) :
  pairwise_distinct (keys c) -> map (counter_get c) (keys c) = map snd c.
Proof.
  induction c as [|[k n] c IH]; simpl; [reflexivity|].
  intros Hd. inversion Hd as [|? ? Hk Hc]; subst.
  rewrite dt_eqb_refl. f_equal. rewrite <- (IH Hc).
  apply map_ext_in. intros k2 Hin. rewrite Forall_forall in Hk.
  now rewrite (Hk k2 Hin).
Qed.

Lemma list_sum_perm (l l' : list nat) : Permutation l l' -> list_sum l = list_sum l'.
Proof. unfold list_sum. induction 1; simpl in *; lia. Qed.

Lemma comprehension_length {A B} (f : A -> fault + B) (l : list A) (r : list B) :
  comprehension f l = inr r -> length r = length l.
Proof.
  intros H. apply comprehension_Forall2 in H. symmetry. eapply Forall2_length, H.
Qed.

(** X1: the counts of the buckets add up to the number of timestamps: every
    like or repost is counted once, on one day. *)
Theorem bucket_counts_add_up (ts : list json) (dates : list datetime) (counts : list nat) :
  daily_buckets ts = inr (dates, counts) -> list_sum counts = length ts.
Proof.
  intros H. apply daily_buckets_inr in H. destruct H as (parsed & Hp & _ & Hd & Hc).
  rewrite <- (comprehension_length _ _ _ Hp), <- Counter_total.
  rewrite <- (counter_get_own _ (proj1 (Counter_keys parsed))).
  subst counts dates. apply list_sum_perm, Permutation_map, dt_sort_perm.
Qed.

Lemma bucket_counts_add_up_witness : list_sum [2%nat; 1%nat] = length Sample.three_timestamps.
Proof. apply (bucket_counts_add_up Sample.three_timestamps [Sample.jan_1; Sample.jan_2]). reflexivity. Defined.

(** X2: the count emitted for a day is the number of timestamps that fall
    on it; every emitted day is the day of some timestamp, and the day of
    every timestamp is among the emitted ones. *)
Theorem bucket_counts_are_exact (ts : list json) (dates : list datetime) (counts : list nat) :
  daily_buckets ts = inr (dates, counts) ->
  exists parsed,
    comprehension date_of_timestamp ts = inr parsed
    /\ counts = map (fun d => occurrences d parsed) dates
    /\ Forall (fun n => (1 <= n)%nat) counts
    /\ (forall d, In d dates -> In d parsed)
    /\ (forall p, In p parsed -> exists d, In d dates /\ dt_eqb d p = true).
Proof.
  intros H. pose proof (buckets_are_observed _ _ _ H) as [_ Hpos].
  apply daily_buckets_inr in H. destruct H as (parsed & Hp & _ & Hd & Hc).
  exists parsed. split; [exact Hp|]. split.
  { rewrite Hc. apply map_ext. intros d. apply Counter_get. }
  split; [exact Hpos|]. split.
  - intros d Hin. apply (proj2 (Counter_keys parsed)). subst dates.
    eapply Permutation_in; [apply dt_sort_perm|exact Hin].
  - intros p Hin.
    assert (Hn : (1 <= counter_get (Counter parsed) p)%nat).
    { rewrite Counter_get. unfold occurrences.
      clear -Hin. induction parsed as [|x parsed IH]; [destruct Hin|].
      simpl. destruct Hin as [->|Hin].
      - rewrite dt_eqb_refl. simpl. lia.
      - specialize (IH Hin). destruct (dt_eqb x p); simpl; lia. }
    destruct (counter_get_found _ _ Hn) as (k & Hk & He).
    exists k. split; [|exact He]. subst dates.
    eapply Permutation_in; [symmetry; apply dt_sort_perm|exact Hk].
Qed.

Lemma bucket_counts_are_exact_witness :
  exists parsed,
    comprehension date_of_timestamp Sample.three_timestamps = inr parsed
    /\ [2%nat; 1%nat] = map (fun d => occurrences d parsed) [Sample.jan_1; Sample.jan_2]
    /\ Forall (fun n => (1 <= n)%nat) [2%nat; 1%nat]
    /\ (forall d, In d [Sample.jan_1; Sample.jan_2] -> In d parsed)
    /\ (forall p, In p parsed -> exists d, In d [Sample.jan_1; Sample.jan_2] /\ dt_eqb d p = true).
Proof. apply (bucket_counts_are_exact Sample.three_timestamps). reflexivity. Defined.

(** ** The shape of an accepted link *)

Lemma segment_split (s : string) : s = take_segment s ++ skip_segment s.
Proof.
  induction s as [|c s IH]; [reflexivity|]. simpl.
  destruct (Ascii.eqb c "/"); [reflexivity|]. simpl. now rewrite <- IH.
Qed.

Lemma take_segment_no_slash (s : string) : no_slash (take_segment s) = true.
Proof.
  induction s as [|c s IH]; [reflexivity|]. simpl.
  destruct (Ascii.eqb c "/") eqn:E; [reflexivity|]. simpl. now rewrite E.
Qed.

Lemma skip_segment_boundary (s : string) : starts_segment (skip_segment s) = false.
Proof.
  induction s as [|c s IH]; [reflexivity|]. simpl.
  destruct (Ascii.eqb c "/") eqn:E; [|exact IH]. simpl. now rewrite E.
Qed.

Lemma segment_of_app (h r : string) :
  no_slash h = true -> starts_segment r = false ->
  take_segment (h ++ r) = h /\ skip_segment (h ++ r) = r.
Proof.
  intros Hh Hr. induction h as [|c h IH]; simpl in *.
  - destruct r as [|c r]; [split; reflexivity|]. simpl in *.
    destruct (Ascii.eqb c "/"); [split; reflexivity|discriminate].
  - apply andb_true_iff in Hh. destruct Hh as [Hc Hh].
    destruct (Ascii.eqb c "/"); [discriminate|].
    destruct (IH Hh) as [-> ->]. split; reflexivity.
Qed.

Lemma segment_starts (h r : string) : is_segment h -> starts_segment (h ++ r) = true.
Proof.
  intros [Hne Hh]. destruct h as [|c h]; [now destruct Hne|]. simpl in *.
  apply andb_true_iff in Hh. tauto.
Qed.

Lemma strip_prefix_of_app (pre s : string) : strip_prefix pre (pre ++ s) = Some s.
Proof.
  induction pre as [|c pre IH]; [reflexivity|]. simpl. now rewrite Ascii.eqb_refl.
Qed.

Lemma after_profile_shape (link s : string) :
  after_profile link = Some s <->
  (link = "http" ++ "://bsky.app/profile/" ++ s
   \/ link = "https" ++ "://bsky.app/profile/" ++ s).
Proof.
  unfold after_profile. split.
  - destruct (strip_prefix "http" link) as [s0|] eqn:H0; [|discriminate].
    apply strip_prefix_app in H0. subst link. unfold drop_optional.
    destruct s0 as [|c s0]; [discriminate|].
    destruct (Ascii.eqb c "s") eqn:Ec.
    + apply Ascii.eqb_eq in Ec. subst c. intros H. apply strip_prefix_app in H. subst s0.
      right. reflexivity.
    + intros H. apply strip_prefix_app in H. rewrite H. left. reflexivity.
  - intros [-> | ->]; reflexivity.
Qed.

Lemma post_id_of_shape (rest p : string) :
  post_id_of rest = Some p <->
  exists tail, rest = "/post/" ++ p ++ tail /\ is_segment p /\ starts_segment tail = false.
Proof.
  unfold post_id_of. split.
  - destruct (strip_prefix "/post/" rest) as [s|] eqn:Hs; [|discriminate].
    apply strip_prefix_app in Hs. subst rest.
    destruct (starts_segment s) eqn:Hst; [|discriminate].
    intros H; inversion H; subst p. exists (skip_segment s).
    split; [now rewrite <- segment_split|]. split; [|apply skip_segment_boundary].
    split; [now apply take_segment_nonempty|apply take_segment_no_slash].
  - intros (tail & -> & Hp & Ht). rewrite strip_prefix_of_app.
    rewrite (segment_starts _ _ Hp).
    now rewrite (proj1 (segment_of_app _ _ (proj2 Hp) Ht)).
Qed.

Lemma parse_web_shape (link h p : string) :
  parse_web link = Some (h, p) <->
  exists scheme tail,
    (scheme = "http" \/ scheme = "https")
    /\ link = scheme ++ "://bsky.app/profile/" ++ h ++ "/post/" ++ p ++ tail
    /\ is_segment h /\ is_segment p /\ starts_segment tail = false.
Proof.
  unfold parse_web. split.
  - destruct (after_profile link) as [s|] eqn:Ha; [|discriminate].
    apply after_profile_shape in Ha.
    destruct (starts_segment s) eqn:Hs; [|discriminate].
    destruct (post_id_of (skip_segment s)) as [q|] eqn:Hp; [|discriminate].
    intros H; inversion H; subst h q. clear H.
    apply post_id_of_shape in Hp. destruct Hp as (tail & Hrest & Hseg & Htail).
    assert (Hlink : s = take_segment s ++ "/post/" ++ p ++ tail).
    { rewrite <- Hrest. apply segment_split. }
    assert (Hh : is_segment (take_segment s)).
    { split; [now apply take_segment_nonempty|apply take_segment_no_slash]. }
    destruct Ha as [Ha|Ha].
    + exists "http", tail. rewrite <- Hlink. auto 6.
    + exists "https", tail. rewrite <- Hlink. auto 6.
  - intros (scheme & tail & Hsch & -> & Hh & Hp & Ht).
    assert (Ha : after_profile (scheme ++ "://bsky.app/profile/" ++ h ++ "/post/" ++ p ++ tail)
                 = Some (h ++ "/post/" ++ p ++ tail)).
    { apply after_profile_shape. destruct Hsch as [-> | ->]; auto. }
    rewrite Ha, (segment_starts _ _ Hh).
    destruct (segment_of_app h ("/post/" ++ p ++ tail) (proj2 Hh) eq_refl) as [-> ->].
    assert (Hq : post_id_of ("/post/" ++ p ++ tail) = Some p).
    { apply post_id_of_shape. eauto. }
    now rewrite Hq.
Qed.

(** X3: a stripped link is accepted by the handle pattern exactly when it
    reads [http://] or [https://], [bsky.app/profile/], a segment, [/post/],
    a segment, and then either nothing or something that starts with [/];
    the two segments are the handle and the post id.  So a query string or
    fragment after the post id becomes part of the post id, and a further
    path component is ignored. *)
Theorem accepted_link_shape (link handle post_id : string) :
  re_match web_pattern link = Some (handle, post_id) <->
  exists scheme tail,
    (scheme = "http" \/ scheme = "https")
    /\ link = scheme ++ "://bsky.app/profile/" ++ handle ++ "/post/" ++ post_id ++ tail
    /\ is_segment handle /\ is_segment post_id /\ starts_segment tail = false.
Proof. rewrite re_match_web. apply parse_web_shape. Qed.

Lemma accepted_link_shape_witness :
  re_match web_pattern "https://bsky.app/profile/alice.example/post/3kabc?x=1/likes"
  = Some ("alice.example", "3kabc?x=1").
Proof.
  apply (proj2 (accepted_link_shape _ "alice.example" "3kabc?x=1")).
  exists "https", "/likes". repeat split; (discriminate || auto).
Defined.

(** X4: the post link that the handler writes into the likes chart's title
    is itself an accepted link: it parses back to the handle and the post id
    it was built from. *)
Theorem post_link_parses_back (w : world) (handle post_id : string) :
  is_segment handle -> is_segment post_id ->
  re_match web_pattern (post_link_of w (JStr handle) post_id) = Some (handle, post_id).
Proof.
  intros Hh Hp. apply accepted_link_shape. exists "https", EmptyString.
  split; [now right|]. split; [|auto].
  unfold post_link_of. cbn [fmt].
  replace (post_id ++ EmptyString) with post_id; [reflexivity|].
  clear. induction post_id; simpl; congruence.
Qed.

Lemma post_link_parses_back_witness :
  re_match web_pattern (post_link_of Sample.quiet (JStr "alice.example") "3kabc")
  = Some ("alice.example", "3kabc").
Proof.
  apply post_link_parses_back; split; (discriminate || reflexivity).
Defined.

(** ** The request body *)

Lemma generate_charts_after_auth w req st st1 ev1 r st2 ev2 :
  auth_check w st = (Ok tt, st1, ev1) ->
  after_auth w req st1 = (Ok r, st2, ev2) ->
  generate_charts w req st = (Ok r, st2, (ev1 ++ ev2)%list).
Proof.
  intros Ha Hr. unfold generate_charts. apply try_except_ok.
  rewrite body_split. eapply bind_ok_eq; eassumption.
Qed.

Lemma generate_charts_after_auth_raise w req st st1 ev1 e st2 ev2 :
  auth_check w st = (Ok tt, st1, ev1) ->
  after_auth w req st1 = (Raise e, st2, ev2) ->
  generate_charts w req st =
  (Ok (error_response 500 ("Error generating charts: " ++ exn_str e)), st2,
   (ev1 ++ ev2 ++ [Log ERROR ("Error generating charts: " ++ exn_str e)])%list).
Proof.
  intros Ha Hr. unfold generate_charts, try_except.
  rewrite body_split. rewrite (bind_ok_eq _ _ _ _ _ _ _ _ _ Ha Hr).
  cbn. now rewrite app_assoc.
Qed.

Lemma after_auth_early w req st early ev :
  read_link w req st = (Ok (inl early), st, ev) ->
  after_auth w req st = (Ok early, st, ev).
Proof.
  intros H. unfold after_auth.
  eapply bind_ok_ev;
    [ eapply bind_ok_ev; [exact H | reflexivity | symmetry; apply app_nil_r]
    | reflexivity | symmetry; apply app_nil_r ].
Qed.

Lemma after_auth_read_raise w req st e ev :
  read_link w req st = (Raise e, st, ev) ->
  after_auth w req st = (Raise e, st, ev).
Proof. intros H. unfold after_auth, bind. now rewrite H. Qed.

(** X5: a body that is absent, empty, or holds no [link] is answered with
    status 400 and "No link provided", logged as an error, and nothing is
    sent to the API beyond the login the check before it may have made. *)
Theorem missing_link_is_rejected (w : world) (data : json) (st st1 : proc) (ev1 : list event) :
  auth_check w st = (Ok tt, st1, ev1) ->
  truthy data = false \/ py_contains "link" data = inr false ->
  generate_charts w (Ok data) st =
  (Ok (error_response 400 "No link provided"), st1,
   (ev1 ++ [Log ERROR "No link provided in the request."])%list).
Proof.
  intros Ha Hd. eapply generate_charts_after_auth; [exact Ha|].
  apply after_auth_early. unfold read_link, lift_outcome.
  rewrite bind_unfold, ret_run.
  destruct (truthy data) eqn:Ht; cbn [negb].
  - destruct Hd as [Hd|Hd]; [discriminate|]. rewrite Hd. reflexivity.
  - reflexivity.
Qed.

Lemma missing_link_is_rejected_witness :
  generate_charts Sample.quiet (Ok JNull) Sample.logged_in
  = (Ok (error_response 400 "No link provided"), Sample.logged_in,
     [Log ERROR "No link provided in the request."])
  /\ generate_charts Sample.quiet (Ok (JObj [("url", JStr Sample.handle_link)])) Sample.logged_in
  = (Ok (error_response 400 "No link provided"), Sample.logged_in,
     [Log ERROR "No link provided in the request."]).
Proof.
  split.
  - apply (missing_link_is_rejected Sample.quiet JNull Sample.logged_in Sample.logged_in []).
    + reflexivity.
    + left. reflexivity.
  - apply (missing_link_is_rejected Sample.quiet _ Sample.logged_in Sample.logged_in []).
    + reflexivity.
    + right. reflexivity.
Defined.

(** X6: a [link] that is not a string (a number, a list, null, ...) is not
    a client error for the handler: [strip] fails on it and the answer is
    status 500 with the interpreter's message, after no call to the API but
    the login. *)
Theorem non_string_link_is_a_500 (w : world) (fields : list (string * json)) (v : json)
    (st st1 : proc) (ev1 : list event) :
  auth_check w st = (Ok tt, st1, ev1) ->
  dict_get "link" fields = Some v ->
  (forall s, v <> JStr s) ->
  generate_charts w (Ok (JObj fields)) st =
  (Ok (error_response 500 ("Error generating charts: " ++ fault_text w (FNoAttribute v "strip"))),
   st1,
   (ev1 ++ [Log ERROR ("Error generating charts: " ++ fault_text w (FNoAttribute v "strip"))])%list).
Proof.
  intros Ha Hl Hv.
  rewrite (generate_charts_after_auth_raise w _ st st1 ev1
             (fault_exn w (FNoAttribute v "strip")) st1 [] Ha); [reflexivity|].
  apply after_auth_read_raise. unfold read_link, lift_outcome.
  rewrite bind_unfold, ret_run. rewrite (dict_get_nonempty _ _ _ Hl). cbn [negb].
  unfold py_contains, py_getitem, dict_has. rewrite Hl. cbn [lift].
  rewrite bind_unfold, bind_unfold, ret_run, ret_run. cbn [negb].
  rewrite bind_unfold, ret_run, bind_unfold.
  destruct v; try reflexivity. now destruct (Hv s).
Qed.

Lemma non_string_link_is_a_500_witness :
  generate_charts Sample.quiet (Ok (JObj [("link", JNum 7)])) Sample.logged_in
  = (Ok (error_response 500 "Error generating charts: object has no attribute strip"),
     Sample.logged_in,
     [Log ERROR "Error generating charts: object has no attribute strip"]).
Proof.
  apply (non_string_link_is_a_500 Sample.quiet [("link", JNum 7)] (JNum 7)
           Sample.logged_in Sample.logged_in []).
  - reflexivity.
  - reflexivity.
  - discriminate.
Defined.

(** *** Surrounding whitespace *)

Lemma lstrip_fixed (s : string) :
  match s with String c _ => is_space c = false | EmptyString => True end -> lstrip s = s.
Proof. destruct s as [|c s]; [reflexivity|]. simpl. now intros ->. Qed.

Lemma lstrip_head (s : string) :
  match lstrip s with String c _ => is_space c = false | EmptyString => True end.
Proof.
  induction s as [|c s IH]; [exact I|]. simpl.
  destruct (is_space c) eqn:E; [exact IH|exact E].
Qed.

Lemma rstrip_head (s : string) :
  match s with String c _ => is_space c = false | EmptyString => True end ->
  match rstrip s with String c _ => is_space c = false | EmptyString => True end.
Proof.
  destruct s as [|c s]; [auto|]. simpl. intros Hc.
  destruct (rstrip s); [now rewrite Hc|exact Hc].
Qed.

Lemma rstrip_idempotent (s : string) : rstrip (rstrip s) = rstrip s.
Proof.
  induction s as [|c s IH]; [reflexivity|]. simpl.
  destruct (rstrip s) as [|c' r] eqn:Er.
  - destruct (is_space c) eqn:Ec; [reflexivity|]. simpl. now rewrite Ec.
  - simpl. simpl in IH. destruct (rstrip r) as [|c2 r2] eqn:Er2.
    + destruct (is_space c') eqn:Ec'; [discriminate|]. now rewrite IH.
    + now rewrite IH.
Qed.

Lemma strip_idempotent (s : string) : strip (strip s) = strip s.
Proof.
  unfold strip. rewrite (lstrip_fixed (rstrip (lstrip s))).
  - apply rstrip_idempotent.
  - apply rstrip_head, lstrip_head.
Qed.

Lemma after_auth_same_link w fields fields' url url' st :
  dict_get "link" fields = Some (JStr url) ->
  dict_get "link" fields' = Some (JStr url') ->
  strip url = strip url' ->
  after_auth w (Ok (JObj fields)) st = after_auth w (Ok (JObj fields')) st.
Proof.
  intros H H' Hs. unfold after_auth, bind.
  now rewrite (read_link_run _ _ _ _ H), (read_link_run _ _ _ _ H'), Hs.
Qed.

(** X7: the handler sees a body only through its stripped link: two bodies
    whose links agree once surrounding whitespace is removed get the same
    response, leave the same state and cause the same calls and log lines;
    in particular a link and its stripped form do. *)
Theorem response_depends_on_stripped_link (w : world) (fields fields' : list (string * json))
    (url url' : string) (st : proc) :
  dict_get "link" fields = Some (JStr url) ->
  dict_get "link" fields' = Some (JStr url') ->
  strip url = strip url' ->
  generate_charts w (Ok (JObj fields)) st = generate_charts w (Ok (JObj fields')) st
  /\ generate_charts w (Ok (JObj fields)) st
     = generate_charts w (Ok (JObj [("link", JStr (strip url))])) st.
Proof.
  intros H H' Hs.
  assert (Hgen : forall f1 f2 u1 u2,
            dict_get "link" f1 = Some (JStr u1) -> dict_get "link" f2 = Some (JStr u2) ->
            strip u1 = strip u2 ->
            generate_charts w (Ok (JObj f1)) st = generate_charts w (Ok (JObj f2)) st).
  { intros f1 f2 u1 u2 H1 H2 H12. unfold generate_charts, try_except.
    rewrite !body_split. unfold bind.
    destruct (auth_check w st) as [[[[]|e] st1] ev1]; [|reflexivity].
    now rewrite (after_auth_same_link w f1 f2 u1 u2 st1 H1 H2 H12). }
  split.
  - now apply (Hgen fields fields' url url').
  - apply (Hgen fields [("link", JStr (strip url))] url (strip url) H eq_refl).
    symmetry. apply strip_idempotent.
Qed.

Lemma response_depends_on_stripped_link_witness :
  generate_charts Sample.quiet (Sample.post "  https://bsky.app/profile/alice.example/post/3kabc ")
    Sample.logged_in
  = generate_charts Sample.quiet (Sample.post Sample.handle_link) Sample.logged_in.
Proof.
  apply (proj1 (response_depends_on_stripped_link Sample.quiet
                  [("link", JStr "  https://bsky.app/profile/alice.example/post/3kabc ")]
                  [("link", JStr Sample.handle_link)]
                  "  https://bsky.app/profile/alice.example/post/3kabc " Sample.handle_link
                  Sample.logged_in eq_refl eq_refl eq_refl)).
Defined.

(** ** What is drawn *)

Lemma indexedAt_items_none (items : list json) :
  Forall (fun x => py_contains "indexedAt" x = inr false) items ->
  indexedAt_items items = inr [].
Proof.
  induction 1 as [|x items Hx _ IH]; simpl; [reflexivity|]. now rewrite Hx.
Qed.

(** X8: whether the likes chart is drawn depends on there being likes, not
    on their having timestamps: likes of which none carries [indexedAt]
    still give a chart, with no bars, and the response names it. *)
Theorem likes_without_timestamps_draw_an_empty_chart (w : world) (handle : json)
    (post_id : string) (x : json) (likes : list json) (st : proc) :
  Forall (fun l => py_contains "indexedAt" l = inr false) (x :: likes) ->
  pyplot w (likes_chart w handle (post_link_of w handle post_id) [] []) = None ->
  render_and_respond w handle post_id (JArr []) (JArr (x :: likes)) st =
  (Ok (mkFlask 200 (JObj [("likes_chart", JStr "static/likes_chart.png")])), st,
   [Log INFO "Generating likes chart...";
    Plot (likes_chart w handle (post_link_of w handle post_id) [] []);
    Log INFO "Chart saved to static/likes_chart.png"]).
Proof.
  intros Hl Hp.
  apply (render_likes_only w handle post_id x likes [] [] [] st); [|reflexivity|exact Hp].
  unfold indexedAt_of, py_iter. now apply indexedAt_items_none.
Qed.

Lemma likes_without_timestamps_draw_an_empty_chart_witness :
  result_of (render_and_respond Sample.quiet (JStr "alice.example") "3kabc" (JArr [])
               (JArr [JObj [("actor", JStr "did:plc:xyz")]]) Sample.logged_in)
  = Ok (mkFlask 200 (JObj [("likes_chart", JStr "static/likes_chart.png")])).
Proof.
  rewrite (likes_without_timestamps_draw_an_empty_chart Sample.quiet (JStr "alice.example")
             "3kabc" (JObj [("actor", JStr "did:plc:xyz")]) [] Sample.logged_in).
  - reflexivity.
  - repeat constructor.
  - reflexivity.
Defined.

(** X9: the two collections are not treated alike.  Reposts that are empty
    in any sense (null, zero, an empty string, list or object) count as no
    reposts; likes are iterated before they are tested, so likes that are
    null, a number or a boolean raise, whatever the reposts. *)
Theorem falsy_reposts_pass_but_scalar_likes_raise (w : world) (handle : json)
    (post_id : string) (reposts likes : json) (st : proc) :
  (truthy reposts = false ->
     render_and_respond w handle post_id reposts (JArr []) st
     = (Ok (mkFlask 200 (JObj [])), st, []))
  /\ (match likes with JNull | JBool _ | JNum _ => True | _ => False end ->
        render_and_respond w handle post_id reposts likes st
        = (Raise (fault_exn w (FNotIterable likes)), st, [])).
Proof.
  split.
  - intros Hr. unfold render_and_respond.
    rewrite bind_unfold. cbn [indexedAt_of py_iter indexedAt_items lift]. rewrite ret_run.
    cbn [truthy]. rewrite bind_unfold, ret_run, Hr. reflexivity.
  - intros Hl. unfold render_and_respond. rewrite bind_unfold.
    destruct likes; try destruct Hl; reflexivity.
Qed.

Lemma falsy_reposts_pass_but_scalar_likes_raise_witness :
  render_and_respond Sample.quiet (JStr "alice.example") "3kabc" JNull (JArr []) Sample.logged_in
  = (Ok (mkFlask 200 (JObj [])), Sample.logged_in, [])
  /\ render_and_respond Sample.quiet (JStr "alice.example") "3kabc" JNull JNull Sample.logged_in
  = (Raise (fault_exn Sample.quiet (FNotIterable JNull)), Sample.logged_in, []).
Proof.
  split.
  - apply (proj1 (falsy_reposts_pass_but_scalar_likes_raise Sample.quiet (JStr "alice.example")
                    "3kabc" JNull JNull Sample.logged_in)).
    reflexivity.
  - apply (proj2 (falsy_reposts_pass_but_scalar_likes_raise Sample.quiet (JStr "alice.example")
                    "3kabc" JNull JNull Sample.logged_in)).
    exact I.
Defined.

Lemma comprehension_fails {A B} (f : A -> fault + B) (l : list A) (x : A) (e : fault) :
  In x l -> f x = inl e -> exists e', comprehension f l = inl e'.
Proof.
  induction l as [|y l IH]; simpl; [tauto|].
  intros [->|Hin] Hx.
  - rewrite Hx. eauto.
  - destruct (f y); [eauto|]. destruct (IH Hin Hx) as [e' ->]. eauto.
Qed.

(** X10: one timestamp that is not a string, or whose text before the first
    T [fromisoformat] rejects, stops the likes chart: the generator raises
    an [AttributeError] or a [ValueError], and nothing is handed to the
    renderer, whatever the other timestamps are. *)
Theorem one_bad_timestamp_stops_the_chart (w : world) (handle : json) (ts : list json)
    (post_link : string) (st : proc) (t : json) :
  In t ts -> bad_timestamp t ->
  exists f',
    generate_likes_chart w handle ts post_link st
    = (Raise (fault_exn w f'), st, [Log INFO "Generating likes chart..."])
    /\ (fault_class f' = ValueError \/ fault_class f' = AttributeError).
Proof.
  intros Hin Hbad.
  assert (Hf : exists f, date_of_timestamp t = inl f).
  { unfold date_of_timestamp. destruct t; eauto. cbn in Hbad. rewrite Hbad. eauto. }
  destruct Hf as [f Hf].
  destruct (comprehension_fails _ _ _ _ Hin Hf) as [f' Hc].
  exists f'. split.
  - unfold generate_likes_chart. rewrite bind_unfold, logging_info_run, bind_unfold.
    unfold daily_buckets. rewrite Hc. reflexivity.
  - clear -Hc. revert f' Hc. induction ts as [|y ts IH]; simpl; [discriminate|].
    intros f'. destruct (date_of_timestamp y) as [e|d] eqn:Ey.
    + intros H; inversion H; subst. unfold date_of_timestamp in Ey.
      destruct y; inversion Ey; auto.
      destruct (fromisoformat _); inversion Ey. auto.
    + destruct (comprehension date_of_timestamp ts) as [e|r]; [|discriminate].
      intros H; inversion H; subst. now apply IH.
Qed.

Lemma one_bad_timestamp_stops_the_chart_witness :
  exists f',
    generate_likes_chart Sample.quiet (JStr "alice.example")
      [JStr "2024-01-01T10:00:00Z"; JStr "yesterday"] "link" Sample.logged_in
    = (Raise (fault_exn Sample.quiet f'), Sample.logged_in, [Log INFO "Generating likes chart..."])
    /\ (fault_class f' = ValueError \/ fault_class f' = AttributeError).
Proof.
  apply (one_bad_timestamp_stops_the_chart Sample.quiet (JStr "alice.example") _ "link"
           Sample.logged_in (JStr "yesterday")).
  - right. left. reflexivity.
  - reflexivity.
Defined.

Lemma render_both w handle post_id x likes y reposts tss dates counts rtss rdates rcounts st :
  indexedAt_of (JArr (x :: likes)) = inr tss ->
  daily_buckets tss = inr (dates, counts) ->
  indexedAt_of (JArr (y :: reposts)) = inr rtss ->
  daily_buckets rtss = inr (rdates, rcounts) ->
  (forall c, pyplot w c = None) ->
  render_and_respond w handle post_id (JArr (y :: reposts)) (JArr (x :: likes)) st =
  (Ok (mkFlask 200 (JObj [("likes_chart", JStr "static/likes_chart.png");
                          ("reposts_chart", JStr "static/reposts_chart.png")])), st,
   [Log INFO "Generating likes chart...";
    Plot (likes_chart w handle (post_link_of w handle post_id) dates counts);
    Log INFO "Chart saved to static/likes_chart.png";
    Log INFO "Generating reposts chart...";
    Plot (reposts_chart w handle rdates rcounts);
    Log INFO "Chart saved to static/reposts_chart.png"]).
Proof.
  intros Hi Hb Hri Hrb Hp. unfold render_and_respond.
  unfold bind at 1. rewrite (lift_inr _ _ _ _ Hi). cbn [truthy].
  unfold bind at 1. unfold bind at 1.
  fold (post_link_of w handle post_id).
  rewrite (generate_likes_chart_ok _ _ _ _ _ _ _ Hb (Hp _)).
  rewrite ret_run. unfold bind at 1. unfold bind at 1.
  rewrite (generate_reposts_chart_ok _ _ _ _ _ _ _ Hri Hrb (Hp _)).
  reflexivity.
Qed.

(** X11: when both endpoints answer 200 with non-empty lists that can be
    bucketed and matplotlib draws, the response is status 200 with both
    chart paths; the reposts are fetched first and the likes are drawn
    first. *)
Theorem both_kinds_give_both_charts (w : world) (request_json : outcome json)
    (st st1 : proc) (did handle : json) (post_id : string) (ev1 : list event)
    (lfields rfields : list (string * json))
    (x y : json) (likes reposts tss rtss : list json)
    (dates rdates : list datetime) (counts rcounts : list nat) :
  prelude w request_json st = (Ok (inr (did, handle, post_id)), st1, ev1) ->
  http w (fetch_request w reposts_url (access_token st1) did post_id)
    = Reply 200 (Some (JObj rfields)) ->
  dict_get "repostedBy" rfields = Some (JArr (y :: reposts)) ->
  http w (fetch_request w likes_url (access_token st1) did post_id)
    = Reply 200 (Some (JObj lfields)) ->
  dict_get "likes" lfields = Some (JArr (x :: likes)) ->
  indexedAt_of (JArr (x :: likes)) = inr tss -> daily_buckets tss = inr (dates, counts) ->
  indexedAt_of (JArr (y :: reposts)) = inr rtss -> daily_buckets rtss = inr (rdates, rcounts) ->
  (forall c, pyplot w c = None) ->
  generate_charts w request_json st =
  (Ok (mkFlask 200 (JObj [("likes_chart", JStr "static/likes_chart.png");
                          ("reposts_chart", JStr "static/reposts_chart.png")])), st1,
   (ev1 ++ [Http (fetch_request w reposts_url (access_token st1) did post_id);
            Http (fetch_request w likes_url (access_token st1) did post_id)]
        ++ [Log INFO "Generating likes chart...";
            Plot (likes_chart w handle (post_link_of w handle post_id) dates counts);
            Log INFO "Chart saved to static/likes_chart.png";
            Log INFO "Generating reposts chart...";
            Plot (reposts_chart w handle rdates rcounts);
            Log INFO "Chart saved to static/reposts_chart.png"])%list).
Proof.
  intros Hp Hr Hrd Hl Hld Hi Hb Hri Hrb Hplot.
  unfold generate_charts. apply try_except_ok.
  unfold generate_charts_body. eapply bind_ok_eq; [exact Hp|]. cbv beta iota.
  eapply bind_ok_eq.
  - apply fetch_engagement_run.
    + rewrite Hr. unfold collection. cbn [Z.eqb Pos.eqb]. now rewrite Hrd.
    + rewrite Hl. unfold collection. cbn [Z.eqb Pos.eqb]. now rewrite Hld.
  - cbv beta iota. eapply render_both; eauto.
Qed.

Lemma both_kinds_give_both_charts_witness :
  exists ev,
    generate_charts Sample.busy (Sample.post Sample.did_link) Sample.logged_out
    = (Ok (mkFlask 200 (JObj [("likes_chart", JStr "static/likes_chart.png");
                              ("reposts_chart", JStr "static/reposts_chart.png")])),
       Sample.logged_in, ev).
Proof.
  eexists.
  eapply (both_kinds_give_both_charts Sample.busy (Sample.post Sample.did_link)
            Sample.logged_out Sample.logged_in (JStr "did:plc:abc") (JStr "alice.example")
            "3kabc");
    reflexivity.
Defined.

Lemma likes_status_failure_keeps_reposts_witness :
  exists ev,
    generate_charts Sample.likes_failing (Sample.post Sample.handle_link) Sample.logged_out
    = (Ok (mkFlask 200 (JObj [("reposts_chart", JStr "static/reposts_chart.png")])),
       Sample.logged_in, ev).
Proof.
  eapply (likes_status_failure_keeps_reposts Sample.likes_failing (Sample.post Sample.handle_link)
            Sample.logged_out Sample.logged_in (JStr "did:plc:abc") (JStr "alice.example") "3kabc"
            _ 500 None _ _ _ [JStr "2024-03-05T08:00:00Z"] [Sample.mar_5] [1%nat]);
    try reflexivity.
  lia.
Defined.

(** ** Logging in *)

(** X12: what [get_access_token] does with each kind of reply.  It returns
    only after storing a token that is true, taken from [accessJwt] of a
    JSON object under a status that is no error.  A call that fails for
    [requests] raises the plain "Authentication failed" exception and leaves
    the stored token as it was.  A JSON object whose [accessJwt] is missing
    or empty raises [ValueError ("Access token not retrieved.")] instead, by
    which time that empty value has already replaced the stored token. *)
Theorem get_access_token_outcomes (w : world) (st : proc) :
  (forall st1 ev,
     get_access_token w st = (Ok tt, st1, ev) ->
     truthy (access_token st1) = true
     /\ exists code fields,
          http w (session_request w) = Reply code (Some (JObj fields))
          /\ error_status code = false
          /\ dict_get "accessJwt" fields = Some (access_token st1))
  /\ (request_failed (http w (session_request w)) ->
        exists text,
          get_access_token w st =
          (Raise (mkExn PlainException "Authentication failed. Check your username and password."),
           st,
           [Log INFO "Attempting to log into Bluesky..."; Http (session_request w);
            Log ERROR ("Error during Bluesky authentication: " ++ text)]))
  /\ (forall code fields token,
        http w (session_request w) = Reply code (Some (JObj fields)) ->
        error_status code = false ->
        token = match dict_get "accessJwt" fields with Some v => v | None => JNull end ->
        truthy token = false ->
        get_access_token w st =
        (Raise (mkExn ValueError "Access token not retrieved."), mkProc token,
         [Log INFO "Attempting to log into Bluesky..."; Http (session_request w)])).
Proof.
  rewrite get_access_token_run. cbv beta zeta. unfold request_failed.
  split; [|split].
  - intros st1 ev.
    destruct (http w _) as [t|code body]; [intros H; inversion H|].
    destruct (error_status code) eqn:Hc; [intros H; inversion H|].
    destruct body as [[| | | | |fields]|]; try (intros H; inversion H; fail).
    destruct (dict_get "accessJwt" fields) as [v|] eqn:Hd.
    + destruct (truthy v) eqn:Hv; intros H; inversion H; subst. simpl.
      split; [exact Hv|]. eauto.
    + cbn [truthy]. intros H; inversion H.
  - destruct (http w _) as [t|code body]; [intros _; eauto|].
    destruct (error_status code); [intros _; eauto|].
    intros [H| ->]; [discriminate|eauto].
  - intros code fields token -> -> -> ->. reflexivity.
Qed.

Lemma get_access_token_outcomes_witness :
  (exists text,
     get_access_token Sample.login_refused Sample.logged_out =
     (Raise (mkExn PlainException "Authentication failed. Check your username and password."),
      Sample.logged_out,
      [Log INFO "Attempting to log into Bluesky..."; Http (session_request Sample.login_refused);
       Log ERROR ("Error during Bluesky authentication: " ++ text)]))
  /\ get_access_token Sample.login_without_token Sample.logged_in =
     (Raise (mkExn ValueError "Access token not retrieved."), mkProc JNull,
      [Log INFO "Attempting to log into Bluesky...";
       Http (session_request Sample.login_without_token)]).
Proof.
  split.
  - apply (proj1 (proj2 (get_access_token_outcomes Sample.login_refused Sample.logged_out))).
    left. reflexivity.
  - apply (proj2 (proj2 (get_access_token_outcomes Sample.login_without_token Sample.logged_in))
             200 [("handle", JStr "viewer.example")] JNull); reflexivity.
Defined.

(** X13: without a cached token, a login that fails for [requests] ends the
    request before its body is even read: whatever was posted, the answer is
    status 500 with the "Authentication failed" text, the only call made is
    the login, and the token stays absent, so that the next request tries to
    log in again. *)
Theorem failed_login_ends_the_request (w : world) (request_json : outcome json) (st : proc) :
  truthy (access_token st) = false ->
  request_failed (http w (session_request w)) ->
  (exists text,
     generate_charts w request_json st =
     (Ok (error_response 500
            "Error generating charts: Authentication failed. Check your username and password."),
      st,
      [Log INFO "Attempting to log into Bluesky..."; Http (session_request w);
       Log ERROR ("Error during Bluesky authentication: " ++ text);
       Log ERROR "Error generating charts: Authentication failed. Check your username and password."]))
  /\ forall w' request_json',
       Exists (fun ev => calls session_url ev = true)
         (events_of (generate_charts w' request_json'
                       (state_of (generate_charts w request_json st)))).
Proof.
  intros Ht Hf.
  destruct (proj1 (proj2 (get_access_token_outcomes w st)) Hf) as [text Hg].
  assert (Hrun : generate_charts w request_json st =
     (Ok (error_response 500
            "Error generating charts: Authentication failed. Check your username and password."),
      st,
      [Log INFO "Attempting to log into Bluesky..."; Http (session_request w);
       Log ERROR ("Error during Bluesky authentication: " ++ text);
       Log ERROR "Error generating charts: Authentication failed. Check your username and password."])).
  { unfold generate_charts, try_except. rewrite body_split.
    unfold bind. rewrite auth_check_run, Ht, Hg. reflexivity. }
  split; [eauto|].
  intros w' request_json'. rewrite Hrun. cbn [state_of fst snd].
  now apply session_called_when_absent.
Qed.

Lemma failed_login_ends_the_request_witness :
  exists text,
    generate_charts Sample.login_refused (Sample.post Sample.handle_link) Sample.logged_out =
    (Ok (error_response 500
           "Error generating charts: Authentication failed. Check your username and password."),
     Sample.logged_out,
     [Log INFO "Attempting to log into Bluesky..."; Http (session_request Sample.login_refused);
      Log ERROR ("Error during Bluesky authentication: " ++ text);
      Log ERROR "Error generating charts: Authentication failed. Check your username and password."]).
Proof.
  apply (proj1 (failed_login_ends_the_request Sample.login_refused
                  (Sample.post Sample.handle_link) Sample.logged_out eq_refl
                  (or_introl eq_refl))).
Defined.

(** ** Every call carries the token *)

Lemma sends_ret w st {A} (a : A) : sends w st (ret a).
Proof. split; [constructor|reflexivity]. Qed.

Lemma sends_raise w st {A} (e : exn) : sends w st (@raise A e).
Proof. split; [constructor|reflexivity]. Qed.

Lemma sends_emit w st (ev : event) : authorized w (access_token st) ev -> sends w st (emit ev).
Proof. intros H. split; [repeat constructor; exact H|reflexivity]. Qed.

Lemma sends_lift w st {A} (r : fault + A) : sends w st (lift w r).
Proof. destruct r; [apply sends_raise|apply sends_ret]. Qed.

Lemma sends_lift_outcome w st {A} (o : outcome A) : sends w st (lift_outcome o).
Proof. destruct o; [apply sends_ret|apply sends_raise]. Qed.

Lemma sends_bind w st {A B} (m : M A) (k : A -> M B) :
  sends w st m -> (forall a, sends w st (k a)) -> sends w st (bind m k).
Proof.
  unfold sends, bind, events_of, state_of. intros [Hm Hs] Hk.
  destruct (m st) as [[[a|e] st1] ev1]; simpl in *; [|auto]. subst st1.
  destruct (Hk a) as [Hka Hks]. destruct (k a st) as [[r st2] ev2]; simpl in *.
  split; [apply Forall_app; auto|assumption].
Qed.

Lemma sends_read_bind w st {B} (k : json -> M B) :
  sends w st (k (access_token st)) -> sends w st (bind read_access_token k).
Proof.
  unfold sends, bind, read_access_token, events_of, state_of. simpl.
  destruct (k (access_token st) st) as [[r st2] ev2]. auto.
Qed.

Lemma sends_try_except w st {A} (m : M A) catches handler :
  sends w st m -> (forall e, sends w st (handler e)) -> sends w st (try_except m catches handler).
Proof.
  unfold sends, try_except, events_of, state_of. intros [Hm Hs] Hh.
  destruct (m st) as [[[a|e] st1] ev1]; simpl in *; [auto|]. subst st1.
  destruct (catches e); [|auto].
  destruct (Hh e) as [Hhe Hhs]. destruct (handler e st) as [[r st2] ev2]; simpl in *.
  split; [apply Forall_app; auto|assumption].
Qed.

Lemma sends_requests_get w st url params :
  sends w st (requests_get w url (bearer w (access_token st)) params).
Proof.
  unfold requests_get, requests_call. apply sends_bind.
  - apply sends_emit. right. split; reflexivity.
  - intros _. destruct (http w _); [apply sends_raise|apply sends_ret].
Qed.

Ltac sends_step :=
  match goal with
  | |- sends _ _ (bind read_access_token _) => apply sends_read_bind
  | |- sends _ _ (bind _ _) => apply sends_bind; [|intros]
  | |- sends _ _ (ret _) => apply sends_ret
  | |- sends _ _ (raise _) => apply sends_raise
  | |- sends _ _ (lift _ _) => apply sends_lift
  | |- sends _ _ (lift_outcome _) => apply sends_lift_outcome
  | |- sends _ _ (try_except _ _ _) => apply sends_try_except; [|intros]
  | |- sends _ _ (requests_get _ _ (bearer _ (access_token _)) _) => apply sends_requests_get
  | |- sends _ _ (emit _) => apply sends_emit; exact I
  | |- sends _ _ (logging_info _) => apply sends_emit; exact I
  | |- sends _ _ (logging_error _) => apply sends_emit; exact I
  | |- sends _ _ (if ?b then _ else _) => destruct b
  | |- sends _ _ (match ?x with _ => _ end) => destruct x
  end.

Lemma sends_resolve_did w st handle : sends w st (resolve_did w handle).
Proof. unfold resolve_did, raise_for_status, response_json. repeat sends_step. Qed.

Lemma sends_fetch_username w st api_url did :
  sends w st (fetch_username_from_did w api_url (access_token st) did).
Proof. unfold fetch_username_from_did, raise_for_status, response_json. repeat sends_step. Qed.

Lemma sends_generate_chart w st colors title xl yl dates counts path :
  sends w st (generate_chart w colors title xl yl dates counts path).
Proof. unfold generate_chart. repeat sends_step. Qed.

Lemma sends_after_auth w st req : sends w st (after_auth w req).
Proof.
  unfold after_auth, read_link, identify, fetch_engagement, render_and_respond,
    generate_likes_chart, generate_reposts_chart, response_json.
  repeat first [ sends_step | apply sends_resolve_did | apply sends_fetch_username
               | apply sends_generate_chart ].
Qed.

Lemma authorized_login w token ev :
  In ev [Log INFO "Attempting to log into Bluesky..."; Http (session_request w)]
  -> authorized w token ev.
Proof. intros [<-|[<-|[]]]; [exact I|now left]. Qed.

Lemma get_access_token_events w st token :
  Forall (authorized w token) (events_of (get_access_token w st))
  /\ Forall (fun ev => ~ is_get ev) (events_of (get_access_token w st)).
Proof.
  rewrite get_access_token_run. cbv beta zeta.
  assert (Hs : authorized w token (Http (session_request w))) by now left.
  assert (Hn : ~ is_get (Http (session_request w))).
  { intros (r & H & Hg). inversion H; subst. discriminate. }
  assert (Hl : forall l t, ~ is_get (Log l t)).
  { intros l t (r & H & _). discriminate. }
  destruct (http w _) as [t|code body]; [split; repeat constructor; auto|].
  destruct (error_status code); [split; repeat constructor; auto|].
  destruct body as [[| | | | |fields]|]; try (split; repeat constructor; auto; fail).
  destruct (truthy _); split; repeat constructor; auto.
Qed.

(** X14: every call a request makes is either the login or a GET whose only
    header is [Authorization: Bearer] followed by the token the process
    holds when the request ends; and if any GET was made at all, that token
    is not empty. *)
Theorem every_call_carries_the_token (w : world) (request_json : outcome json) (st : proc) :
  Forall (authorized w (access_token (state_of (generate_charts w request_json st))))
    (events_of (generate_charts w request_json st))
  /\ (Exists is_get (events_of (generate_charts w request_json st)) ->
      truthy (access_token (state_of (generate_charts w request_json st))) = true).
Proof.
  unfold generate_charts, try_except. rewrite body_split. unfold bind.
  rewrite auth_check_run.
  assert (Hlog : forall t, ~ is_get (Log ERROR t)).
  { intros t (r & H & _). discriminate. }
  destruct (truthy (access_token st)) eqn:Ht.
  - destruct (sends_after_auth w st request_json) as [Hev Hst].
    unfold events_of, state_of in *.
    destruct (after_auth w request_json st) as [[[r|e] st2] ev2]; simpl in *; subst st2.
    + split; [exact Hev|now intros _].
    + split; [|now intros _]. apply Forall_app. split; [exact Hev|]. now repeat constructor.
  - pose proof (get_access_token_events w st) as Hg.
    pose proof (auth_check_ok w st) as Hok. rewrite auth_check_run, Ht in Hok.
    unfold events_of, state_of in *.
    destruct (get_access_token w st) as [[[[]|e] st1] ev1]; simpl in *.
    + specialize (Hok st1 ev1 eq_refl).
      destruct (sends_after_auth w st1 request_json) as [Hev Hst].
      unfold events_of, state_of in *.
      destruct (after_auth w request_json st1) as [[[r|e] st2] ev2]; simpl in *; subst st2.
      * split; [|now intros _]. apply Forall_app. split; [apply Hg|exact Hev].
      * split; [|now intros _]. rewrite !Forall_app.
        repeat split; [apply Hg|exact Hev|now repeat constructor].
    + split.
      * apply Forall_app. split; [apply Hg|now repeat constructor].
      * intros He. exfalso. apply Exists_app in He. destruct He as [He|He].
        -- destruct (Hg JNull) as [_ Hn]. apply Exists_exists in He.
           destruct He as (ev & Hin & Hget). rewrite Forall_forall in Hn. now apply (Hn ev).
        -- inversion He as [? ? H|? ? H]; subst; [now apply (Hlog _ H)|inversion H].
Qed.

(** ** The responses *)

(** X15: the endpoint only ever answers in one of four ways: status 200
    with the fixed path of each chart that was drawn and nothing else;
    status 400 with "No link provided" or with "Invalid link format.";
    or status 500 with "Error generating charts: " and a message.  A 200
    never carries an [error] key. *)
Theorem responses_have_one_of_four_shapes (w : world) (request_json : outcome json) (st : proc) :
  exists r,
    result_of (generate_charts w request_json st) = Ok r
    /\ expected_response r
    /\ (status r = 200 -> forall fields, payload r = JObj fields -> dict_get "error" fields = None).
Proof.
  assert (Hbody : yields expected_response (generate_charts_body w request_json)).
  { assert (Hy : yields expected_response
                     (bind (auth_check w) (fun _ => after_auth w request_json))).
    { apply (yields_bind (fun _ => True)); [apply yields_any|intros _ _].
      apply yields_after_auth. }
    intros st0 a st1 ev E. rewrite body_split in E. exact (Hy _ _ _ _ E). }
  unfold generate_charts, try_except, result_of.
  destruct (generate_charts_body w request_json st) as [[[r|e] st1] ev1] eqn:E; simpl.
  - exists r. split; [reflexivity|]. pose proof (Hbody _ _ _ _ E) as Hr. split; [exact Hr|].
    intros Hs fields Hf.
    destruct Hr as [(_ & l & rp & Hpay)|[->|[->|(t & ->)]]];
      try (cbn in Hs; discriminate).
    rewrite Hpay in Hf. inversion Hf; subst. now destruct l, rp.
  - eexists. split; [reflexivity|]. split; [|discriminate].
    right. right. right. exists (exn_str e). reflexivity.
Qed.

(** ** A process and its token *)

Lemma no_session_calls (evs : list event) :
  Forall (fun ev => calls session_url ev = false) evs -> session_calls evs = 0%nat.
Proof.
  unfold session_calls. induction 1 as [|ev evs H _ IH]; simpl; [reflexivity|].
  now rewrite H.
Qed.

Lemma session_calls_app (a b : list event) :
  session_calls (a ++ b) = (session_calls a + session_calls b)%nat.
Proof. unfold session_calls. now rewrite filter_app, length_app. Qed.

Lemma serve_logged_in (requests : list (world * outcome json)) (st : proc) :
  truthy (access_token st) = true ->
  snd (fst (serve requests st)) = st /\ session_calls (snd (serve requests st)) = 0%nat.
Proof.
  intros Ht. induction requests as [|[w req] rest IH]; simpl; [split; reflexivity|].
  destruct (cached_credential_run w req st Ht) as [Hev Hst].
  unfold events_of, state_of in *.
  destruct (generate_charts w req st) as [[r st1] ev1]; simpl in *. subst st1.
  destruct IH as [IHs IHc]. destruct (serve rest st) as [[rs st2] ev2]; simpl in *.
  split; [exact IHs|]. rewrite session_calls_app, IHc, (no_session_calls _ Hev). reflexivity.
Qed.

Lemma get_access_token_one_call w st :
  session_calls (events_of (get_access_token w st)) = 1%nat.
Proof.
  rewrite get_access_token_run. cbv beta zeta.
  destruct (http w _) as [t|code body]; [reflexivity|].
  destruct (error_status code); [reflexivity|].
  destruct body as [[| | | | |fields]|]; try reflexivity.
  destruct (truthy _); reflexivity.
Qed.

(** X16: a process that logs in when it starts and then handles requests
    one after the other calls the login endpoint exactly once in its life:
    no request logs in again, and the token obtained at the start is the one
    the process still holds at the end, whatever the requests and whatever
    the API answers later.  If the login at the start raises, nothing is
    served. *)
Theorem one_login_per_process (w : world) (requests : list (world * outcome json)) (st : proc) :
  (forall rs st2 ev,
     main w requests st = (Ok rs, st2, ev) ->
     session_calls ev = 1%nat
     /\ length rs = length requests
     /\ truthy (access_token st2) = true
     /\ st2 = state_of (get_access_token w st))
  /\ (forall e st1 ev,
        get_access_token w st = (Raise e, st1, ev) ->
        main w requests st = (Raise e, st1, ev)).
Proof.
  unfold main. split.
  - intros rs st2 ev.
    pose proof (get_access_token_one_call w st) as Hone.
    pose proof (proj1 (get_access_token_outcomes w st)) as Hok.
    unfold events_of, state_of in *.
    destruct (get_access_token w st) as [[[[]|e] st1] ev1]; simpl in *; [|intros H; inversion H].
    destruct (Hok st1 ev1 eq_refl) as [Ht _].
    destruct (serve_logged_in requests st1 Ht) as [Hs Hc].
    assert (Hlen : length (fst (fst (serve requests st1))) = length requests).
    { clear. revert st1. induction requests as [|[w' req] rest IH]; intros st1; simpl; [reflexivity|].
      destruct (generate_charts w' req st1) as [[r st'] ev']. specialize (IH st').
      destruct (serve rest st') as [[rs' st''] ev'']. simpl in *. now rewrite IH. }
    destruct (serve requests st1) as [[rs' st2'] ev2]; simpl in *.
    intros H; inversion H; subst. rewrite session_calls_app, Hone, Hc. auto.
  - intros e st1 ev ->. reflexivity.
Qed.

Lemma one_login_per_process_witness :
  session_calls
    (snd (main Sample.quiet
            [(Sample.quiet, Sample.post Sample.handle_link);
             (Sample.login_refused, Sample.post Sample.did_link)] Sample.logged_out))
  = 1%nat.
Proof.
  eapply (proj1 (one_login_per_process Sample.quiet
                   [(Sample.quiet, Sample.post Sample.handle_link);
                    (Sample.login_refused, Sample.post Sample.did_link)] Sample.logged_out)).
  reflexivity.
Defined.

(** ** What the lookups return *)

Lemma http_calls_app (a b : list event) : http_calls (a ++ b) = (http_calls a ++ http_calls b)%list.
Proof. unfold http_calls. apply flat_map_app. Qed.

(** X17: [resolve_did] makes exactly one call, the GET of the handle with
    the bearer of the stored token, and leaves the token alone; what it
    returns, when it returns, is either [None] or the [did] of the reply,
    which is then not empty and comes from a JSON object under a status that
    is no error. *)
Theorem resolve_did_returns_none_or_the_did (w : world) (handle : string) (st : proc) :
  http_calls (events_of (resolve_did w handle st)) = [resolve_request w (access_token st) handle]
  /\ state_of (resolve_did w handle st) = st
  /\ forall v,
       result_of (resolve_did w handle st) = Ok v ->
       v = JNull
       \/ (truthy v = true
           /\ exists code fields,
                http w (resolve_request w (access_token st) handle)
                  = Reply code (Some (JObj fields))
                /\ error_status code = false
                /\ dict_get "did" fields = Some v).
Proof.
  rewrite resolve_did_run. cbv beta zeta.
  assert (Hnone : forall ev : list event,
            http_calls ev = [resolve_request w (access_token st) handle] ->
            http_calls (events_of (Ok JNull, st, ev)) = [resolve_request w (access_token st) handle]
            /\ state_of (Ok JNull, st, ev) = st
            /\ forall v, result_of (Ok JNull, st, ev) = Ok v ->
                 v = JNull
                 \/ (truthy v = true
                     /\ exists code fields,
                          http w (resolve_request w (access_token st) handle)
                            = Reply code (Some (JObj fields))
                          /\ error_status code = false
                          /\ dict_get "did" fields = Some v)).
  { intros ev Hev. repeat split; [exact Hev|]. intros v H. inversion H. now left. }
  destruct (http w (resolve_request w (access_token st) handle)) as [t|code body] eqn:Hr;
    [now apply Hnone|].
  destruct (error_status code) eqn:Hc; [now apply Hnone|].
  destruct body as [[| | | | |fields]|];
    try (now apply Hnone);
    try (repeat split; intros v H; inversion H; fail).
  destruct (dict_get "did" fields) as [d|] eqn:Hd.
  - destruct (truthy d) eqn:Ht; [|now apply Hnone].
    repeat split. intros v H. inversion H; subst. right. split; [exact Ht|].
    exists code, fields. auto.
  - cbn [truthy]. now apply Hnone.
Qed.

(** X18: a profile lookup that fails does not stop a DID link: the handle
    is [None], the fetch stage is entered with the DID of the link, and the
    post link written into the chart title reads [None] where the handle
    belongs. *)
Theorem failed_profile_lookup_is_tolerated (w : world) (link did post_id : string) (st : proc) :
  re_match did_in_profile_pattern link = Some (did, post_id) ->
  lookup_failed "handle" (http w (profile_request w API_URL (access_token st) did)) ->
  result_of (identify w link st) = Ok (inr (JStr did, JNull, post_id))
  /\ state_of (identify w link st) = st
  /\ at_uri w (JStr did) post_id = "at://" ++ did ++ "/app.bsky.feed.post/" ++ post_id
  /\ post_link_of w JNull post_id = "https://bsky.app/profile/None/post/" ++ post_id.
Proof.
  intros Hm Hf.
  rewrite (identify_did_branch w _ st _ _ Hm).
  assert (H : exists ev, fetch_username_from_did w API_URL (access_token st) did st
                         = (Ok JNull, st, ev)).
  { rewrite fetch_username_run. cbv beta zeta. unfold lookup_failed in Hf.
    destruct (http w _) as [t|code body]; [eauto|].
    destruct (error_status code); [eauto|].
    destruct Hf as [Hf|[->|(fields & -> & ->)]]; [discriminate|eauto|eauto]. }
  destruct H as [ev H]. unfold bind. rewrite H. repeat split.
Qed.

Lemma failed_profile_lookup_is_tolerated_witness :
  result_of (identify Sample.offline Sample.did_link Sample.logged_in)
  = Ok (inr (JStr "did:plc:abc", JNull, "3kabc")).
Proof.
  apply (failed_profile_lookup_is_tolerated Sample.offline Sample.did_link "did:plc:abc" "3kabc"
           Sample.logged_in eq_refl).
  exact I.
Defined.

Lemma every_call_carries_the_token_witness :
  truthy (access_token (state_of (generate_charts Sample.quiet (Sample.post Sample.handle_link)
                                    Sample.logged_out))) = true.
Proof.
  apply (proj2 (every_call_carries_the_token Sample.quiet (Sample.post Sample.handle_link)
                  Sample.logged_out)).
  apply Exists_exists.
  exists (Http (resolve_request Sample.quiet (JStr "jwt") "alice.example")).
  split.
  - right. right. right. right. right. left. reflexivity.
  - eexists. split; reflexivity.
Defined.

(** ** A chart that cannot be drawn *)

Lemma generate_reposts_chart_fails w handle reposts tss dates counts e st :
  indexedAt_of reposts = inr tss ->
  daily_buckets tss = inr (dates, counts) ->
  pyplot w (reposts_chart w handle dates counts) = Some e ->
  generate_reposts_chart w handle reposts st =
  (Raise e, st,
   [Log INFO "Generating reposts chart..."; Plot (reposts_chart w handle dates counts)]).
Proof.
  intros Hi Hb Hp. unfold generate_reposts_chart, generate_chart, reposts_chart in *.
  unfold bind, logging_info, emit, lift. rewrite Hi. cbn [ret]. rewrite Hb. cbn [ret].
  now rewrite Hp.
Qed.

Lemma generate_likes_chart_fails w handle tss post_link dates counts e st :
  daily_buckets tss = inr (dates, counts) ->
  pyplot w (likes_chart w handle post_link dates counts) = Some e ->
  generate_likes_chart w handle tss post_link st =
  (Raise e, st,
   [Log INFO "Generating likes chart..."; Plot (likes_chart w handle post_link dates counts)]).
Proof.
  intros Hb Hp. unfold generate_likes_chart, generate_chart, likes_chart in *.
  unfold bind, logging_info, emit, lift. rewrite Hb. cbn [ret]. now rewrite Hp.
Qed.

Lemma generate_charts_fetched w req st st1 ev1 did handle post_id reposts likes :
  prelude w req st = (Ok (inr (did, handle, post_id)), st1, ev1) ->
  collection "repostedBy" (http w (fetch_request w reposts_url (access_token st1) did post_id))
    = Some reposts ->
  collection "likes" (http w (fetch_request w likes_url (access_token st1) did post_id))
    = Some likes ->
  generate_charts_body w req st =
  let '(r, st2, ev2) := render_and_respond w handle post_id reposts likes st1 in
  (r, st2,
   (ev1 ++ [Http (fetch_request w reposts_url (access_token st1) did post_id);
            Http (fetch_request w likes_url (access_token st1) did post_id)] ++ ev2)%list).
Proof.
  intros Hp Hr Hl. unfold generate_charts_body.
  rewrite bind_unfold, Hp. cbv beta iota.
  rewrite bind_unfold, (fetch_engagement_run _ _ _ _ _ _ Hr Hl). cbv beta iota.
  destruct (render_and_respond w handle post_id reposts likes st1) as [[r st2] ev2].
  reflexivity.
Qed.

(** X20: the likes chart is drawn before the reposts chart, and a drawing
    that fails ends the request with status 500.  When the likes chart
    cannot be drawn the reposts chart is never attempted; when the reposts
    chart cannot be drawn the likes chart has already been saved, and the
    response still carries no chart: only the message of the failure. *)
Theorem a_failed_drawing_is_a_500 (w : world) (request_json : outcome json)
    (st st1 : proc) (did handle : json) (post_id : string) (ev1 : list event)
    (x y : json) (likes reposts tss rtss : list json)
    (dates rdates : list datetime) (counts rcounts : list nat) (e : exn) :
  prelude w request_json st = (Ok (inr (did, handle, post_id)), st1, ev1) ->
  collection "repostedBy" (http w (fetch_request w reposts_url (access_token st1) did post_id))
    = Some (JArr (y :: reposts)) ->
  collection "likes" (http w (fetch_request w likes_url (access_token st1) did post_id))
    = Some (JArr (x :: likes)) ->
  indexedAt_of (JArr (x :: likes)) = inr tss -> daily_buckets tss = inr (dates, counts) ->
  indexedAt_of (JArr (y :: reposts)) = inr rtss -> daily_buckets rtss = inr (rdates, rcounts) ->
  let fetches := [Http (fetch_request w reposts_url (access_token st1) did post_id);
                  Http (fetch_request w likes_url (access_token st1) did post_id)] in
  let likes_drawing := Plot (likes_chart w handle (post_link_of w handle post_id) dates counts) in
  let failure := "Error generating charts: " ++ exn_str e in
  (pyplot w (likes_chart w handle (post_link_of w handle post_id) dates counts) = Some e ->
   generate_charts w request_json st =
   (Ok (error_response 500 failure), st1,
    (ev1 ++ fetches
         ++ [Log INFO "Generating likes chart..."; likes_drawing; Log ERROR failure])%list))
  /\ (pyplot w (likes_chart w handle (post_link_of w handle post_id) dates counts) = None ->
      pyplot w (reposts_chart w handle rdates rcounts) = Some e ->
      generate_charts w request_json st =
      (Ok (error_response 500 failure), st1,
       (ev1 ++ fetches
            ++ [Log INFO "Generating likes chart..."; likes_drawing;
                Log INFO "Chart saved to static/likes_chart.png";
                Log INFO "Generating reposts chart...";
                Plot (reposts_chart w handle rdates rcounts);
                Log ERROR failure])%list)).
Proof.
  intros Hp Hr Hl Hi Hb Hri Hrb fetches likes_drawing failure.
  subst fetches likes_drawing failure.
  pose proof (generate_charts_fetched _ _ _ _ _ _ _ _ _ _ Hp Hr Hl) as Hbody.
  split.
  - intros Hfail.
    assert (Hrender : render_and_respond w handle post_id (JArr (y :: reposts))
                        (JArr (x :: likes)) st1
                      = (Raise e, st1,
                         [Log INFO "Generating likes chart...";
                          Plot (likes_chart w handle (post_link_of w handle post_id) dates counts)])).
    { unfold render_and_respond.
      unfold bind at 1. rewrite (lift_inr _ _ _ _ Hi). cbn [truthy].
      unfold bind at 1. unfold bind at 1.
      fold (post_link_of w handle post_id).
      rewrite (generate_likes_chart_fails _ _ _ _ _ _ _ _ Hb Hfail). reflexivity. }
    rewrite Hrender in Hbody. unfold generate_charts, try_except. rewrite Hbody.
    cbn [logging_error emit bind ret]. unfold bind, logging_error, emit, ret.
    rewrite <- !app_assoc. reflexivity.
  - intros Hok Hfail.
    assert (Hrender : render_and_respond w handle post_id (JArr (y :: reposts))
                        (JArr (x :: likes)) st1
                      = (Raise e, st1,
                         [Log INFO "Generating likes chart...";
                          Plot (likes_chart w handle (post_link_of w handle post_id) dates counts);
                          Log INFO "Chart saved to static/likes_chart.png";
                          Log INFO "Generating reposts chart...";
                          Plot (reposts_chart w handle rdates rcounts)])).
    { unfold render_and_respond.
      unfold bind at 1. rewrite (lift_inr _ _ _ _ Hi). cbn [truthy].
      unfold bind at 1. unfold bind at 1.
      fold (post_link_of w handle post_id).
      rewrite (generate_likes_chart_ok _ _ _ _ _ _ _ Hb Hok).
      rewrite ret_run. unfold bind at 1. unfold bind at 1.
      rewrite (generate_reposts_chart_fails _ _ _ _ _ _ _ _ Hri Hrb Hfail). reflexivity. }
    rewrite Hrender in Hbody. unfold generate_charts, try_except. rewrite Hbody.
    unfold bind, logging_error, emit, ret.
    rewrite <- !app_assoc. reflexivity.
Qed.

Lemma a_failed_drawing_is_a_500_witness :
  result_of (generate_charts Sample.reposts_unwritable (Sample.post Sample.did_link)
               Sample.logged_in)
  = Ok (error_response 500
          "Error generating charts: [Errno 13] Permission denied: 'static/reposts_chart.png'").
Proof.
  refine (f_equal (fun r => result_of r)
            (proj2 (a_failed_drawing_is_a_500 Sample.reposts_unwritable
                      (Sample.post Sample.did_link) Sample.logged_in Sample.logged_in
                      (JStr "did:plc:abc") (JStr "alice.example") "3kabc" _
                      _ _ _ _ _ _ _ _ _ _
                      (mkExn (OtherException "PermissionError")
                         "[Errno 13] Permission denied: 'static/reposts_chart.png'")
                      eq_refl eq_refl eq_refl eq_refl eq_refl eq_refl eq_refl) eq_refl eq_refl)).
Defined.
